(** * SharkAI: the adaptive decision engine of texas_holdem/ai/shark_ai.py

    A shallow embedding of the Python module and the properties of its
    specification.

    Conventions of the embedding.
    - Python [int] is [Z].  Python [float] is modelled by exact rationals
      [Q]: a decimal literal denotes its decimal value and the arithmetic
      is exact.  [float('inf')] is the extra value [PosInf] of [xfloat].
    - A [dict] with string keys whose iteration order is irrelevant is a
      [gmap string _]; a dict whose iteration order is observable (the
      opponent registry, the action weights) is an association list in
      insertion order.
    - [self] is threaded explicitly: a method that mutates the object
      returns the new object.
    - A Python exception is the [Raise] case of [result]. *)

From Stdlib Require Import ZArith QArith Qminmax Qround Lqa Lia List String Bool.
From Stdlib Require Import Sorted.
From stdpp Require Import gmap strings.
Import ListNotations.

Local Open Scope Z_scope.
Local Open Scope Q_scope.
Local Open Scope string_scope.

(** ** Numbers *)

Definition Qltb (x y : Q) : bool := negb (Qle_bool y x).

(** [min(a, b)] and [max(a, b)] of Python: the first argument wins ties. *)
Definition py_min (a b : Q) : Q := if Qltb b a then b else a.
Definition py_max (a b : Q) : Q := if Qltb a b then b else a.

(** [int(x)] truncates toward zero. *)
Definition py_int (q : Q) : Z := if Qle_bool 0 q then Qfloor q else Qceiling q.

(** Floats extended with [float('inf')]. *)
Inductive xfloat : Type :=
  | Finite (q : Q)
  | PosInf.

(** [x > c] for a finite constant [c]. *)
Definition xgtb (x : xfloat) (c : Q) : bool :=
  match x with
  | Finite q => Qltb c q
  | PosInf => true
  end.

(** [x < y] on extended floats. *)
Definition xlt (x y : xfloat) : Prop :=
  match x, y with
  | Finite a, Finite b => a < b
  | Finite _, PosInf => True
  | PosInf, _ => False
  end.

(** [spr > c] and [spr <= c] as propositions *)
Definition xgt (x : xfloat) (c : Q) : Prop :=
  match x with
  | Finite q => c < q
  | PosInf => True
  end.

Definition xle (x : xfloat) (c : Q) : Prop :=
  match x with
  | Finite q => q <= c
  | PosInf => False
  end.

(** ** Exceptions *)

Inductive PyExn : Type :=
  | ZeroDivisionError
  | IndexError
  | KeyError (key : string).

Inductive result (A : Type) : Type :=
  | Ok (a : A)
  | Raise (e : PyExn).
Arguments Ok {A} a.
Arguments Raise {A} e.

Definition bind {A B : Type} (m : result A) (f : A -> result B) : result B :=
  match m with
  | Ok a => f a
  | Raise e => Raise e
  end.

Notation "'let*' x ':=' m 'in' k" := (bind m (fun x => k))
  (at level 10, x name, m at level 100, k at level 200).

(** [a / b] on floats. *)
Definition py_div (a b : Q) : result Q :=
  if Qeq_bool b 0 then Raise ZeroDivisionError else Ok (a / b).

(** ** Dynamically typed dictionary values *)

Inductive PyVal : Type :=
  | VFloat (q : Q)
  | VBool (b : bool).

(** Truth value of an object. *)
Definition truthy (v : PyVal) : bool :=
  match v with
  | VBool b => b
  | VFloat q => negb (Qeq_bool q 0)
  end.

(** Numeric value of an object ([True] is 1, [False] is 0). *)
Definition as_float (v : PyVal) : Q :=
  match v with
  | VFloat q => q
  | VBool true => 1
  | VBool false => 0
  end.

(** [d[k]] *)
Definition getitem {V : Type} (d : gmap string V) (k : string) : result V :=
  match d !! k with
  | Some v => Ok v
  | None => Raise (KeyError k)
  end.

(** [k in names] for a list of strings. *)
Definition in_names (k : string) (names : list string) : bool :=
  existsb (String.eqb k) names.

(** ** Cards and players *)

(** Modelled from the spec: the [Card] class (core/card.py) is not among
    the sources; a card has a suit, one of four symbols, and a rank value
    2..14 with 14 the ace. *)
Inductive Suit : Type := Spades | Hearts | Diamonds | Clubs.

Definition suit_eqb (a b : Suit) : bool :=
  match a, b with
  | Spades, Spades | Hearts, Hearts | Diamonds, Diamonds | Clubs, Clubs => true
  | _, _ => false
  end.

Record Card : Type := mkCard { value : Z; suit : Suit }.

(** Modelled from the spec: the [Player] class (core/player.py) is not
    among the sources; these are the attributes the module reads.
    [ai_style] is [None] when the attribute is absent ([getattr] with a
    default), [hand] is [None] when the player holds no hand. *)
Record Player : Type := mkPlayer {
  name : string;
  chips : Z;
  is_ai : bool;
  ai_style : option string;
  is_active : bool;
  is_dealer : bool;
  is_small_blind : bool;
  is_big_blind : bool;
  hand : option (list Card)
}.

(** ** DrawEvaluator *)

Record DrawInfo : Type := mkDraw { outs : Z; equity : Q }.

Module DrawEvaluator.

(** [sorted(set(l))] *)
Fixpoint insert_sorted (v : Z) (l : list Z) : list Z :=
  match l with
  | [] => [v]
  | x :: r =>
      if (v <? x)%Z then v :: l
      else if (v =? x)%Z then l
      else x :: insert_sorted v r
  end.

Definition sorted_set (l : list Z) : list Z := fold_right insert_sorted [] l.

(** the distinct suits of a list of suits, [set(suits)] *)
Definition suit_set (suits : list Suit) : list Suit :=
  List.filter (fun s => existsb (suit_eqb s) suits) [Spades; Hearts; Diamonds; Clubs].

Definition suited (s : Suit) (cards : list Card) : list Card :=
  List.filter (fun c => suit_eqb (suit c) s) cards.

(** [len(set(values[i:i+4])) == 4] *)
Definition four_distinct (a b c d : Z) : bool :=
  (length (sorted_set [a; b; c; d]) =? 4)%nat.

(** The scan [for i in range(len(values) - 3)] for a window of four
    values with [values[i+3] - values[i] == gap]; the loop stops at the
    first hit, and every hit stores the same entry. *)
Fixpoint has_window (gap : Z) (values : list Z) : bool :=
  match values with
  | a :: tl =>
      match tl with
      | b :: c :: d :: _ =>
          ((d - a =? gap)%Z && four_distinct a b c d) || has_window gap tl
      | _ => false
      end
  | [] => false
  end.

(** [max] of a non-empty list of integers, with a default for the head *)
Definition max_value (v : Z) (l : list Z) : Z := fold_left Z.max l v.

Definition identify_draws (hole_cards community_cards : list Card)
  : result (gmap string DrawInfo) :=
  let draws : gmap string DrawInfo := ∅ in
  match community_cards with
  | [] => Ok draws
  | c0 :: crest =>
      let all_cards := (hole_cards ++ community_cards)%list in
      let values := sorted_set (map value all_cards) in
      let suits := map suit all_cards in
      (* flush draw *)
      let draws :=
        if existsb (fun s =>
                      (length (suited s all_cards) =? 4)%nat &&
                      (1 <=? length (suited s hole_cards))%nat)
                   (suit_set suits)
        then <["flush_draw" := mkDraw 9 (35#100)]> draws else draws in
      (* backdoor flush *)
      let draws :=
        if existsb (fun s =>
                      (length (List.filter (suit_eqb s) suits) =? 3)%nat &&
                      (length community_cards =? 3)%nat)
                   (suit_set suits)
        then <["backdoor_flush" := mkDraw 1 (4#100)]> draws else draws in
      (* straight draws *)
      let draws :=
        if (4 <=? length values)%nat then
          let draws :=
            if has_window 3 values
            then <["oesd" := mkDraw 8 (31#100)]> draws else draws in
          if has_window 4 values
          then <["gutshot" := mkDraw 4 (16#100)]> draws else draws
        else draws in
      (* overcards; [hole_values[0]] fails on an empty hand *)
      match map value hole_cards with
      | [] => Raise IndexError
      | h :: hrest =>
          let hole_values := h :: hrest in
          let hole_values0 := max_value h hrest in
          let draws :=
            if (12 <=? hole_values0)%Z then
              let board_max := max_value (value c0) (map value crest) in
              let overcard_outs :=
                Z.of_nat (length (List.filter (fun v => (board_max <? v)%Z) hole_values)) in
              if (0 <? overcard_outs)%Z
              then <["overcards" := mkDraw (overcard_outs * 3)
                                           (inject_Z overcard_outs * (12#100))]> draws
              else draws
            else draws in
          (* combo draws *)
          let draws :=
            if bool_decide (is_Some (draws !! "flush_draw")) &&
               bool_decide (is_Some (draws !! "oesd"))
            then <["combo_draw" := mkDraw 15 (54#100)]> draws
            else if bool_decide (is_Some (draws !! "flush_draw")) &&
                    bool_decide (is_Some (draws !! "gutshot"))
            then <["combo_draw" := mkDraw 12 (45#100)]> draws
            else draws in
          Ok draws
      end
  end.

(** [max(d['equity'] for d in draws.values())]: the running maximum over
    the values, the first one wins ties. *)
Definition max_equity (first : DrawInfo) (rest : list (string * DrawInfo)) : Q :=
  fold_left (fun acc kd => py_max acc (equity (snd kd))) rest (equity first).

Definition calculate_total_equity (draws : gmap string DrawInfo) : Q :=
  match map_to_list draws with
  | [] => 0
  | (_, d) :: rest => max_equity d rest
  end.

End DrawEvaluator.

(** ** PositionAwareness *)

Module PositionAwareness.

Definition POSITION_MULTIPLIERS : gmap string Q :=
  list_to_map
    [("EP", 70#100); ("MP", 85#100); ("CO", 110#100);
     ("BTN", 125#100); ("SB", 90#100); ("BB", 100#100)].

Definition get_position (player : Player) : string :=
  if is_dealer player then "BTN"
  else if is_small_blind player then "SB"
  else if is_big_blind player then "BB"
  else "MP".

Definition get_adjusted_threshold (base_threshold : Q) (position : string) : Q :=
  let multiplier := default 1 (POSITION_MULTIPLIERS !! position) in
  base_threshold * multiplier.

End PositionAwareness.

(** ** PotOddsCalculator *)

Module PotOddsCalculator.

Definition calculate_direct_odds (amount_to_call total_pot : Z) : result Q :=
  if (amount_to_call <=? 0)%Z then Ok 0
  else py_div (inject_Z amount_to_call) (inject_Z (total_pot + amount_to_call)).

Definition street_multiplier : gmap string Q :=
  list_to_map [("flop", 25#10); ("turn", 13#10); ("river", 1)].

Definition calculate_implied_odds (amount_to_call total_pot : Z)
    (effective_stack : Q) (street : string) (draw_equity : Q)
  : result (gmap string PyVal) :=
  if (amount_to_call <=? 0)%Z then
    Ok (<["total_equity" := VFloat 0]> (<["should_call" := VBool true]> ∅))
  else
    let multiplier := default 1 (street_multiplier !! street) in
    let potential_future_win :=
      py_min (effective_stack * (3#10) * draw_equity * multiplier)
             (effective_stack * (5#10)) in
    let total_potential := inject_Z total_pot + potential_future_win in
    let* direct_equity_needed :=
      py_div (inject_Z amount_to_call) (inject_Z (total_pot + amount_to_call)) in
    let* implied_equity_needed :=
      (if Qltb (inject_Z amount_to_call) total_potential
       then py_div (inject_Z amount_to_call) total_potential
       else Ok direct_equity_needed) in
    Ok (<["direct_equity_needed" := VFloat direct_equity_needed]>
        (<["implied_equity_needed" := VFloat implied_equity_needed]>
         (<["potential_future_win" := VFloat potential_future_win]>
          (<["should_call" :=
               VBool (Qltb (implied_equity_needed * (9#10)) draw_equity)]> ∅)))).

End PotOddsCalculator.

(** ** SPRStrategy *)

Module SPRStrategy.

Definition calculate_spr (effective_stack : Q) (pot : Z) : xfloat :=
  if (pot <=? 0)%Z then PosInf
  else Finite (effective_stack / inject_Z pot).

Definition get_strategy_by_spr (spr : xfloat) (hand_strength draw_equity : Q)
  : gmap string PyVal :=
  if xgtb spr 15 then
    list_to_map
      [("play_speculative", VBool true); ("set_mine", VBool true);
       ("commit_threshold", VFloat (75#100));
       ("avoid_light_commit", VBool true);
       ("hand_requirement", VFloat (55#100))]
  else if xgtb spr 7 then
    list_to_map
      [("play_speculative", VBool (Qltb (25#100) draw_equity));
       ("set_mine", VBool true);
       ("commit_threshold", VFloat (65#100));
       ("avoid_light_commit", VBool false);
       ("hand_requirement", VFloat (50#100))]
  else if xgtb spr 3 then
    list_to_map
      [("play_speculative", VBool false); ("set_mine", VBool false);
       ("commit_threshold", VFloat (55#100));
       ("avoid_light_commit", VBool false);
       ("hand_requirement", VFloat (48#100));
       ("push_fold", VBool false)]
  else
    list_to_map
      [("play_speculative", VBool false); ("set_mine", VBool false);
       ("commit_threshold", VFloat (45#100));
       ("avoid_light_commit", VBool false);
       ("hand_requirement", VFloat (42#100));
       ("push_fold", VBool true)].

End SPRStrategy.


(** ** Enumerations of utils/constants.py *)

(** Modelled from the spec: the [Action] enumeration (utils/constants.py)
    is not among the sources; its six members are the values of
    [action_map] in [_postflop_decision]. *)
Inductive Action : Type := FOLD | CHECK | CALL | BET | RAISE | ALL_IN.

(** [str(a).lower().replace('action.', '')] *)
Definition action_name (a : Action) : string :=
  match a with
  | FOLD => "fold"
  | CHECK => "check"
  | CALL => "call"
  | BET => "bet"
  | RAISE => "raise"
  | ALL_IN => "all_in"
  end.

(** Modelled from the spec: the [GameState] enumeration
    (utils/constants.py) is not among the sources; its members are the keys
    of [street_map] in [get_action]. *)
Inductive GameState : Type := PRE_FLOP | FLOP | TURN | RIVER | SHOWDOWN.

(** ** Ordered dictionaries *)

Fixpoint dict_get {V : Type} (k : string) (d : list (string * V)) : option V :=
  match d with
  | [] => None
  | (k', v) :: r => if String.eqb k k' then Some v else dict_get k r
  end.

(** [d[k] = v]: an existing key keeps its place, a new key goes last. *)
Fixpoint dict_set {V : Type} (k : string) (v : V) (d : list (string * V))
  : list (string * V) :=
  match d with
  | [] => [(k, v)]
  | (k', v') :: r =>
      if String.eqb k k' then (k, v) :: r else (k', v') :: dict_set k v r
  end.

(** [del d[k]] for a key that is present *)
Fixpoint dict_del {V : Type} (k : string) (d : list (string * V))
  : list (string * V) :=
  match d with
  | [] => []
  | (k', v') :: r =>
      if String.eqb k k' then r else (k', v') :: dict_del k r
  end.

Definition dict_mem {V : Type} (k : string) (d : list (string * V)) : bool :=
  match dict_get k d with
  | Some _ => true
  | None => false
  end.

(** ** Strategy configuration and opponent records *)

Record Config : Type := mkConfig {
  vpip_range : Z * Z;
  pfr_range : Z * Z;
  af_factor : Q;
  bluff_freq : Q;
  call_preflop : Q;
  raise_preflop : Q;
  bet_postflop : Q;
  fold_to_raise : Q;
  adaptation_start : Z;
  learning_rate : Q
}.

Definition set_vpip_range (v : Z * Z) (c : Config) : Config :=
  mkConfig v (pfr_range c) (af_factor c) (bluff_freq c) (call_preflop c)
           (raise_preflop c) (bet_postflop c) (fold_to_raise c)
           (adaptation_start c) (learning_rate c).
Definition set_af_factor (v : Q) (c : Config) : Config :=
  mkConfig (vpip_range c) (pfr_range c) v (bluff_freq c) (call_preflop c)
           (raise_preflop c) (bet_postflop c) (fold_to_raise c)
           (adaptation_start c) (learning_rate c).
Definition set_bluff_freq (v : Q) (c : Config) : Config :=
  mkConfig (vpip_range c) (pfr_range c) (af_factor c) v (call_preflop c)
           (raise_preflop c) (bet_postflop c) (fold_to_raise c)
           (adaptation_start c) (learning_rate c).
Definition set_call_preflop (v : Q) (c : Config) : Config :=
  mkConfig (vpip_range c) (pfr_range c) (af_factor c) (bluff_freq c) v
           (raise_preflop c) (bet_postflop c) (fold_to_raise c)
           (adaptation_start c) (learning_rate c).
Definition set_bet_postflop (v : Q) (c : Config) : Config :=
  mkConfig (vpip_range c) (pfr_range c) (af_factor c) (bluff_freq c)
           (call_preflop c) (raise_preflop c) v (fold_to_raise c)
           (adaptation_start c) (learning_rate c).
Definition set_fold_to_raise (v : Q) (c : Config) : Config :=
  mkConfig (vpip_range c) (pfr_range c) (af_factor c) (bluff_freq c)
           (call_preflop c) (raise_preflop c) (bet_postflop c) v
           (adaptation_start c) (learning_rate c).

Module Opp.

Record t : Type := mk {
  hands_observed : Z;
  folds : Z;
  calls : Z;
  raises : Z;
  bluffs_detected : Z;
  bluff_opportunities : Z;
  fold_to_cbet : Z;
  cbet_opportunities : Z;
  showdown_wins : Z;
  showdowns : Z;
  fold_tendency : Q;
  bluff_tendency : Q;
  calling_tendency : Q
}.

(** the record stored for a newly registered opponent *)
Definition fresh : t := mk 0 0 0 0 0 0 0 0 0 0 (5#10) (5#10) (5#10).

Definition set_hands_observed (v : Z) (d : t) : t :=
  mk v (folds d) (calls d) (raises d) (bluffs_detected d) (bluff_opportunities
     d) (fold_to_cbet d) (cbet_opportunities d) (showdown_wins d) (showdowns
     d) (fold_tendency d) (bluff_tendency d) (calling_tendency d).
Definition set_folds (v : Z) (d : t) : t :=
  mk (hands_observed d) v (calls d) (raises d) (bluffs_detected d)
     (bluff_opportunities d) (fold_to_cbet d) (cbet_opportunities d)
     (showdown_wins d) (showdowns d) (fold_tendency d) (bluff_tendency d)
     (calling_tendency d).
Definition set_calls (v : Z) (d : t) : t :=
  mk (hands_observed d) (folds d) v (raises d) (bluffs_detected d)
     (bluff_opportunities d) (fold_to_cbet d) (cbet_opportunities d)
     (showdown_wins d) (showdowns d) (fold_tendency d) (bluff_tendency d)
     (calling_tendency d).
Definition set_raises (v : Z) (d : t) : t :=
  mk (hands_observed d) (folds d) (calls d) v (bluffs_detected d)
     (bluff_opportunities d) (fold_to_cbet d) (cbet_opportunities d)
     (showdown_wins d) (showdowns d) (fold_tendency d) (bluff_tendency d)
     (calling_tendency d).
Definition set_bluffs_detected (v : Z) (d : t) : t :=
  mk (hands_observed d) (folds d) (calls d) (raises d) v (bluff_opportunities
     d) (fold_to_cbet d) (cbet_opportunities d) (showdown_wins d) (showdowns
     d) (fold_tendency d) (bluff_tendency d) (calling_tendency d).
Definition set_fold_to_cbet (v : Z) (d : t) : t :=
  mk (hands_observed d) (folds d) (calls d) (raises d) (bluffs_detected d)
     (bluff_opportunities d) v (cbet_opportunities d) (showdown_wins d)
     (showdowns d) (fold_tendency d) (bluff_tendency d) (calling_tendency d).
Definition set_cbet_opportunities (v : Z) (d : t) : t :=
  mk (hands_observed d) (folds d) (calls d) (raises d) (bluffs_detected d)
     (bluff_opportunities d) (fold_to_cbet d) v (showdown_wins d) (showdowns
     d) (fold_tendency d) (bluff_tendency d) (calling_tendency d).

Definition set_tendencies (ft bt ct : Q) (d : t) : t :=
  mk (hands_observed d) (folds d) (calls d) (raises d) (bluffs_detected d)
     (bluff_opportunities d) (fold_to_cbet d) (cbet_opportunities d)
     (showdown_wins d) (showdowns d) ft bt ct.

End Opp.

(** One observed opponent action, the arguments of [update_after_action]. *)
Record Observation : Type := mkObs {
  obs_player_name : string;
  obs_action : string;
  obs_street : string;
  obs_is_bluff : bool;
  obs_facing_cbet : bool
}.

(** Modelled from the spec: the betting round and the game state
    (game/betting.py, the game-state object) are not among the sources;
    a decision request carries what [get_action] reads from them and its
    own scalar arguments. *)
Record DecisionRequest : Type := mkRequest {
  req_player : Player;
  req_available_actions : list Action;
  req_amount_to_call : Z;
  req_current_bet : Z;
  req_total_pot : Z;
  req_players : list Player;
  req_community_cards : list Card;
  req_state : GameState;
  req_hand_strength : Q;
  req_win_probability : Q;
  req_pot_odds : Q;
  req_ev : Q
}.


(** ** SharkAI *)

Module SharkAI.

Definition TIER3_THRESHOLD : Q := 60#100.

(** The attributes of the object.  The four subsystem attributes hold
    stateless objects and are the modules above. *)
Record t : Type := mk {
  base_config : Config;
  opponent_data : list (string * Opp.t);
  adaptation_active : bool;
  hands_observed : Z;
  current_config : Config;
  current_street : string;
  total_pot : Z;
  effective_stack : Q
}.

Definition set_opponent_data (v : list (string * Opp.t)) (s : t) : t :=
  mk (base_config s) v (adaptation_active s) (hands_observed s)
     (current_config s) (current_street s) (total_pot s) (effective_stack s).
Definition set_adaptation_active (v : bool) (s : t) : t :=
  mk (base_config s) (opponent_data s) v (hands_observed s)
     (current_config s) (current_street s) (total_pot s) (effective_stack s).
Definition set_hands_observed (v : Z) (s : t) : t :=
  mk (base_config s) (opponent_data s) (adaptation_active s) v
     (current_config s) (current_street s) (total_pot s) (effective_stack s).
Definition set_current_config (v : Config) (s : t) : t :=
  mk (base_config s) (opponent_data s) (adaptation_active s) (hands_observed s)
     v (current_street s) (total_pot s) (effective_stack s).
Definition set_current_street (v : string) (s : t) : t :=
  mk (base_config s) (opponent_data s) (adaptation_active s) (hands_observed s)
     (current_config s) v (total_pot s) (effective_stack s).
Definition set_effective_stack (v : Q) (s : t) : t :=
  mk (base_config s) (opponent_data s) (adaptation_active s) (hands_observed s)
     (current_config s) (current_street s) (total_pot s) v.

Definition __init__ : t :=
  let base_config :=
    mkConfig (12, 18)%Z (10, 16)%Z (25#10) (15#100) (20#100) (25#100)
             (45#100) (60#100) 20%Z (1#10) in
  mk base_config [] false 0%Z base_config "preflop" 0%Z 0.

(** [not player.is_ai or getattr(player, 'ai_style', 'LAG') != 'SHARK'] *)
Definition tracked (player : Player) : bool :=
  negb (is_ai player) || negb (String.eqb (default "LAG" (ai_style player)) "SHARK").

Definition initialize_opponents (self : t) (players : list Player) : t :=
  let opponent_data :=
    fold_left
      (fun d player => if tracked player then dict_set (name player) Opp.fresh d else d)
      players [] in
  set_current_config (base_config self)
    (set_hands_observed 0%Z
       (set_adaptation_active false
          (set_opponent_data opponent_data self))).

(** The body of [_calculate_tendencies] on the record of one opponent.
    The three divisions are guarded: [hands >= 3], [raises > 0] and
    [hands > folds]. *)
Definition tendencies (data : Opp.t) : Opp.t :=
  let hands := Opp.hands_observed data in
  if (hands <? 3)%Z then data
  else
    let fold_rate := inject_Z (Opp.folds data) / inject_Z hands in
    let fold_tendency := py_min 1 (py_max 0 (fold_rate * 2)) in
    let bluff_tendency :=
      if (0 <? Opp.raises data)%Z then
        let bluff_rate :=
          inject_Z (Opp.bluffs_detected data) / inject_Z (Opp.raises data) in
        py_min 1 (bluff_rate * 3)
      else Opp.bluff_tendency data in
    let calling_tendency :=
      if (Opp.folds data <? hands)%Z then
        let calling_rate :=
          inject_Z (Opp.calls data) / inject_Z (hands - Opp.folds data) in
        py_min 1 (py_max 0 calling_rate)
      else Opp.calling_tendency data in
    Opp.set_tendencies fold_tendency bluff_tendency calling_tendency data.

Definition _calculate_tendencies (self : t) (player_name : string) : result t :=
  match dict_get player_name (opponent_data self) with
  | None => Raise (KeyError player_name)
  | Some data =>
      Ok (set_opponent_data
            (dict_set player_name (tendencies data) (opponent_data self)) self)
  end.

(** [sum(f(d) for d in data.values()) / len(data)] *)
Definition average (f : Opp.t -> Q) (data : list (string * Opp.t)) : Q :=
  fold_left (fun acc kd => acc + f (snd kd)) data 0
  / inject_Z (Z.of_nat (length data)).

(** The three adaptation rules, each rewriting its fields of the current
    configuration from the baseline. *)
Definition rule_fold (base cur : Config) : Config :=
  set_af_factor (af_factor base + (5#10))
    (set_bet_postflop (py_min (7#10) (bet_postflop base + (15#100)))
       (set_bluff_freq (py_min (5#10) (bluff_freq base + (15#100))) cur)).

Definition rule_bluff (base cur : Config) : Config :=
  set_fold_to_raise (py_max (3#10) (fold_to_raise base - (1#10)))
    (set_call_preflop (py_min (4#10) (call_preflop base + (1#10)))
       (set_vpip_range (Z.max 15 (fst (vpip_range base) - 5),
                        Z.max 20 (snd (vpip_range base) - 5))%Z cur)).

Definition rule_call (base cur : Config) : Config :=
  set_af_factor (af_factor base + (3#10))
    (set_bet_postflop (bet_postflop base + (1#10))
       (set_bluff_freq (py_max (1#10) (bluff_freq base - (1#10))) cur)).

Definition _update_strategy (self : t) : t :=
  match opponent_data self with
  | [] => self
  | _ :: _ =>
      let base := base_config self in
      let avg_fold := average Opp.fold_tendency (opponent_data self) in
      let avg_bluff := average Opp.bluff_tendency (opponent_data self) in
      let avg_call := average Opp.calling_tendency (opponent_data self) in
      let adjustments : list string := [] in
      let cur := current_config self in
      let '(cur, adjustments) :=
        if Qltb (6#10) avg_fold
        then (rule_fold base cur, (adjustments ++ ["对手易弃牌→增加诈唬"])%list)
        else (cur, adjustments) in
      let '(cur, adjustments) :=
        if Qltb (4#10) avg_bluff
        then (rule_bluff base cur, (adjustments ++ ["对手爱诈唬→收紧范围"])%list)
        else (cur, adjustments) in
      let '(cur, adjustments) :=
        if Qltb (5#10) avg_call
        then (rule_call base cur, (adjustments ++ ["对手跟注多→减少诈唬"])%list)
        else (cur, adjustments) in
      match adjustments with
      | [] => set_current_config (base_config self) self
      | _ :: _ => set_current_config cur self
      end
  end.

Definition total_hands (data : list (string * Opp.t)) : Z :=
  fold_left (fun acc kd => (acc + Opp.hands_observed (snd kd))%Z) data 0%Z.

(** The counters of [update_after_action] on the record of the acting
    opponent. *)
Definition record_action (data : Opp.t) (action : string)
    (is_bluff facing_cbet : bool) : Opp.t :=
  let data := Opp.set_hands_observed (Opp.hands_observed data + 1)%Z data in
  let data :=
    if String.eqb action "fold" then
      let data := Opp.set_folds (Opp.folds data + 1)%Z data in
      if facing_cbet
      then Opp.set_fold_to_cbet (Opp.fold_to_cbet data + 1)%Z data
      else data
    else if in_names action ["call"] then
      Opp.set_calls (Opp.calls data + 1)%Z data
    else if in_names action ["raise"; "bet"] then
      let data := Opp.set_raises (Opp.raises data + 1)%Z data in
      if is_bluff
      then Opp.set_bluffs_detected (Opp.bluffs_detected data + 1)%Z data
      else data
    else data in
  if facing_cbet
  then Opp.set_cbet_opportunities (Opp.cbet_opportunities data + 1)%Z data
  else data.

Definition update_after_action (self : t) (player_name action street : string)
    (is_bluff facing_cbet : bool) : result t :=
  match dict_get player_name (opponent_data self) with
  | None => Ok self
  | Some data =>
      let data := record_action data action is_bluff facing_cbet in
      let self :=
        set_hands_observed (hands_observed self + 1)%Z
          (set_opponent_data
             (dict_set player_name data (opponent_data self)) self) in
      let self :=
        if negb (adaptation_active self) then
          if (adaptation_start (base_config self)
              <=? total_hands (opponent_data self))%Z
          then set_adaptation_active true self
          else self
        else self in
      if (Opp.hands_observed data mod 5 =? 0)%Z || adaptation_active self then
        let* self := _calculate_tendencies self player_name in
        if adaptation_active self then Ok (_update_strategy self) else Ok self
      else Ok self
  end.

(** A session: the observations of a list, in order. *)
Definition observe (self : t) (o : Observation) : result t :=
  update_after_action self (obs_player_name o) (obs_action o) (obs_street o)
    (obs_is_bluff o) (obs_facing_cbet o).

Fixpoint observe_all (self : t) (obs : list Observation) : result t :=
  match obs with
  | [] => Ok self
  | o :: rest => let* self := observe self o in observe_all self rest
  end.

Definition get_opponent_summary (self : t) : string :=
  if negb (adaptation_active self) then "[鲨鱼AI] 观察中..."
  else
    let summaries :=
      flat_map
        (fun kd : string * Opp.t =>
           let '(name, data) := kd in
           if (5 <=? Opp.hands_observed data)%Z then
             let fold_desc :=
               if Qltb (6#10) (Opp.fold_tendency data) then "易弃牌"
               else if Qltb (Opp.fold_tendency data) (4#10) then "难弃牌"
               else "中等" in
             let bluff_desc :=
               if Qltb (4#10) (Opp.bluff_tendency data) then "爱诈唬"
               else if Qltb (Opp.bluff_tendency data) (2#10) then "诚实"
               else "平衡" in
             [name ++ "(" ++ fold_desc ++ "/" ++ bluff_desc ++ ")"]
           else [])
        (opponent_data self) in
    match summaries with
    | [] => "[鲨鱼AI] 学习中..."
    | _ :: _ => "[鲨鱼AI] 分析: " ++ String.concat ", " summaries
    end.

(** *** Decisions *)

Definition available_names_of (available_actions : list Action) : list string :=
  map action_name available_actions.

Definition position_multipliers : gmap string Q :=
  list_to_map
    [("EP", 1); ("MP", 98#100); ("CO", 95#100);
     ("BTN", 93#100); ("SB", 98#100); ("BB", 95#100)].

Definition adjusted_threshold_of (position : string) : Q :=
  TIER3_THRESHOLD * default 1 (position_multipliers !! position).

Definition _preflop_decision (player : Player) (available_actions : list Action)
    (amount_to_call : Z) (hand_strength : Q) (position : string)
    (spr_guidance : gmap string PyVal) (config : Config) : Action * Z :=
  let available_names := available_names_of available_actions in
  let adjusted_threshold := adjusted_threshold_of position in
  if Qltb hand_strength adjusted_threshold then
    if (amount_to_call <=? 0)%Z && in_names "check" available_names
    then (CHECK, 0%Z)
    else (FOLD, 0%Z)
  else if Qle_bool (80#100) hand_strength then
    if in_names "raise" available_names then
      (RAISE, Z.max 40 (amount_to_call + 30))
    else if in_names "bet" available_names then (BET, 40%Z)
    else (FOLD, 0%Z)
  else if Qle_bool (70#100) hand_strength then
    if in_names position ["EP"; "MP"] then
      if (0 <? amount_to_call)%Z && in_names "call" available_names
      then (CALL, 0%Z)
      else if in_names "check" available_names then (CHECK, 0%Z)
      else if in_names "raise" available_names then (RAISE, 40%Z)
      else (FOLD, 0%Z)
    else
      if in_names "raise" available_names then (RAISE, 40%Z)
      else if in_names "call" available_names then (CALL, 0%Z)
      else (FOLD, 0%Z)
  else
    let late : option (Action * Z) :=
      if in_names position ["CO"; "BTN"; "SB"] then
        if in_names "raise" available_names && (amount_to_call <=? 20)%Z
        then Some (RAISE, 40%Z)
        else if in_names "call" available_names && (amount_to_call <=? 20)%Z
        then Some (CALL, 0%Z)
        else None
      else None in
    match late with
    | Some r => r
    | None =>
        if (amount_to_call <=? 0)%Z && in_names "check" available_names
        then (CHECK, 0%Z)
        else (FOLD, 0%Z)
    end.

(** [weights.update(entries)] on the ordered weight table *)
Definition dict_update (entries : list (string * Q)) (weights : list (string * Q))
  : list (string * Q) :=
  fold_left (fun w kv => dict_set (fst kv) (snd kv) w) entries weights.

Definition _calculate_postflop_weights (hand_strength draw_equity : Q)
    (config : Config) (spr_guidance : gmap string PyVal) : list (string * Q) :=
  let weights : list (string * Q) :=
    [("fold", 0); ("check", 0); ("call", 0); ("bet", 0); ("raise", 0);
     ("all_in", 0)] in
  let total_equity := hand_strength * (7#10) + draw_equity * (3#10) in
  let bluff_freq := bluff_freq config in
  if Qltb (80#100) total_equity then
    dict_update [("raise", 50#100); ("bet", 35#100); ("call", 15#100)] weights
  else if Qltb (60#100) total_equity then
    dict_update [("bet", 45#100); ("raise", 25#100); ("call", 25#100);
                 ("check", 5#100)] weights
  else if Qltb (45#100) total_equity then
    dict_update [("call", 45#100); ("check", 30#100); ("bet", 15#100);
                 ("fold", 10#100)] weights
  else if Qltb (30#100) total_equity || Qltb (15#100) draw_equity then
    dict_update [("call", 35#100); ("check", 30#100); ("fold", 25#100);
                 ("bet", (8#100) * bluff_freq * 10)] weights
  else
    dict_update [("fold", 55#100); ("check", 35#100); ("call", 8#100);
                 ("bet", (2#100) * bluff_freq * 10)] weights.

(** The loop of [_weighted_choice]: the first action whose cumulative
    weight reaches the draw [r]. *)
Fixpoint choose (r cumulative : Q) (weights : list (string * Q)) : option string :=
  match weights with
  | [] => None
  | (action, weight) :: rest =>
      let cumulative := cumulative + weight in
      if Qle_bool r cumulative then Some action else choose r cumulative rest
  end.

(** [rnd] is the value of [random.random()], a number in [0, 1). *)
Definition _weighted_choice (weights : list (string * Q)) (rnd : Q) : string :=
  let total := fold_left (fun acc kv => acc + snd kv) weights 0 in
  if Qeq_bool total 0 then "fold"
  else
    let r := rnd * total in
    match choose r 0 weights with
    | Some action => action
    | None => List.last (map fst weights) EmptyString
    end.

Definition action_map : gmap string Action :=
  list_to_map
    [("fold", FOLD); ("check", CHECK); ("call", CALL); ("bet", BET);
     ("raise", RAISE); ("all_in", ALL_IN)].

Section Decision.

(** Whether a member of [Action] compares equal to its lower-case name
    ([Action] is a str-valued enumeration) or to no string at all (a plain
    enumeration): the class is not among the sources, and
    [_calculate_amount] compares its [action] argument with strings. *)
Variable action_is_str : bool.

Definition _calculate_amount (action : Action) (player : Player)
    (amount_to_call current_bet : Z) (hand_strength draw_equity : Q)
    (config : Config) (total_pot : Z) : Z :=
  if action_is_str && in_names (action_name action) ["fold"; "check"; "call"]
  then 0%Z
  else if action_is_str && String.eqb (action_name action) "all_in"
  then chips player
  else
    let total_pot := if (total_pot <=? 0)%Z then 100%Z else total_pot in
    let big_blind := 20%Z in
    let total_strength := hand_strength + draw_equity * (5#10) in
    if (current_bet =? 0)%Z then
      let bet_size :=
        if Qltb (80#100) total_strength then py_int (inject_Z total_pot * (75#100))
        else if Qltb (60#100) total_strength then py_int (inject_Z total_pot * (66#100))
        else if Qltb (25#100) draw_equity then py_int (inject_Z total_pot * (60#100))
        else if Qltb (45#100) total_strength then py_int (inject_Z total_pot * (33#100))
        else py_int (inject_Z total_pot * (25#100)) in
      Z.max (big_blind * 2) bet_size
    else
      let target_total :=
        if Qltb (80#100) total_strength then py_int (inject_Z total_pot * (75#100))
        else if Qltb (60#100) total_strength then py_int (inject_Z total_pot * (66#100))
        else if Qltb (25#100) draw_equity then py_int (inject_Z total_pot * (60#100))
        else if Qltb (45#100) total_strength then py_int (inject_Z total_pot * (50#100))
        else (current_bet + big_blind * 2)%Z in
      let raise_amount := Z.max 0 (target_total - current_bet) in
      let min_raise := (big_blind * 2)%Z in
      Z.max min_raise raise_amount.

(** The draw step of [_postflop_decision]: the action it forces, if any. *)
Definition draw_step (available_names : list string) (current_bet : Z)
    (hand_strength draw_equity : Q) (implied_calc : gmap string PyVal)
  : result (option (Action * Z)) :=
  if Qltb (15#100) draw_equity then
    let* should_call := getitem implied_calc "should_call" in
    if truthy should_call && in_names "call" available_names
    then Ok (Some (CALL, 0%Z))
    else if Qltb (30#100) draw_equity && in_names "raise" available_names
            && Qltb hand_strength (5#10)
    then Ok (Some (RAISE, Z.max 40 (current_bet + 20)))
    else Ok None
  else Ok None.

(** The legal actions of positive weight, without fold when check is
    legal. *)
Definition valid_weights (available_names : list string)
    (action_weights : list (string * Q)) : list (string * Q) :=
  let valid :=
    List.filter (fun kv : string * Q =>
              in_names (fst kv) available_names && Qltb 0 (snd kv))
           action_weights in
  if in_names "check" available_names && dict_mem "fold" valid
  then dict_del "fold" valid
  else valid.

Definition _postflop_decision (player : Player) (available_actions : list Action)
    (amount_to_call current_bet : Z)
    (hand_strength draw_equity total_equity direct_odds : Q)
    (implied_calc spr_guidance : gmap string PyVal) (config : Config)
    (draws : gmap string DrawInfo) (total_pot : Z) (rnd : Q)
  : result (Action * Z) :=
  let available_names := available_names_of available_actions in
  if truthy (default (VBool false) (spr_guidance !! "push_fold")) then
    let* commit_threshold := getitem spr_guidance "commit_threshold" in
    if Qle_bool (as_float commit_threshold) total_equity
    then Ok (ALL_IN, chips player)
    else Ok (FOLD, 0%Z)
  else
    let* forced :=
      draw_step available_names current_bet hand_strength draw_equity
                implied_calc in
    match forced with
    | Some r => Ok r
    | None =>
        let action_weights :=
          _calculate_postflop_weights hand_strength draw_equity config
                                      spr_guidance in
        match valid_weights available_names action_weights with
        | [] => Ok (FOLD, 0%Z)
        | (_ :: _) as valid =>
            let action_name := _weighted_choice valid rnd in
            let action := default FOLD (action_map !! action_name) in
            let amount :=
              _calculate_amount action player amount_to_call current_bet
                hand_strength draw_equity config total_pot in
            Ok (action, amount)
        end
    end.

Definition street_of (state : GameState) : string :=
  match state with
  | PRE_FLOP => "preflop"
  | FLOP => "flop"
  | TURN => "turn"
  | RIVER => "river"
  | SHOWDOWN => "river"
  end.

Definition is_preflop (state : GameState) : bool :=
  match state with
  | PRE_FLOP => true
  | _ => false
  end.

(** [min(player.chips, sum(p.chips for p in active) / max(1, len(active) - 1))] *)
Definition effective_stack_of (player : Player) (players : list Player) : Q :=
  let active_players := List.filter is_active players in
  py_min (inject_Z (chips player))
         (inject_Z (fold_left (fun acc p => (acc + chips p)%Z) active_players 0%Z)
          / inject_Z (Z.max 1 (Z.of_nat (length active_players) - 1))).

(** The main decision method.  It stores the effective stack and the
    street in the object before it decides, so the object is returned
    with the outcome. *)
Definition get_action (self : t) (req : DecisionRequest) (rnd : Q)
  : t * result (Action * Z) :=
  let player := req_player req in
  let available_actions := req_available_actions req in
  let amount_to_call := req_amount_to_call req in
  let current_bet := req_current_bet req in
  let total_pot := req_total_pot req in
  let position := PositionAwareness.get_position player in
  let self := set_effective_stack (effective_stack_of player (req_players req)) self in
  let spr := SPRStrategy.calculate_spr (effective_stack self) total_pot in
  let hole_cards := default [] (hand player) in
  let community_cards := req_community_cards req in
  match DrawEvaluator.identify_draws hole_cards community_cards with
  | Raise e => (self, Raise e)
  | Ok draws =>
      let draw_equity := DrawEvaluator.calculate_total_equity draws in
      let self := set_current_street (street_of (req_state req)) self in
      let config := current_config self in
      let total_equity := req_win_probability req + draw_equity * (5#10) in
      (self,
       let* direct_odds :=
         PotOddsCalculator.calculate_direct_odds amount_to_call total_pot in
       let* implied_calc :=
         PotOddsCalculator.calculate_implied_odds amount_to_call total_pot
           (effective_stack self) (current_street self) draw_equity in
       let spr_guidance :=
         SPRStrategy.get_strategy_by_spr spr (req_hand_strength req) draw_equity in
       if is_preflop (req_state req) then
         Ok (_preflop_decision player available_actions amount_to_call
               (req_hand_strength req) position spr_guidance config)
       else
         _postflop_decision player available_actions amount_to_call current_bet
           (req_hand_strength req) draw_equity total_equity direct_odds
           implied_calc spr_guidance config draws total_pot rnd)
  end.

End Decision.

End SharkAI.


(** * Example inputs *)

Definition two_clubs_seven_diamonds : list Card :=
  [mkCard 2 Clubs; mkCard 7 Diamonds].

Definition dry_flop : list Card :=
  [mkCard 13 Spades; mkCard 9 Hearts; mkCard 4 Diamonds].

Definition hero : Player :=
  mkPlayer "hero" 100 true (Some "SHARK") true false false false
           (Some two_clubs_seven_diamonds).

Definition villain : Player :=
  mkPlayer "A" 1000 true (Some "TAG") true false false false None.

(** A flop decision with a short stack (100 into a pot of 100), a weak
    hand and a free check. *)
Definition short_stack_free_check : DecisionRequest :=
  mkRequest hero [FOLD; CHECK; BET; ALL_IN] 0 0 100 [hero; villain] dry_flop
            FLOP (2#10) (2#10) 0 0.

Definition fold_obs : Observation := mkObs "A" "fold" "flop" false false.
Definition bluff_raise_obs : Observation := mkObs "A" "raise" "flop" true false.

(** Two sessions against the same opponent with the same 24 observed
    actions, 7 folds and 17 bluff raises, in two different orders. *)
Definition folds_then_raises : list Observation :=
  (repeat fold_obs 7 ++ repeat bluff_raise_obs 17)%list.

(** * The sizing of the specification *)

(** The sizing as the specification words it: one fraction table for the
    opening bet and the raise target. *)
Definition spec_fraction (combined_strength draw_equity : Q) : Q :=
  if Qltb (80#100) combined_strength then 75#100
  else if Qltb (60#100) combined_strength then 66#100
  else if Qltb (25#100) draw_equity then 60#100
  else if Qltb (45#100) combined_strength then 33#100
  else 25#100.


Definition spec_opening_size (pot big_blind : Z) (combined_strength draw_equity : Q) : Q :=
  Qmax (inject_Z (2 * big_blind))
       (inject_Z pot * spec_fraction combined_strength draw_equity).


(** * Adaptation rules as propositions *)

Definition fold_rule_triggers (data : list (string * Opp.t)) : Prop :=
  6#10 < SharkAI.average Opp.fold_tendency data.
Definition bluff_rule_triggers (data : list (string * Opp.t)) : Prop :=
  4#10 < SharkAI.average Opp.bluff_tendency data.
Definition call_rule_triggers (data : list (string * Opp.t)) : Prop :=
  5#10 < SharkAI.average Opp.calling_tendency data.

(** The fields that no adaptation rule writes. *)
Definition fixed_fields (base cur : Config) : Prop :=
  pfr_range cur = pfr_range base
  /\ raise_preflop cur = raise_preflop base
  /\ adaptation_start cur = adaptation_start base
  /\ learning_rate cur = learning_rate base.

(** What the current configuration owes to the baseline and the aggregate
    tendencies of [data]: the baseline itself when no rule triggers, and
    for each rule that triggers the values of its fields (the call rule
    is applied after the fold rule and writes the same fields). *)
Definition follows_rules (base : Config) (data : list (string * Opp.t))
    (cur : Config) : Prop :=
  (~ fold_rule_triggers data -> ~ bluff_rule_triggers data ->
   ~ call_rule_triggers data -> cur = base)
  /\ (bluff_rule_triggers data ->
      vpip_range cur = (Z.max 15 (fst (vpip_range base) - 5),
                        Z.max 20 (snd (vpip_range base) - 5))%Z
      /\ call_preflop cur = py_min (4#10) (call_preflop base + (1#10))
      /\ fold_to_raise cur = py_max (3#10) (fold_to_raise base - (1#10)))
  /\ (call_rule_triggers data ->
      bluff_freq cur = py_max (1#10) (bluff_freq base - (1#10))
      /\ bet_postflop cur = bet_postflop base + (1#10)
      /\ af_factor cur = af_factor base + (3#10))
  /\ (fold_rule_triggers data -> ~ call_rule_triggers data ->
      bluff_freq cur = py_min (5#10) (bluff_freq base + (15#100))
      /\ bet_postflop cur = py_min (7#10) (bet_postflop base + (15#100))
      /\ af_factor cur = af_factor base + (5#10))
  /\ fixed_fields base cur.

(** * Invariants of a session *)

(** The activation flag is set exactly when the hands total has reached
    the threshold. *)
Definition activation_inv (s : SharkAI.t) : Prop :=
  SharkAI.adaptation_active s = true
  <-> (adaptation_start (SharkAI.base_config s)
       <= SharkAI.total_hands (SharkAI.opponent_data s))%Z.

Definition config_inv (s : SharkAI.t) : Prop :=
  fixed_fields (SharkAI.base_config s) (SharkAI.current_config s)
  /\ (SharkAI.adaptation_active s = false ->
      SharkAI.current_config s = SharkAI.base_config s)
  /\ (SharkAI.adaptation_active s = true ->
      follows_rules (SharkAI.base_config s) (SharkAI.opponent_data s)
        (SharkAI.current_config s)).

(** * Findings *)

(** Every finding of [identify_draws] has a positive equity. *)
Definition positive_equities (draws : gmap string DrawInfo) : Prop :=
  forall k d, draws !! k = Some d -> 0 < equity d.

(** * The steps of [identify_draws] *)

(** The tests of [identify_draws], in the order of the source, as
    functions of the cards. *)
Definition flush_draw_found (hole_cards all_cards : list Card) : bool :=
  existsb (fun s =>
             (length (DrawEvaluator.suited s all_cards) =? 4)%nat &&
             (1 <=? length (DrawEvaluator.suited s hole_cards))%nat)
          (DrawEvaluator.suit_set (map suit all_cards)).

Definition backdoor_flush_found (community_cards all_cards : list Card) : bool :=
  existsb (fun s =>
             (length (List.filter (suit_eqb s) (map suit all_cards)) =? 3)%nat &&
             (length community_cards =? 3)%nat)
          (DrawEvaluator.suit_set (map suit all_cards)).

Definition overcard_count (hole_values : list Z) (c0 : Card) (crest : list Card) : Z :=
  Z.of_nat
    (length
       (List.filter
          (fun v => (DrawEvaluator.max_value (value c0) (map value crest) <? v)%Z)
          hole_values)).

(** The ranks of a list of cards, sorted and without repetition. *)
Definition ranks_of (cards : list Card) : list Z :=
  DrawEvaluator.sorted_set (map value cards).

(** The entries that [identify_draws] stores before it looks for a combo
    draw, from the outcomes of its tests. *)
Definition single_draws (flush backdoor long oesd gutshot high : bool)
    (overcard_outs : Z) : gmap string DrawInfo :=
  let draws : gmap string DrawInfo := ∅ in
  let draws :=
    if flush then <["flush_draw" := mkDraw 9 (35#100)]> draws else draws in
  let draws :=
    if backdoor then <["backdoor_flush" := mkDraw 1 (4#100)]> draws else draws in
  let draws :=
    if long then
      let draws :=
        if oesd then <["oesd" := mkDraw 8 (31#100)]> draws else draws in
      if gutshot then <["gutshot" := mkDraw 4 (16#100)]> draws else draws
    else draws in
  if high then
    if (0 <? overcard_outs)%Z
    then <["overcards" := mkDraw (overcard_outs * 3)
                                 (inject_Z overcard_outs * (12#100))]> draws
    else draws
  else draws.

(** The last step of [identify_draws]: the combo entry. *)
Definition with_combo (draws : gmap string DrawInfo) : gmap string DrawInfo :=
  if bool_decide (is_Some (draws !! "flush_draw")) &&
     bool_decide (is_Some (draws !! "oesd"))
  then <["combo_draw" := mkDraw 15 (54#100)]> draws
  else if bool_decide (is_Some (draws !! "flush_draw")) &&
          bool_decide (is_Some (draws !! "gutshot"))
  then <["combo_draw" := mkDraw 12 (45#100)]> draws
  else draws.

(** The six kinds of draw. *)
Definition draw_kinds : list string :=
  ["flush_draw"; "backdoor_flush"; "oesd"; "gutshot"; "overcards"; "combo_draw"].

(** * Order on extended floats *)

(** [x <= y] on extended floats. *)
Definition xfloat_le (x y : xfloat) : Prop :=
  match x, y with
  | Finite a, Finite b => a <= b
  | _, PosInf => True
  | PosInf, Finite _ => False
  end.

(** * Consistency of an opponent record *)

(** The counters of a record: none is negative, the three action counters
    sum to at most the hands observed, detected bluffs are raises, folds to
    a continuation bet are folds and continuation-bet opportunities, and
    the three counters that no method updates are 0. *)
Definition counters_ok (d : Opp.t) : Prop :=
  (0 <= Opp.folds d)%Z /\ (0 <= Opp.calls d)%Z /\ (0 <= Opp.raises d)%Z
  /\ (Opp.folds d + Opp.calls d + Opp.raises d <= Opp.hands_observed d)%Z
  /\ (0 <= Opp.bluffs_detected d)%Z
  /\ (Opp.bluffs_detected d <= Opp.raises d)%Z
  /\ (0 <= Opp.fold_to_cbet d)%Z
  /\ (Opp.fold_to_cbet d <= Opp.folds d)%Z
  /\ (Opp.fold_to_cbet d <= Opp.cbet_opportunities d)%Z
  /\ (Opp.cbet_opportunities d <= Opp.hands_observed d)%Z
  /\ Opp.bluff_opportunities d = 0%Z
  /\ Opp.showdown_wins d = 0%Z
  /\ Opp.showdowns d = 0%Z.

(** The three scores of a record lie in [0, 1]. *)
Definition scores_ok (d : Opp.t) : Prop :=
  (0 <= Opp.fold_tendency d /\ Opp.fold_tendency d <= 1)
  /\ (0 <= Opp.bluff_tendency d /\ Opp.bluff_tendency d <= 1)
  /\ (0 <= Opp.calling_tendency d /\ Opp.calling_tendency d <= 1).

(** The observations of a list whose player is a key of the registry. *)
Definition tracked_observations (data : list (string * Opp.t))
    (obs : list Observation) : list Observation :=
  List.filter (fun o => dict_mem (obs_player_name o) data) obs.


(** * Properties *)

(** ** Comparisons *)

Lemma Qltb_true (x y : Q) : Qltb x y = true <-> x < y.
Proof.
  unfold Qltb. rewrite negb_true_iff. split; intros H.
  - apply Qnot_le_lt. intros L. apply Qle_bool_iff in L. congruence.
  - destruct (Qle_bool y x) eqn:E; [|reflexivity].
    apply Qle_bool_iff in E. exfalso. apply (Qlt_not_le _ _ H E).
Qed.

Lemma Qltb_false (x y : Q) : Qltb x y = false <-> y <= x.
Proof.
  unfold Qltb. rewrite negb_false_iff. apply Qle_bool_iff.
Qed.

Lemma py_max_ge_l (a b : Q) : a <= py_max a b.
Proof.
  unfold py_max. destruct (Qltb a b) eqn:E.
  - apply Qltb_true in E. apply Qlt_le_weak, E.
  - apply Qle_refl.
Qed.

Lemma py_max_ge_r (a b : Q) : b <= py_max a b.
Proof.
  unfold py_max. destruct (Qltb a b) eqn:E.
  - apply Qle_refl.
  - apply Qltb_false in E. exact E.
Qed.

Lemma py_max_cases (a b : Q) : py_max a b = a \/ py_max a b = b.
Proof. unfold py_max. destruct (Qltb a b); auto. Qed.

Lemma in_names_In (k : string) (names : list string) :
  in_names k names = true <-> In k names.
Proof.
  unfold in_names. rewrite existsb_exists. split.
  - intros (x & Hx & E). apply String.eqb_eq in E. subst. exact Hx.
  - intros H. exists k. split; [exact H|apply String.eqb_refl].
Qed.

(** ** DrawEvaluator *)

Lemma max_equity_fold (rest : list (string * DrawInfo)) (acc : Q) :
  let m := fold_left (fun a kd => py_max a (equity (snd kd))) rest acc in
  (m = acc \/ exists kd, In kd rest /\ m = equity (snd kd))
  /\ acc <= m
  /\ (forall kd, In kd rest -> equity (snd kd) <= m).
Proof.
  revert acc. induction rest as [|kd rest IH]; intros acc; simpl.
  - split; [left; reflexivity|]. split; [apply Qle_refl|]. intros ? [].
  - destruct (IH (py_max acc (equity (snd kd)))) as (Hm & Hacc & Hall).
    split; [|split].
    + destruct Hm as [Hm | (kd' & Hin & Hm)].
      * destruct (py_max_cases acc (equity (snd kd))) as [E | E].
        -- left. rewrite Hm. exact E.
        -- right. exists kd. split; [left; reflexivity|]. rewrite Hm. exact E.
      * right. exists kd'. split; [right; exact Hin|exact Hm].
    + eapply Qle_trans; [apply py_max_ge_l|exact Hacc].
    + intros kd' [-> | Hin].
      * eapply Qle_trans; [apply py_max_ge_r|exact Hacc].
      * apply Hall, Hin.
Qed.


Lemma positive_equities_empty : positive_equities ∅.
Proof. intros k d H. rewrite lookup_empty in H. discriminate. Qed.

Lemma positive_equities_insert (k : string) (v : DrawInfo)
    (draws : gmap string DrawInfo) :
  0 < equity v -> positive_equities draws -> positive_equities (<[k := v]> draws).
Proof.
  intros Hv Hd k' d H. apply lookup_insert_Some in H.
  destruct H as [[_ <-] | [_ H]]; [exact Hv|exact (Hd _ _ H)].
Qed.

Lemma identify_draws_positive (hole_cards community_cards : list Card)
    (draws : gmap string DrawInfo) :
  DrawEvaluator.identify_draws hole_cards community_cards = Ok draws ->
  positive_equities draws.
Proof.
  unfold DrawEvaluator.identify_draws.
  destruct community_cards as [|c0 crest].
  { intros [= <-]. apply positive_equities_empty. }
  destruct (map value hole_cards) as [|h hrest]; [discriminate|].
  intros [= <-].
  repeat match goal with
  | |- positive_equities (if ?b then _ else _) => destruct b eqn:?
  | |- positive_equities (<[_ := mkDraw _ ?q]> _) =>
      apply positive_equities_insert; [simpl|]
  | |- positive_equities ∅ => apply positive_equities_empty
  | |- positive_equities (let _ := _ in _) => cbv zeta
  | |- (0 < _ # _)%Q => reflexivity
  end.
  all: try match goal with
  | H : (0 <? ?n)%Z = true |- 0 < inject_Z ?n * _ =>
      apply Z.ltb_lt in H;
      apply Qmult_lt_0_compat; [unfold Qlt; simpl; lia|reflexivity]
  end.
Qed.

(** C9. For every draw-finding map, [calculate_total_equity] is 0 on the
    empty map and otherwise the equity of one single finding that no
    finding exceeds (the maximum, never a sum); it is non-negative
    whenever the equities of the findings are, as they are for every map
    that [identify_draws] returns. *)
Theorem total_equity_is_max_finding (draws : gmap string DrawInfo) :
  let total := DrawEvaluator.calculate_total_equity draws in
  (draws = ∅ -> total = 0)
  /\ (draws <> ∅ -> exists k d, draws !! k = Some d /\ total = equity d)
  /\ (forall k d, draws !! k = Some d -> equity d <= total)
  /\ ((forall k d, draws !! k = Some d -> 0 <= equity d) -> 0 <= total)
  /\ (forall hole_cards community_cards,
        DrawEvaluator.identify_draws hole_cards community_cards = Ok draws ->
        0 <= total).
Proof.
  assert (Hmax :
    (draws = ∅ -> DrawEvaluator.calculate_total_equity draws = 0)
    /\ (draws <> ∅ -> exists k d, draws !! k = Some d
                       /\ DrawEvaluator.calculate_total_equity draws = equity d)
    /\ (forall k d, draws !! k = Some d ->
                    equity d <= DrawEvaluator.calculate_total_equity draws)).
  { unfold DrawEvaluator.calculate_total_equity.
    destruct (map_to_list draws) as [|[k0 d0] rest] eqn:E.
    - apply map_to_list_empty_iff in E. subst draws.
      split; [reflexivity|]. split; [intros H; contradiction|].
      intros k d H. rewrite lookup_empty in H. discriminate.
    - unfold DrawEvaluator.max_equity.
      destruct (max_equity_fold rest (equity d0)) as (Hm & Hacc & Hall).
      split; [|split].
      + intros ->. rewrite map_to_list_empty in E. discriminate.
      + intros _. destruct Hm as [Hm | ([k1 d1] & Hin & Hm)].
        * exists k0, d0. split; [|exact Hm].
          apply elem_of_map_to_list. rewrite E. left.
        * exists k1, d1. split; [|exact Hm].
          apply elem_of_map_to_list. rewrite E. right.
          apply list_elem_of_In. exact Hin.
      + intros k d H. apply elem_of_map_to_list in H. rewrite E in H.
        apply list_elem_of_In in H. destruct H as [[= <- <-] | Hin].
        * exact Hacc.
        * apply (Hall (k, d)), Hin. }
  destruct Hmax as (Hempty & Hsome & Hle).
  assert (Hnonneg : (forall k d, draws !! k = Some d -> 0 <= equity d) ->
                    0 <= DrawEvaluator.calculate_total_equity draws).
  { intros Hpos. destruct (decide (draws = ∅)) as [He | Hne].
    - rewrite (Hempty He). apply Qle_refl.
    - destruct (Hsome Hne) as (k & d & Hk & ->). exact (Hpos _ _ Hk). }
  cbv zeta. split; [exact Hempty|]. split; [exact Hsome|].
  split; [exact Hle|]. split; [exact Hnonneg|].
  intros hole_cards community_cards Hid. apply Hnonneg.
  intros k d Hk. apply Qlt_le_weak.
  exact (identify_draws_positive _ _ _ Hid _ _ Hk).
Qed.

(** A flush draw with an open-ended straight draw: the total is the
    combo entry, 0.54, and not the sum of the three entries. *)
Lemma total_equity_combo_example :
  DrawEvaluator.calculate_total_equity
    (<["combo_draw" := mkDraw 15 (54#100)]>
       (<["oesd" := mkDraw 8 (31#100)]>
          (<["flush_draw" := mkDraw 9 (35#100)]> ∅)))
  = 54#100.
Proof. vm_compute. reflexivity. Qed.

(** ** SPRStrategy *)

Lemma xgtb_true (x : xfloat) (c : Q) : xgtb x c = true <-> xgt x c.
Proof. destruct x; simpl; [apply Qltb_true|tauto]. Qed.

Lemma xgtb_false (x : xfloat) (c : Q) : xgtb x c = false <-> xle x c.
Proof.
  destruct x; simpl; [apply Qltb_false|].
  split; [discriminate|contradiction].
Qed.

Lemma xgt_xle_absurd (x : xfloat) (c d : Q) :
  c <= d -> xgt x d -> xle x c -> False.
Proof. destruct x; simpl; [lra|tauto]. Qed.

Lemma calculate_spr_decreasing (stack : Q) (pot1 pot2 : Z) :
  0 < stack -> (pot1 < pot2)%Z -> (0 < pot2)%Z ->
  xlt (SPRStrategy.calculate_spr stack pot2) (SPRStrategy.calculate_spr stack pot1).
Proof.
  intros Hs Hlt Hpos. unfold SPRStrategy.calculate_spr.
  destruct (Z.leb_spec pot2 0) as [H2 | H2]; [lia|].
  destruct (Z.leb_spec pot1 0) as [H1 | H1]; simpl; [exact I|].
  assert (P1 : 0 < inject_Z pot1) by (unfold Qlt; simpl; lia).
  assert (P2 : 0 < inject_Z pot2) by (unfold Qlt; simpl; lia).
  assert (P12 : inject_Z pot1 < inject_Z pot2) by (rewrite <- Zlt_Qlt; exact Hlt).
  apply Qlt_shift_div_r; [exact P2|].
  assert (E : stack / inject_Z pot1 * inject_Z pot2
              == stack * inject_Z pot2 / inject_Z pot1)
    by (field; intros E; rewrite E in P1; discriminate).
  rewrite E.
  apply Qlt_shift_div_l; [exact P1|].
  apply Qmult_lt_l; [exact Hs|exact P12].
Qed.

(** The four regimes of [get_strategy_by_spr]. *)
Lemma get_strategy_by_spr_regimes (spr : xfloat) (hand_strength draw_equity : Q) :
        let g := SPRStrategy.get_strategy_by_spr spr hand_strength draw_equity in
        (xgt spr 15 ->
           g !! "commit_threshold" = Some (VFloat (75#100))
           /\ g !! "play_speculative" = Some (VBool true))
        /\ (xgt spr 7 -> xle spr 15 ->
              g !! "commit_threshold" = Some (VFloat (65#100))
              /\ g !! "play_speculative"
                 = Some (VBool (Qltb (25#100) draw_equity)))
        /\ (xgt spr 3 -> xle spr 7 ->
              g !! "commit_threshold" = Some (VFloat (55#100))
              /\ g !! "play_speculative" = Some (VBool false))
        /\ (xle spr 3 ->
              g !! "commit_threshold" = Some (VFloat (45#100))
              /\ g !! "play_speculative" = Some (VBool false))
        /\ (truthy (default (VBool false) (g !! "push_fold")) = true
            <-> xle spr 3).
Proof.
  cbv zeta. unfold SPRStrategy.get_strategy_by_spr.
  destruct (xgtb spr 15) eqn:E15; [|destruct (xgtb spr 7) eqn:E7;
    [|destruct (xgtb spr 3) eqn:E3]].
  all: repeat match goal with
       | H : xgtb _ _ = true |- _ => apply xgtb_true in H
       | H : xgtb _ _ = false |- _ => apply xgtb_false in H
       end.
  all: repeat split; try reflexivity; try discriminate; intros.
  all: try (exfalso;
            match goal with
            | G : xgt ?s ?d, L : xle ?s ?c |- _ =>
                apply (xgt_xle_absurd s c d); [lra|exact G|exact L]
            end).
  all: try assumption.
  all: try (vm_compute in *; discriminate).
Qed.

(** C7 (amended). For a fixed positive stack [calculate_spr] is strictly
    decreasing in the pot, with the value +infinity for every pot <= 0;
    the four regimes of [get_strategy_by_spr] are spr > 15, 7 < spr <= 15,
    3 < spr <= 7 and spr <= 3 with commit thresholds 0.75, 0.65, 0.55 and
    0.45; spr = 15.0 has commit threshold 0.65; the push-or-fold flag is
    set exactly when spr <= 3. *)
Theorem spr_monotone_and_regimes :
  (forall (stack : Q) (pot1 pot2 : Z),
      0 < stack -> (pot1 < pot2)%Z -> (0 < pot2)%Z ->
      xlt (SPRStrategy.calculate_spr stack pot2)
          (SPRStrategy.calculate_spr stack pot1))
  /\ (forall (stack : Q) (pot : Z),
        (pot <= 0)%Z -> SPRStrategy.calculate_spr stack pot = PosInf)
  /\ (forall (stack : Q) (pot : Z),
        (0 < pot)%Z ->
        SPRStrategy.calculate_spr stack pot = Finite (stack / inject_Z pot))
  /\ (forall (spr : xfloat) (hand_strength draw_equity : Q),
        let g := SPRStrategy.get_strategy_by_spr spr hand_strength draw_equity in
        (xgt spr 15 ->
           g !! "commit_threshold" = Some (VFloat (75#100))
           /\ g !! "play_speculative" = Some (VBool true))
        /\ (xgt spr 7 -> xle spr 15 ->
              g !! "commit_threshold" = Some (VFloat (65#100))
              /\ g !! "play_speculative"
                 = Some (VBool (Qltb (25#100) draw_equity)))
        /\ (xgt spr 3 -> xle spr 7 ->
              g !! "commit_threshold" = Some (VFloat (55#100))
              /\ g !! "play_speculative" = Some (VBool false))
        /\ (xle spr 3 ->
              g !! "commit_threshold" = Some (VFloat (45#100))
              /\ g !! "play_speculative" = Some (VBool false))
        /\ (truthy (default (VBool false) (g !! "push_fold")) = true
            <-> xle spr 3))
  /\ (forall hand_strength draw_equity : Q,
        SPRStrategy.get_strategy_by_spr (Finite 15) hand_strength draw_equity
          !! "commit_threshold" = Some (VFloat (65#100))).
Proof.
  split; [exact calculate_spr_decreasing|].
  split.
  { intros stack pot H. unfold SPRStrategy.calculate_spr.
    destruct (Z.leb_spec pot 0); [reflexivity|lia]. }
  split.
  { intros stack pot H. unfold SPRStrategy.calculate_spr.
    destruct (Z.leb_spec pot 0); [lia|reflexivity]. }
  split; [exact get_strategy_by_spr_regimes|reflexivity].
Qed.

(** The instances of the theorem at stack 100 with pots 100 and 200, and
    at spr = 2. *)
Lemma spr_monotone_and_regimes_witness :
  (0 < 100 /\ (100 < 200)%Z /\ (0 < 200)%Z
   /\ xlt (SPRStrategy.calculate_spr 100 200) (SPRStrategy.calculate_spr 100 100))
  /\ (xle (Finite 2) 3
      /\ SPRStrategy.get_strategy_by_spr (Finite 2) (5#10) 0 !! "commit_threshold"
         = Some (VFloat (45#100))).
Proof.
  split.
  - assert (H1 : 0 < 100) by reflexivity.
    assert (H2 : (100 < 200)%Z) by reflexivity.
    assert (H3 : (0 < 200)%Z) by reflexivity.
    split; [exact H1|]. split; [exact H2|]. split; [exact H3|].
    exact (proj1 spr_monotone_and_regimes 100 100%Z 200%Z H1 H2 H3).
  - assert (H : xle (Finite 2) 3) by (simpl; discriminate).
    split; [exact H|].
    destruct spr_monotone_and_regimes as (_ & _ & _ & Hreg & _).
    destruct (Hreg (Finite 2) (5#10) 0) as (_ & _ & _ & H3 & _).
    exact (proj1 (H3 H)).
Defined.

(** With a stack of 0 the ratio is 0 for every positive pot: it does not
    decrease from pot 1 to pot 2. *)
Lemma calculate_spr_not_decreasing_at_zero_stack :
  ~ (forall (stack : Q) (pot1 pot2 : Z),
       (pot1 < pot2)%Z ->
       xlt (SPRStrategy.calculate_spr stack pot2)
           (SPRStrategy.calculate_spr stack pot1)).
Proof.
  intros H. specialize (H 0 1%Z 2%Z eq_refl).
  vm_compute in H. discriminate.
Qed.

(** ** PositionAwareness *)

(** The class table makes the button's threshold the higher one for every
    positive base threshold. *)
Lemma get_adjusted_threshold_order (base_threshold : Q) :
  0 < base_threshold ->
  PositionAwareness.get_adjusted_threshold base_threshold "EP"
  < PositionAwareness.get_adjusted_threshold base_threshold "BTN".
Proof.
  intros H. unfold PositionAwareness.get_adjusted_threshold.
  change (PositionAwareness.POSITION_MULTIPLIERS !! "EP") with (Some (70#100)).
  change (PositionAwareness.POSITION_MULTIPLIERS !! "BTN") with (Some (125#100)).
  simpl. lra.
Qed.

(** The table that [_preflop_decision] uses gives the button the lower
    entry threshold. *)
Lemma preflop_threshold_btn_below_ep :
  SharkAI.adjusted_threshold_of "BTN" < SharkAI.adjusted_threshold_of "EP".
Proof. reflexivity. Qed.

(** C8. At the base threshold 0.6 [get_adjusted_threshold] returns 0.42
    for EP and 0.75 for BTN: the button's adjusted threshold is not lower
    than the early position's but higher. *)
Theorem get_adjusted_threshold_btn_above_ep :
  PositionAwareness.get_adjusted_threshold (6#10) "EP" == 42#100
  /\ PositionAwareness.get_adjusted_threshold (6#10) "BTN" == 75#100
  /\ ~ (PositionAwareness.get_adjusted_threshold (6#10) "BTN"
        < PositionAwareness.get_adjusted_threshold (6#10) "EP").
Proof.
  split; [reflexivity|]. split; [reflexivity|].
  intros H. vm_compute in H. discriminate.
Qed.

(** ** PotOddsCalculator *)

Lemma py_div_ok (a b : Q) : ~ b == 0 -> py_div a b = Ok (a / b).
Proof.
  intros H. unfold py_div. destruct (Qeq_bool b 0) eqn:E; [|reflexivity].
  apply Qeq_bool_eq in E. contradiction.
Qed.




(** ** Bet and raise sizing *)






(** ** The weighted choice *)


Lemma dict_del_In {V : Type} (k : string) (l : list (string * V))
    (kv : string * V) :
  In kv (dict_del k l) -> In kv l.
Proof.
  induction l as [|[k' v'] l IH]; simpl; [tauto|].
  destruct (String.eqb k k'); simpl; tauto.
Qed.


Lemma valid_weights_In (names : list string) (ws : list (string * Q))
    (kv : string * Q) :
  In kv (SharkAI.valid_weights names ws) ->
  In kv ws /\ in_names (fst kv) names = true /\ 0 < snd kv.
Proof.
  unfold SharkAI.valid_weights. intros H.
  assert (H' : In kv (List.filter (fun kv : string * Q =>
                                in_names (fst kv) names && Qltb 0 (snd kv)) ws)).
  { destruct (_ && _) in H; [exact (dict_del_In _ _ _ H)|exact H]. }
  apply filter_In in H'. destruct H' as (Hin & Hf).
  apply andb_true_iff in Hf. destruct Hf as (Hn & Hp).
  apply Qltb_true in Hp. auto.
Qed.


Lemma choose_In (r c : Q) (ws : list (string * Q)) (a : string) :
  SharkAI.choose r c ws = Some a -> In a (map fst ws).
Proof.
  revert c. induction ws as [|[k w] ws IH]; intros c; simpl; [discriminate|].
  destruct (Qle_bool r (c + w)).
  - intros [= <-]. left. reflexivity.
  - intros H. right. exact (IH _ H).
Qed.

Lemma last_In (l : list string) (d : string) : l <> [] -> In (List.last l d) l.
Proof.
  induction l as [|x l IH]; [congruence|]. intros _.
  destruct l as [|y l]; [left; reflexivity|].
  right. apply IH. discriminate.
Qed.

Lemma sum_weights_ge (ws : list (string * Q)) (acc : Q) :
  (forall kv, In kv ws -> 0 < snd kv) ->
  acc <= fold_left (fun a kv => a + snd kv) ws acc.
Proof.
  revert acc. induction ws as [|kv ws IH]; intros acc H; simpl; [apply Qle_refl|].
  eapply Qle_trans; [|apply IH; intros; apply H; right; assumption].
  assert (0 < snd kv) by (apply H; left; reflexivity). lra.
Qed.

(** The choice among positive weights is one of the offered actions. *)
Lemma weighted_choice_In (ws : list (string * Q)) (rnd : Q) :
  ws <> [] -> (forall kv, In kv ws -> 0 < snd kv) ->
  In (SharkAI._weighted_choice ws rnd) (map fst ws).
Proof.
  intros Hne Hpos. unfold SharkAI._weighted_choice.
  destruct (Qeq_bool _ 0) eqn:E.
  - exfalso. apply Qeq_bool_eq in E.
    destruct ws as [|kv ws]; [congruence|]. simpl in E.
    assert (H0 : 0 < snd kv) by (apply Hpos; left; reflexivity).
    assert (H1 : 0 + snd kv <= fold_left (fun a kv => a + snd kv) ws (0 + snd kv)).
    { apply sum_weights_ge. intros; apply Hpos; right; assumption. }
    lra.
  - destruct (SharkAI.choose _ 0 ws) eqn:C.
    + exact (choose_In _ _ _ _ C).
    + apply last_In. destruct ws; [congruence|discriminate].
Qed.

Lemma weights_shape (hand_strength draw_equity : Q) (config : Config)
    (spr_guidance : gmap string PyVal) :
  exists a b c d e : Q,
    SharkAI._calculate_postflop_weights hand_strength draw_equity config spr_guidance
    = [("fold", a); ("check", b); ("call", c); ("bet", d); ("raise", e);
       ("all_in", 0)].
Proof.
  unfold SharkAI._calculate_postflop_weights.
  repeat match goal with
  | |- context [if ?b then _ else _] => destruct b
  end; do 5 eexists; reflexivity.
Qed.

Lemma action_of_name (k : string) :
  In k ["fold"; "check"; "call"; "bet"; "raise"; "all_in"] ->
  action_name (default FOLD (SharkAI.action_map !! k)) = k.
Proof.
  intros H. repeat (destruct H as [<- | H]; [reflexivity|]). destruct H.
Qed.

(** What the sampling step returns: fold on an empty valid set, and
    otherwise an action of the valid set. *)
Lemma sampled_action (names : list string) (ws : list (string * Q)) (rnd : Q) :
  (exists a b c d e : Q,
     ws = [("fold", a); ("check", b); ("call", c); ("bet", d); ("raise", e);
           ("all_in", 0)]) ->
  SharkAI.valid_weights names ws <> [] ->
  let k := SharkAI._weighted_choice (SharkAI.valid_weights names ws) rnd in
  In k (map fst (SharkAI.valid_weights names ws))
  /\ action_name (default FOLD (SharkAI.action_map !! k)) = k
  /\ k <> "all_in".
Proof.
  intros (a & b & c & d & e & Hws) Hne. cbv zeta.
  assert (Hk := weighted_choice_In _ rnd Hne
                  (fun kv H => proj2 (proj2 (valid_weights_In _ _ _ H)))).
  split; [exact Hk|].
  apply in_map_iff in Hk. destruct Hk as ([k v] & Hfst & Hin). simpl in Hfst.
  rewrite <- Hfst.
  apply valid_weights_In in Hin. destruct Hin as (Hin & _ & Hv). simpl in Hv.
  rewrite Hws in Hin. split.
  - apply action_of_name. apply (in_map fst) in Hin. exact Hin.
  - intros ->. simpl in Hin.
    destruct Hin as [H|[H|[H|[H|[H|[H|[]]]]]]]; try discriminate H.
    injection H as <-. apply (Qlt_irrefl 0), Hv.
Qed.

(** ** The post-community decision *)








(** ** The opponent model *)

Lemma dict_get_set_eq {V : Type} (k : string) (v : V) (l : list (string * V)) :
  dict_get k (dict_set k v l) = Some v.
Proof.
  induction l as [|[k' v'] l IH]; simpl.
  - rewrite String.eqb_refl. reflexivity.
  - destruct (String.eqb k k') eqn:E; simpl; rewrite ?String.eqb_refl, ?E; auto.
Qed.

Lemma dict_set_nonempty {V : Type} (k : string) (v : V) (l : list (string * V)) :
  dict_set k v l <> [].
Proof. destruct l as [|[k' v'] l]; simpl; [|destruct (String.eqb k k')]; discriminate. Qed.

Lemma total_hands_acc (l : list (string * Opp.t)) (acc : Z) :
  fold_left (fun a kd => (a + Opp.hands_observed (snd kd))%Z) l acc
  = (acc + SharkAI.total_hands l)%Z.
Proof.
  unfold SharkAI.total_hands. revert acc.
  induction l as [|kd l IH]; intros acc; simpl; [lia|].
  rewrite IH, (IH (0 + _)%Z). lia.
Qed.

Lemma total_hands_cons (kd : string * Opp.t) (l : list (string * Opp.t)) :
  SharkAI.total_hands (kd :: l)
  = (Opp.hands_observed (snd kd) + SharkAI.total_hands l)%Z.
Proof. unfold SharkAI.total_hands at 1. simpl. rewrite total_hands_acc. lia. Qed.

Lemma total_hands_dict_set (k : string) (d d' : Opp.t) (l : list (string * Opp.t)) :
  dict_get k l = Some d ->
  SharkAI.total_hands (dict_set k d' l)
  = (SharkAI.total_hands l - Opp.hands_observed d + Opp.hands_observed d')%Z.
Proof.
  induction l as [|[k' v'] l IH]; simpl; [discriminate|].
  destruct (String.eqb k k').
  - intros [= ->]. rewrite !total_hands_cons. simpl. lia.
  - intros H. rewrite !total_hands_cons, (IH H). simpl. lia.
Qed.

Lemma total_hands_fresh (l : list (string * Opp.t)) :
  Forall (fun kd => snd kd = Opp.fresh) l -> SharkAI.total_hands l = 0%Z.
Proof.
  induction 1 as [|kd l Hkd _ IH]; [reflexivity|].
  rewrite total_hands_cons, IH, Hkd. reflexivity.
Qed.

Lemma dict_set_fresh (k : string) (l : list (string * Opp.t)) :
  Forall (fun kd => snd kd = Opp.fresh) l ->
  Forall (fun kd => snd kd = Opp.fresh) (dict_set k Opp.fresh l).
Proof.
  induction 1 as [|[k' v'] l Hkd Hl IH]; simpl.
  - repeat constructor.
  - destruct (String.eqb k k'); constructor; auto.
Qed.

Lemma register_fresh (players : list Player) (l : list (string * Opp.t)) :
  Forall (fun kd => snd kd = Opp.fresh) l ->
  Forall (fun kd => snd kd = Opp.fresh)
    (fold_left
       (fun d player =>
          if SharkAI.tracked player then dict_set (name player) Opp.fresh d else d)
       players l).
Proof.
  revert l. induction players as [|p players IH]; intros l Hl; simpl; [exact Hl|].
  apply IH. destruct (SharkAI.tracked p); [apply dict_set_fresh|]; exact Hl.
Qed.

Lemma initialize_opponents_total (self : SharkAI.t) (players : list Player) :
  SharkAI.total_hands (SharkAI.opponent_data (SharkAI.initialize_opponents self players))
  = 0%Z.
Proof. apply total_hands_fresh, register_fresh. constructor. Qed.

Lemma tendencies_hands (d : Opp.t) :
  Opp.hands_observed (SharkAI.tendencies d) = Opp.hands_observed d.
Proof. unfold SharkAI.tendencies. destruct (_ <? 3)%Z; reflexivity. Qed.

Lemma update_strategy_fields (s : SharkAI.t) :
  SharkAI.base_config (SharkAI._update_strategy s) = SharkAI.base_config s
  /\ SharkAI.opponent_data (SharkAI._update_strategy s) = SharkAI.opponent_data s
  /\ SharkAI.adaptation_active (SharkAI._update_strategy s)
     = SharkAI.adaptation_active s.
Proof.
  unfold SharkAI._update_strategy.
  destruct (SharkAI.opponent_data s) eqn:E; [rewrite E; auto|].
  destruct (Qltb (6#10) _), (Qltb (4#10) _), (Qltb (5#10) _); simpl; auto.
Qed.

Lemma record_action_hands (d : Opp.t) (action : string) (is_bluff facing_cbet : bool) :
  Opp.hands_observed (SharkAI.record_action d action is_bluff facing_cbet)
  = (Opp.hands_observed d + 1)%Z.
Proof.
  unfold SharkAI.record_action.
  destruct (String.eqb action "fold"), (in_names action ["call"]),
    (in_names action ["raise"; "bet"]), facing_cbet, is_bluff; reflexivity.
Qed.

Lemma calculate_tendencies_ok (s : SharkAI.t) (player_name : string) (d : Opp.t) :
  dict_get player_name (SharkAI.opponent_data s) = Some d ->
  SharkAI._calculate_tendencies s player_name
  = Ok (SharkAI.set_opponent_data
          (dict_set player_name (SharkAI.tendencies d) (SharkAI.opponent_data s)) s).
Proof. intros H. unfold SharkAI._calculate_tendencies. rewrite H. reflexivity. Qed.

Ltac proj_simpl :=
  cbn [SharkAI.base_config SharkAI.opponent_data SharkAI.adaptation_active
       SharkAI.hands_observed SharkAI.current_config
       SharkAI.set_opponent_data SharkAI.set_adaptation_active
       SharkAI.set_hands_observed SharkAI.set_current_config].

(** One observation: an unknown player changes nothing; for a tracked
    player the hands total grows by one, the flag is set when the total
    has reached the threshold, and the strategy is recomputed exactly when
    the flag is set. *)
Lemma update_after_action_step (s : SharkAI.t) (player_name action street : string)
    (is_bluff facing_cbet : bool) :
  (dict_get player_name (SharkAI.opponent_data s) = None
   /\ SharkAI.update_after_action s player_name action street is_bluff facing_cbet
      = Ok s)
  \/ (exists s1 : SharkAI.t,
        SharkAI.base_config s1 = SharkAI.base_config s
        /\ SharkAI.current_config s1 = SharkAI.current_config s
        /\ SharkAI.opponent_data s1 <> []
        /\ SharkAI.total_hands (SharkAI.opponent_data s1)
           = (SharkAI.total_hands (SharkAI.opponent_data s) + 1)%Z
        /\ SharkAI.adaptation_active s1
           = SharkAI.adaptation_active s
             || (adaptation_start (SharkAI.base_config s)
                 <=? SharkAI.total_hands (SharkAI.opponent_data s1))%Z
        /\ SharkAI.update_after_action s player_name action street is_bluff
             facing_cbet
           = Ok (if SharkAI.adaptation_active s1
                 then SharkAI._update_strategy s1 else s1)).
Proof.
  unfold SharkAI.update_after_action.
  destruct (dict_get player_name (SharkAI.opponent_data s)) as [d|] eqn:Hget;
    [right|left; auto].
  cbv zeta.
  set (data' := SharkAI.record_action d action is_bluff facing_cbet).
  assert (Hh : Opp.hands_observed data' = (Opp.hands_observed d + 1)%Z)
    by apply record_action_hands.
  set (data1 := dict_set player_name data' (SharkAI.opponent_data s)).
  assert (Ht1 : SharkAI.total_hands data1
                = (SharkAI.total_hands (SharkAI.opponent_data s) + 1)%Z).
  { unfold data1. rewrite (total_hands_dict_set _ _ _ _ Hget), Hh. lia. }
  assert (Hg1 : dict_get player_name data1 = Some data')
    by apply dict_get_set_eq.
  set (data2 := dict_set player_name (SharkAI.tendencies data') data1).
  assert (Ht2 : SharkAI.total_hands data2
                = (SharkAI.total_hands (SharkAI.opponent_data s) + 1)%Z).
  { unfold data2. rewrite (total_hands_dict_set _ _ _ _ Hg1), tendencies_hands.
    lia. }
  assert (Hne1 : data1 <> []) by apply dict_set_nonempty.
  assert (Hne2 : data2 <> []) by apply dict_set_nonempty.
  proj_simpl. fold data1. rewrite Ht1.
  set (reached := (adaptation_start (SharkAI.base_config s)
                   <=? SharkAI.total_hands (SharkAI.opponent_data s) + 1)%Z).
  assert (Hcalc : forall s', SharkAI.opponent_data s' = data1 ->
            SharkAI._calculate_tendencies s' player_name
            = Ok (SharkAI.set_opponent_data data2 s')).
  { intros s' Hs'. unfold data2. rewrite <- Hs'.
    apply calculate_tendencies_ok. rewrite Hs'. exact Hg1. }
  destruct (SharkAI.adaptation_active s) eqn:Hact;
    [|destruct reached eqn:Hge;
      [|destruct (Opp.hands_observed data' mod 5 =? 0)%Z eqn:H5]].
  - exists (SharkAI.set_opponent_data data2
              (SharkAI.set_hands_observed (SharkAI.hands_observed s + 1)%Z
                 (SharkAI.set_opponent_data data1 s))).
    proj_simpl. rewrite ?Hact, ?orb_true_r. cbn [negb orb].
    rewrite Hcalc by reflexivity. cbn [bind]. proj_simpl. rewrite ?Hact.
    rewrite ?orb_true_r. repeat split; try assumption; reflexivity.
  - exists (SharkAI.set_opponent_data data2
              (SharkAI.set_adaptation_active true
                 (SharkAI.set_hands_observed (SharkAI.hands_observed s + 1)%Z
                    (SharkAI.set_opponent_data data1 s)))).
    proj_simpl. rewrite ?Hact, ?Ht2. fold reached. rewrite ?Hge.
    cbn [negb orb]. proj_simpl. rewrite ?orb_true_r.
    rewrite Hcalc by reflexivity. cbn [bind]. proj_simpl.
    rewrite ?orb_true_r. repeat split; try assumption; reflexivity.
  - exists (SharkAI.set_opponent_data data2
              (SharkAI.set_hands_observed (SharkAI.hands_observed s + 1)%Z
                 (SharkAI.set_opponent_data data1 s))).
    proj_simpl. rewrite ?Hact, ?Ht2. fold reached. rewrite ?Hge.
    cbn [negb orb]. proj_simpl. rewrite ?Hact. cbn [orb].
    rewrite Hcalc by reflexivity. cbn [bind]. proj_simpl. rewrite ?Hact.
    rewrite ?orb_true_r. repeat split; try assumption; reflexivity.
  - exists (SharkAI.set_hands_observed (SharkAI.hands_observed s + 1)%Z
              (SharkAI.set_opponent_data data1 s)).
    proj_simpl. rewrite ?Hact, ?Ht1. fold reached. rewrite ?Hge.
    cbn [negb orb]. proj_simpl. rewrite ?Hact. cbn [orb].
    rewrite ?orb_true_r. repeat split; try assumption; reflexivity.
Qed.

Lemma update_strategy_follows_rules (s : SharkAI.t) :
  SharkAI.opponent_data s <> [] ->
  fixed_fields (SharkAI.base_config s) (SharkAI.current_config s) ->
  follows_rules (SharkAI.base_config s) (SharkAI.opponent_data s)
    (SharkAI.current_config (SharkAI._update_strategy s)).
Proof.
  intros Hne Hfix. unfold SharkAI._update_strategy.
  destruct (SharkAI.opponent_data s) as [|kd data] eqn:Hd; [congruence|].
  unfold follows_rules, fold_rule_triggers, bluff_rule_triggers,
    call_rule_triggers.
  destruct (Qltb (6#10) _) eqn:Ef; [apply Qltb_true in Ef|apply Qltb_false in Ef];
  (destruct (Qltb (4#10) _) eqn:Eb; [apply Qltb_true in Eb|apply Qltb_false in Eb]);
  (destruct (Qltb (5#10) _) eqn:Ec; [apply Qltb_true in Ec|apply Qltb_false in Ec]);
  cbn; repeat split; intros;
  try reflexivity; try (exfalso; lra); try apply Hfix.
  all: exfalso; auto using Qle_not_lt.
Qed.

(** *** Activation *)


Lemma observe_activation (s : SharkAI.t) (o : Observation) :
  activation_inv s ->
  exists s', SharkAI.observe s o = Ok s'
    /\ activation_inv s'
    /\ SharkAI.base_config s' = SharkAI.base_config s
    /\ (SharkAI.total_hands (SharkAI.opponent_data s)
        <= SharkAI.total_hands (SharkAI.opponent_data s'))%Z.
Proof.
  intros Hinv. unfold SharkAI.observe.
  destruct (update_after_action_step s (obs_player_name o) (obs_action o)
              (obs_street o) (obs_is_bluff o) (obs_facing_cbet o))
    as [(_ & ->) | (s1 & Hb & _ & _ & Ht & Ha & ->)].
  - exists s. split; [reflexivity|]. split; [exact Hinv|]. split; [reflexivity|lia].
  - destruct (update_strategy_fields s1) as (Ub & Ud & Ua).
    assert (Hinv1 : activation_inv s1).
    { unfold activation_inv in *. rewrite Ha, Hb, orb_true_iff, Z.leb_le, Hinv.
      rewrite Ht. lia. }
    eexists. split; [reflexivity|].
    unfold activation_inv in Hinv1 |- *.
    destruct (SharkAI.adaptation_active s1) eqn:E1;
      rewrite ?Ub, ?Ud, ?Ua, ?E1;
      (split; [exact Hinv1|split; [exact Hb|lia]]).
Qed.

Lemma observe_all_activation (obs : list Observation) (s : SharkAI.t) :
  activation_inv s ->
  exists s', SharkAI.observe_all s obs = Ok s'
    /\ activation_inv s'
    /\ SharkAI.base_config s' = SharkAI.base_config s
    /\ (SharkAI.total_hands (SharkAI.opponent_data s)
        <= SharkAI.total_hands (SharkAI.opponent_data s'))%Z.
Proof.
  revert s. induction obs as [|o obs IH]; intros s Hinv; simpl.
  - exists s. split; [reflexivity|]. split; [exact Hinv|]. split; [reflexivity|lia].
  - destruct (observe_activation s o Hinv) as (s1 & -> & Hinv1 & Hb1 & Ht1).
    destruct (IH s1 Hinv1) as (s2 & Hr & Hinv2 & Hb2 & Ht2).
    exists s2. simpl. split; [exact Hr|]. split; [exact Hinv2|].
    split; [congruence|lia].
Qed.

Lemma summary_observing (s : SharkAI.t) :
  SharkAI.get_opponent_summary s = "[鲨鱼AI] 观察中..."
  <-> SharkAI.adaptation_active s = false.
Proof.
  unfold SharkAI.get_opponent_summary.
  destruct (SharkAI.adaptation_active s); simpl.
  - split; [|discriminate].
    destruct (flat_map _ _); simpl; discriminate.
  - split; reflexivity.
Qed.

(** C6. In a session started by [initialize_opponents] on an engine whose
    threshold is 20, every sequence of observations is processed without
    an error; the activation flag is set exactly when the total of the
    hands observed over the tracked opponents has reached 20; once that
    total has reached 20 the flag is still set after any further
    observations, and the summary is then never the observing message. *)
Theorem adaptation_activation_is_sticky (self : SharkAI.t)
    (players : list Player) (obs1 obs2 : list Observation) :
  adaptation_start (SharkAI.base_config self) = 20%Z ->
  exists s1 s2 : SharkAI.t,
    SharkAI.observe_all (SharkAI.initialize_opponents self players) obs1 = Ok s1
    /\ SharkAI.observe_all s1 obs2 = Ok s2
    /\ (SharkAI.adaptation_active s1 = true
        <-> (20 <= SharkAI.total_hands (SharkAI.opponent_data s1))%Z)
    /\ (SharkAI.adaptation_active s1 = false ->
        SharkAI.get_opponent_summary s1 = "[鲨鱼AI] 观察中...")
    /\ ((20 <= SharkAI.total_hands (SharkAI.opponent_data s1))%Z ->
        SharkAI.adaptation_active s2 = true
        /\ SharkAI.get_opponent_summary s2 <> "[鲨鱼AI] 观察中...").
Proof.
  intros Hstart.
  assert (H0 : activation_inv (SharkAI.initialize_opponents self players)).
  { unfold activation_inv. rewrite initialize_opponents_total. simpl.
    rewrite Hstart. split; [discriminate|lia]. }
  destruct (observe_all_activation obs1 _ H0) as (s1 & Hr1 & Hinv1 & Hb1 & _).
  destruct (observe_all_activation obs2 _ Hinv1) as (s2 & Hr2 & Hinv2 & Hb2 & Ht2).
  assert (Hs1 : adaptation_start (SharkAI.base_config s1) = 20%Z)
    by (rewrite Hb1; exact Hstart).
  assert (Hs2 : adaptation_start (SharkAI.base_config s2) = 20%Z)
    by (rewrite Hb2; exact Hs1).
  unfold activation_inv in Hinv1, Hinv2. rewrite Hs1 in Hinv1. rewrite Hs2 in Hinv2.
  exists s1, s2. split; [exact Hr1|]. split; [exact Hr2|].
  split; [exact Hinv1|]. split; [apply summary_observing|].
  intros Hge.
  assert (Ha2 : SharkAI.adaptation_active s2 = true) by (apply Hinv2; lia).
  split; [exact Ha2|]. intros Hsum. apply summary_observing in Hsum. congruence.
Qed.

(** A session of 24 observations of one opponent, followed by one more. *)
Lemma adaptation_activation_is_sticky_witness :
  adaptation_start (SharkAI.base_config SharkAI.__init__) = 20%Z
  /\ exists s1 s2 : SharkAI.t,
       SharkAI.observe_all (SharkAI.initialize_opponents SharkAI.__init__ [villain])
         folds_then_raises = Ok s1
       /\ SharkAI.observe_all s1 [fold_obs] = Ok s2
       /\ (20 <= SharkAI.total_hands (SharkAI.opponent_data s1))%Z
       /\ SharkAI.adaptation_active s2 = true
       /\ SharkAI.get_opponent_summary s2 <> "[鲨鱼AI] 观察中...".
Proof.
  assert (H : adaptation_start (SharkAI.base_config SharkAI.__init__) = 20%Z)
    by reflexivity.
  split; [exact H|].
  destruct (adaptation_activation_is_sticky SharkAI.__init__ [villain]
              folds_then_raises [fold_obs] H)
    as (s1 & s2 & Hr1 & Hr2 & _ & _ & Hst).
  exists s1, s2. split; [exact Hr1|]. split; [exact Hr2|].
  assert (Hge : (20 <= SharkAI.total_hands (SharkAI.opponent_data s1))%Z).
  { vm_compute in Hr1. injection Hr1 as <-. vm_compute. discriminate. }
  split; [exact Hge|]. exact (Hst Hge).
Defined.

(** *** The current configuration *)


Lemma observe_config (s : SharkAI.t) (o : Observation) :
  config_inv s ->
  exists s', SharkAI.observe s o = Ok s'
    /\ config_inv s'
    /\ SharkAI.base_config s' = SharkAI.base_config s.
Proof.
  intros (Hfix & Hoff & Hon). unfold SharkAI.observe.
  destruct (update_after_action_step s (obs_player_name o) (obs_action o)
              (obs_street o) (obs_is_bluff o) (obs_facing_cbet o))
    as [(_ & ->) | (s1 & Hb & Hc & Hne & _ & Ha & ->)].
  - exists s. split; [reflexivity|]. split; [|reflexivity].
    split; [exact Hfix|]. split; assumption.
  - eexists. split; [reflexivity|].
    assert (Hfix1 : fixed_fields (SharkAI.base_config s1) (SharkAI.current_config s1))
      by (rewrite Hb, Hc; exact Hfix).
    destruct (SharkAI.adaptation_active s1) eqn:E1.
    + destruct (update_strategy_fields s1) as (Ub & Ud & Ua).
      pose proof (update_strategy_follows_rules s1 Hne Hfix1) as Hrules.
      split; [|rewrite Ub; exact Hb].
      unfold config_inv. rewrite Ub, Ud, Ua, E1.
      split; [apply Hrules|]. split; [discriminate|]. intros _. exact Hrules.
    + split; [|exact Hb].
      unfold config_inv. rewrite E1. split; [exact Hfix1|].
      split; [|discriminate]. intros _. rewrite Hc, Hb. apply Hoff.
      symmetry in Ha. apply orb_false_iff in Ha. apply Ha.
Qed.

Lemma observe_all_config (obs : list Observation) (s : SharkAI.t) :
  config_inv s ->
  exists s', SharkAI.observe_all s obs = Ok s'
    /\ config_inv s'
    /\ SharkAI.base_config s' = SharkAI.base_config s.
Proof.
  revert s. induction obs as [|o obs IH]; intros s Hinv; simpl.
  - exists s. auto.
  - destruct (observe_config s o Hinv) as (s1 & -> & Hinv1 & Hb1).
    destruct (IH s1 Hinv1) as (s2 & Hr & Hinv2 & Hb2).
    exists s2. simpl. split; [exact Hr|]. split; [exact Hinv2|congruence].
Qed.



(** Five folds leave adaptation inactive and the configuration at the
    baseline; twenty folds give the same tendencies (1.0, 0.5, 0.5) with
    adaptation active and a raised bluff frequency. *)
Lemma current_config_waits_for_activation :
  exists s5 s20 : SharkAI.t,
    SharkAI.observe_all (SharkAI.initialize_opponents SharkAI.__init__ [villain])
      (repeat fold_obs 5) = Ok s5
    /\ SharkAI.observe_all (SharkAI.initialize_opponents SharkAI.__init__ [villain])
         (repeat fold_obs 20) = Ok s20
    /\ map (fun kd => (Opp.fold_tendency (snd kd), Opp.bluff_tendency (snd kd),
                       Opp.calling_tendency (snd kd))) (SharkAI.opponent_data s5)
       = map (fun kd => (Opp.fold_tendency (snd kd), Opp.bluff_tendency (snd kd),
                         Opp.calling_tendency (snd kd))) (SharkAI.opponent_data s20)
    /\ SharkAI.adaptation_active s5 = false
    /\ SharkAI.current_config s5 = SharkAI.base_config s5
    /\ SharkAI.adaptation_active s20 = true
    /\ bluff_freq (SharkAI.current_config s20) == 30#100.
Proof.
  eexists. eexists.
  split; [vm_compute; reflexivity|]. split; [vm_compute; reflexivity|].
  repeat (split; [reflexivity|]). reflexivity.
Qed.

(** ** More on DrawEvaluator *)

Lemma identify_draws_steps (hole_cards : list Card) (c0 : Card)
    (crest : list Card) (h : Z) (hrest : list Z) :
  map value hole_cards = h :: hrest ->
  DrawEvaluator.identify_draws hole_cards (c0 :: crest)
  = Ok (with_combo
          (single_draws
             (flush_draw_found hole_cards (hole_cards ++ c0 :: crest))
             (backdoor_flush_found (c0 :: crest) (hole_cards ++ c0 :: crest))
             (4 <=? length (ranks_of (hole_cards ++ c0 :: crest)))%nat
             (DrawEvaluator.has_window 3 (ranks_of (hole_cards ++ c0 :: crest)))
             (DrawEvaluator.has_window 4 (ranks_of (hole_cards ++ c0 :: crest)))
             (12 <=? DrawEvaluator.max_value h hrest)%Z
             (overcard_count (h :: hrest) c0 crest))).
Proof.
  intros Hmap. unfold DrawEvaluator.identify_draws. rewrite Hmap. reflexivity.
Qed.

Lemma single_draws_lookup (f b l o g hi : bool) (n : Z) (k : string) :
  single_draws f b l o g hi n !! k =
  if String.eqb k "overcards" then
    if hi && (0 <? n)%Z
    then Some (mkDraw (n * 3) (inject_Z n * (12#100))) else None
  else if String.eqb k "gutshot" then
    if l && g then Some (mkDraw 4 (16#100)) else None
  else if String.eqb k "oesd" then
    if l && o then Some (mkDraw 8 (31#100)) else None
  else if String.eqb k "backdoor_flush" then
    if b then Some (mkDraw 1 (4#100)) else None
  else if String.eqb k "flush_draw" then
    if f then Some (mkDraw 9 (35#100)) else None
  else None.
Proof.
  unfold single_draws.
  destruct f, b, l, o, g, hi, (0 <? n)%Z; cbv beta iota zeta;
    repeat match goal with
    | |- context [String.eqb k ?s] =>
        destruct (String.eqb_spec k s) as [->|?]
    end;
    cbn [andb];
    rewrite ?lookup_insert_eq, ?lookup_insert_ne, ?lookup_empty by congruence;
    try reflexivity;
    repeat (rewrite lookup_insert_ne by congruence);
    rewrite ?lookup_insert_eq, ?lookup_empty; reflexivity.
Qed.

Lemma with_combo_lookup (draws : gmap string DrawInfo) (k : string) :
  with_combo draws !! k =
  if String.eqb k "combo_draw" then
    if bool_decide (is_Some (draws !! "flush_draw")) &&
       bool_decide (is_Some (draws !! "oesd"))
    then Some (mkDraw 15 (54#100))
    else if bool_decide (is_Some (draws !! "flush_draw")) &&
            bool_decide (is_Some (draws !! "gutshot"))
    then Some (mkDraw 12 (45#100))
    else draws !! "combo_draw"
  else draws !! k.
Proof.
  unfold with_combo.
  destruct (String.eqb_spec k "combo_draw") as [->|Hk];
    destruct (_ && _); [| destruct (_ && _) | | destruct (_ && _)];
    rewrite ?lookup_insert_eq, ?lookup_insert_ne by congruence; reflexivity.
Qed.

Lemma is_Some_if (V : Type) (b : bool) (v : V) :
  bool_decide (is_Some (if b then Some v else None)) = b.
Proof.
  destruct b.
  - apply bool_decide_eq_true. eexists; reflexivity.
  - apply bool_decide_eq_false. intros [x Hx]. discriminate.
Qed.

(** The entry of every key in the result of [identify_draws], for a hand
    that is not empty and a board that is not empty. *)
Lemma identify_draws_lookup (hole_cards : list Card) (c0 : Card)
    (crest : list Card) (h : Z) (hrest : list Z) :
  map value hole_cards = h :: hrest ->
  let all_cards := (hole_cards ++ c0 :: crest)%list in
  let f := flush_draw_found hole_cards all_cards in
  let b := backdoor_flush_found (c0 :: crest) all_cards in
  let o := (4 <=? length (ranks_of all_cards))%nat
           && DrawEvaluator.has_window 3 (ranks_of all_cards) in
  let g := (4 <=? length (ranks_of all_cards))%nat
           && DrawEvaluator.has_window 4 (ranks_of all_cards) in
  let n := overcard_count (h :: hrest) c0 crest in
  let v := (12 <=? DrawEvaluator.max_value h hrest)%Z && (0 <? n)%Z in
  exists draws : gmap string DrawInfo,
    DrawEvaluator.identify_draws hole_cards (c0 :: crest) = Ok draws
    /\ draws !! "flush_draw" = (if f then Some (mkDraw 9 (35#100)) else None)
    /\ draws !! "backdoor_flush" = (if b then Some (mkDraw 1 (4#100)) else None)
    /\ draws !! "oesd" = (if o then Some (mkDraw 8 (31#100)) else None)
    /\ draws !! "gutshot" = (if g then Some (mkDraw 4 (16#100)) else None)
    /\ draws !! "overcards"
       = (if v then Some (mkDraw (n * 3) (inject_Z n * (12#100))) else None)
    /\ draws !! "combo_draw"
       = (if f && o then Some (mkDraw 15 (54#100))
          else if f && g then Some (mkDraw 12 (45#100)) else None)
    /\ (forall k, ~ In k draw_kinds -> draws !! k = None).
Proof.
  intros Hmap. cbv zeta. eexists. split; [apply identify_draws_steps, Hmap|].
  repeat split.
  1-5: rewrite with_combo_lookup; cbn [String.eqb Ascii.eqb Bool.eqb];
       rewrite single_draws_lookup; cbn [String.eqb Ascii.eqb Bool.eqb];
       reflexivity.
  - rewrite with_combo_lookup. cbn [String.eqb Ascii.eqb Bool.eqb].
    rewrite !single_draws_lookup. cbn [String.eqb Ascii.eqb Bool.eqb].
    rewrite !is_Some_if. reflexivity.
  - intros k Hk. rewrite with_combo_lookup.
    unfold draw_kinds in Hk.
    destruct (String.eqb_spec k "combo_draw") as [->|?];
      [exfalso; apply Hk; simpl; auto 10|].
    rewrite single_draws_lookup.
    repeat match goal with
    | |- context [String.eqb k ?s] =>
        destruct (String.eqb_spec k s) as [->|?]
    end; try reflexivity; exfalso; apply Hk; simpl; auto 10.
Qed.

Lemma suit_eqb_eq (a b : Suit) : suit_eqb a b = true <-> a = b.
Proof. destruct a, b; simpl; split; intros H; congruence. Qed.

Lemma suit_set_In (s : Suit) (suits : list Suit) :
  In s (DrawEvaluator.suit_set suits) <-> In s suits.
Proof.
  unfold DrawEvaluator.suit_set. rewrite filter_In, existsb_exists. split.
  - intros (_ & x & Hx & E). apply suit_eqb_eq in E. subst. exact Hx.
  - intros H. split; [destruct s; simpl; auto 10|].
    exists s. split; [exact H|apply suit_eqb_eq; reflexivity].
Qed.

Lemma suited_count (s : Suit) (cards : list Card) :
  length (List.filter (suit_eqb s) (map suit cards))
  = length (DrawEvaluator.suited s cards).
Proof.
  unfold DrawEvaluator.suited.
  induction cards as [|c cards IH]; simpl; [reflexivity|].
  replace (suit_eqb (suit c) s) with (suit_eqb s (suit c))
    by (destruct s, (suit c); reflexivity).
  destruct (suit_eqb s (suit c)); simpl; rewrite IH; reflexivity.
Qed.

Lemma suited_present (s : Suit) (cards : list Card) :
  (0 < length (DrawEvaluator.suited s cards))%nat -> In s (map suit cards).
Proof.
  unfold DrawEvaluator.suited. intros H.
  destruct (List.filter _ cards) as [|c l] eqn:E; [simpl in H; lia|].
  assert (Hin : In c (List.filter (fun c => suit_eqb (suit c) s) cards))
    by (rewrite E; left; reflexivity).
  apply filter_In in Hin. destruct Hin as (Hin & Hs).
  apply suit_eqb_eq in Hs. subst s. apply in_map, Hin.
Qed.

Lemma flush_draw_found_spec (hole_cards all_cards : list Card) :
  flush_draw_found hole_cards all_cards = true
  <-> exists s, length (DrawEvaluator.suited s all_cards) = 4%nat
                /\ (1 <= length (DrawEvaluator.suited s hole_cards))%nat.
Proof.
  unfold flush_draw_found. rewrite existsb_exists. split.
  - intros (s & _ & H). apply andb_true_iff in H. destruct H as (H4 & H1).
    exists s. split; [apply Nat.eqb_eq, H4|apply Nat.leb_le, H1].
  - intros (s & H4 & H1). exists s. split.
    + apply suit_set_In, suited_present. lia.
    + apply andb_true_iff. split; [apply Nat.eqb_eq, H4|apply Nat.leb_le, H1].
Qed.

Lemma backdoor_flush_found_spec (community_cards all_cards : list Card) :
  backdoor_flush_found community_cards all_cards = true
  <-> length community_cards = 3%nat
      /\ exists s, length (DrawEvaluator.suited s all_cards) = 3%nat.
Proof.
  unfold backdoor_flush_found. rewrite existsb_exists. split.
  - intros (s & _ & H). apply andb_true_iff in H. destruct H as (H3 & Hc).
    split; [apply Nat.eqb_eq, Hc|]. exists s.
    rewrite <- suited_count. apply Nat.eqb_eq, H3.
  - intros (Hc & s & H3). exists s. split.
    + apply suit_set_In, suited_present. lia.
    + apply andb_true_iff. rewrite suited_count.
      split; apply Nat.eqb_eq; assumption.
Qed.

Lemma is_Some_if_iff {V : Type} (b : bool) (v : V) :
  is_Some (if b then Some v else None) <-> b = true.
Proof.
  destruct b; split; intros H; try reflexivity; try discriminate.
  - eexists; reflexivity.
  - destruct H as [x Hx]. discriminate.
Qed.

(** X1. [identify_draws] returns the empty map when there are no community
    cards (whatever the hole cards are), raises IndexError when there are
    community cards but no hole cards, and otherwise returns a map whose
    keys are among the six kinds of draw. *)
Theorem identify_draws_outcomes :
  (forall hole_cards : list Card,
      DrawEvaluator.identify_draws hole_cards [] = Ok ∅)
  /\ (forall (c0 : Card) (crest : list Card),
        DrawEvaluator.identify_draws [] (c0 :: crest) = Raise IndexError)
  /\ (forall (c : Card) (hole : list Card) (c0 : Card) (crest : list Card),
        exists draws : gmap string DrawInfo,
          DrawEvaluator.identify_draws (c :: hole) (c0 :: crest) = Ok draws
          /\ forall k, is_Some (draws !! k) -> In k draw_kinds).
Proof.
  split; [reflexivity|]. split; [reflexivity|].
  intros c hole c0 crest.
  destruct (identify_draws_lookup (c :: hole) c0 crest (value c) (map value hole)
              eq_refl) as (draws & Hr & _ & _ & _ & _ & _ & _ & Hother).
  exists draws. split; [exact Hr|]. intros k Hk.
  destruct (in_dec string_dec k draw_kinds) as [Hin | Hnot]; [exact Hin|].
  rewrite (Hother k Hnot) in Hk. destruct Hk as [x Hx]. discriminate.
Qed.

(** X2. For a hand and a board that are not empty: a flush draw is found
    exactly when some suit has exactly four cards among hole and community
    cards with at least one of them in the hole, and its entry is 9 outs
    with equity 0.35; a backdoor flush is found exactly when there are
    exactly three community cards and some suit has exactly three cards
    among all cards (hole cards of that suit are not required), and its
    entry is 1 out with equity 0.04. *)
Theorem flush_draws_found (c : Card) (hole : list Card) (c0 : Card)
    (crest : list Card) :
  let hole_cards := c :: hole in
  let community_cards := c0 :: crest in
  let all_cards := (hole_cards ++ community_cards)%list in
  exists draws : gmap string DrawInfo,
    DrawEvaluator.identify_draws hole_cards community_cards = Ok draws
    /\ (is_Some (draws !! "flush_draw")
        <-> exists s, length (DrawEvaluator.suited s all_cards) = 4%nat
                      /\ (1 <= length (DrawEvaluator.suited s hole_cards))%nat)
    /\ (forall d, draws !! "flush_draw" = Some d -> d = mkDraw 9 (35#100))
    /\ (is_Some (draws !! "backdoor_flush")
        <-> length community_cards = 3%nat
            /\ exists s, length (DrawEvaluator.suited s all_cards) = 3%nat)
    /\ (forall d, draws !! "backdoor_flush" = Some d -> d = mkDraw 1 (4#100)).
Proof.
  cbv zeta.
  destruct (identify_draws_lookup (c :: hole) c0 crest (value c) (map value hole)
              eq_refl) as (draws & Hr & Hf & Hb & _).
  exists draws. split; [exact Hr|]. rewrite Hf, Hb.
  split; [rewrite is_Some_if_iff; apply flush_draw_found_spec|].
  split; [destruct (flush_draw_found _ _); congruence|].
  split; [rewrite is_Some_if_iff; apply backdoor_flush_found_spec|].
  destruct (backdoor_flush_found _ _); congruence.
Qed.

(** X3. For a hand and a board that are not empty: the combo entry is
    present exactly when a flush draw is present together with an
    open-ended straight draw or a gutshot; it is 15 outs with equity 0.54
    when the open-ended straight draw is present and 12 outs with equity
    0.45 otherwise; the flush and straight entries stay in the map. *)
Theorem combo_draw_found (c : Card) (hole : list Card) (c0 : Card)
    (crest : list Card) :
  exists draws : gmap string DrawInfo,
    DrawEvaluator.identify_draws (c :: hole) (c0 :: crest) = Ok draws
    /\ (is_Some (draws !! "combo_draw")
        <-> is_Some (draws !! "flush_draw")
            /\ (is_Some (draws !! "oesd") \/ is_Some (draws !! "gutshot")))
    /\ (is_Some (draws !! "flush_draw") -> is_Some (draws !! "oesd") ->
        draws !! "combo_draw" = Some (mkDraw 15 (54#100)))
    /\ (is_Some (draws !! "flush_draw") -> draws !! "oesd" = None ->
        is_Some (draws !! "gutshot") ->
        draws !! "combo_draw" = Some (mkDraw 12 (45#100))).
Proof.
  destruct (identify_draws_lookup (c :: hole) c0 crest (value c) (map value hole)
              eq_refl) as (draws & Hr & Hf & _ & Ho & Hg & _ & Hc & _).
  exists draws. split; [exact Hr|]. rewrite Hf, Ho, Hg, Hc.
  destruct (flush_draw_found _ _), (_ && DrawEvaluator.has_window 3 _),
    (_ && DrawEvaluator.has_window 4 _); cbn [andb];
    repeat split; intros;
    repeat match goal with
    | H : is_Some None |- _ => destruct H as [? ?]; discriminate
    | H : _ /\ _ |- _ => destruct H
    | H : _ \/ _ |- _ => destruct H
    | H : Some _ = None |- _ => discriminate H
    | |- is_Some (Some _) => eexists; reflexivity
    | |- _ /\ _ => split
    end; try reflexivity; try (left; eexists; reflexivity);
    try (right; eexists; reflexivity).
Qed.

Lemma max_value_spec (v : Z) (l : list Z) :
  (v <= DrawEvaluator.max_value v l)%Z
  /\ (forall x, In x l -> (x <= DrawEvaluator.max_value v l)%Z)
  /\ (DrawEvaluator.max_value v l = v \/ In (DrawEvaluator.max_value v l) l).
Proof.
  unfold DrawEvaluator.max_value. revert v.
  induction l as [|y l IH]; intros v; simpl.
  - split; [lia|]. split; [intros x []|left; reflexivity].
  - destruct (IH (Z.max v y)) as (H1 & H2 & H3). split; [lia|]. split.
    + intros x [<- | Hx]; [lia|apply H2, Hx].
    + destruct H3 as [H3 | H3]; [|right; right; exact H3].
      rewrite H3. destruct (Z.max_spec v y) as [[_ ->] | [_ ->]]; auto.
Qed.

Lemma max_value_ltb (v : Z) (l : list Z) (x : Z) :
  (DrawEvaluator.max_value v l <? x)%Z = forallb (fun y => (y <? x)%Z) (v :: l).
Proof.
  destruct (max_value_spec v l) as (H1 & H2 & H3).
  destruct (forallb _ _) eqn:E.
  - rewrite forallb_forall in E. apply Z.ltb_lt.
    destruct H3 as [-> | H3].
    + apply Z.ltb_lt, E. left; reflexivity.
    + apply Z.ltb_lt, E. right; exact H3.
  - apply Z.ltb_ge. destruct (Z.ltb_spec (DrawEvaluator.max_value v l) x) as [L|L];
      [|exact L].
    exfalso. assert (F : forallb (fun y => (y <? x)%Z) (v :: l) = true).
    { apply forallb_forall. intros y [<- | Hy]; apply Z.ltb_lt.
      - lia.
      - specialize (H2 y Hy). lia. }
    congruence.
Qed.

Lemma filter_map_length {A B : Type} (f : A -> B) (p : B -> bool) (l : list A) :
  length (List.filter p (map f l)) = length (List.filter (fun a => p (f a)) l).
Proof.
  induction l as [|a l IH]; simpl; [reflexivity|].
  destruct (p (f a)); simpl; rewrite IH; reflexivity.
Qed.

Lemma filter_length_le {A : Type} (p : A -> bool) (l : list A) :
  (length (List.filter p l) <= length l)%nat.
Proof.
  induction l as [|a l IH]; simpl; [lia|]. destruct (p a); simpl; lia.
Qed.

Lemma overcard_count_cards (hole_cards : list Card) (c0 : Card) (crest : list Card) :
  overcard_count (map value hole_cards) c0 crest
  = Z.of_nat
      (length
         (List.filter
            (fun x => forallb (fun y => (value y <? value x)%Z) (c0 :: crest))
            hole_cards)).
Proof.
  unfold overcard_count. rewrite filter_map_length. f_equal. f_equal.
  apply filter_ext. intros x. rewrite max_value_ltb.
  change (value c0 :: map value crest) with (map value (c0 :: crest)).
  generalize (c0 :: crest). intros l.
  induction l as [|y l IH]; simpl; [reflexivity|]. rewrite IH. reflexivity.
Qed.

(** X4. For a hand and a board that are not empty, with n the number of
    hole cards that rank above every community card: the overcards entry
    is present exactly when some hole card has rank >= 12 and n > 0, and
    it then holds 3n outs and equity 0.12 n (every hole card above the
    board counts, also one below rank 12). *)
Theorem overcards_found (c : Card) (hole : list Card) (c0 : Card)
    (crest : list Card) :
  let hole_cards := c :: hole in
  let community_cards := c0 :: crest in
  let n :=
    Z.of_nat
      (length
         (List.filter
            (fun x => forallb (fun y => (value y <? value x)%Z) community_cards)
            hole_cards)) in
  exists draws : gmap string DrawInfo,
    DrawEvaluator.identify_draws hole_cards community_cards = Ok draws
    /\ (is_Some (draws !! "overcards")
        <-> (exists x, In x hole_cards /\ (12 <= value x)%Z) /\ (0 < n)%Z)
    /\ (forall d, draws !! "overcards" = Some d ->
        d = mkDraw (n * 3) (inject_Z n * (12#100))).
Proof.
  cbv zeta.
  destruct (identify_draws_lookup (c :: hole) c0 crest (value c) (map value hole)
              eq_refl) as (draws & Hr & _ & _ & _ & _ & Hv & _).
  exists draws. split; [exact Hr|].
  change (value c :: map value hole) with (map value (c :: hole)) in Hv.
  rewrite overcard_count_cards in Hv. rewrite Hv.
  set (n := Z.of_nat _).
  assert (Hhigh : (12 <=? DrawEvaluator.max_value (value c) (map value hole))%Z = true
                  <-> exists x, In x (c :: hole) /\ (12 <= value x)%Z).
  { rewrite Z.leb_le.
    destruct (max_value_spec (value c) (map value hole)) as (H1 & H2 & H3).
    split.
    - intros H. destruct H3 as [E | Hin].
      + exists c. split; [left; reflexivity|lia].
      + apply in_map_iff in Hin. destruct Hin as (x & Hx & Hin).
        exists x. split; [right; exact Hin|lia].
    - intros (x & [<- | Hin] & Hx); [lia|].
      specialize (H2 (value x) (in_map value _ _ Hin)). lia. }
  split.
  - rewrite is_Some_if_iff, andb_true_iff, Hhigh, Z.ltb_lt. reflexivity.
  - destruct (_ && _); congruence.
Qed.

(** The total is the equity of one entry and bounds the equity of every
    entry. *)
Lemma total_equity_max (draws : gmap string DrawInfo) :
  (draws = ∅ -> DrawEvaluator.calculate_total_equity draws = 0)
  /\ (draws <> ∅ -> exists k d, draws !! k = Some d
                     /\ DrawEvaluator.calculate_total_equity draws = equity d)
  /\ (forall k d, draws !! k = Some d ->
                  equity d <= DrawEvaluator.calculate_total_equity draws).
Proof.
  unfold DrawEvaluator.calculate_total_equity.
  destruct (map_to_list draws) as [|[k0 d0] rest] eqn:E.
  - apply map_to_list_empty_iff in E. subst draws.
    split; [reflexivity|]. split; [intros H; contradiction|].
    intros k d H. rewrite lookup_empty in H. discriminate.
  - unfold DrawEvaluator.max_equity.
    destruct (max_equity_fold rest (equity d0)) as (Hm & Hacc & Hall).
    split; [|split].
    + intros ->. rewrite map_to_list_empty in E. discriminate.
    + intros _. destruct Hm as [Hm | ([k1 d1] & Hin & Hm)].
      * exists k0, d0. split; [|exact Hm].
        apply elem_of_map_to_list. rewrite E. left.
      * exists k1, d1. split; [|exact Hm].
        apply elem_of_map_to_list. rewrite E. right.
        apply list_elem_of_In. exact Hin.
    + intros k d H. apply elem_of_map_to_list in H. rewrite E in H.
      apply list_elem_of_In in H. destruct H as [[= <- <-] | Hin].
      * exact Hacc.
      * apply (Hall (k, d)), Hin.
Qed.

(** X5. With two hole cards and a board that is not empty the total draw
    equity lies between 0 and 0.54; it exceeds 0.30, the bar of the
    semi-bluff raise, exactly when a flush draw or an open-ended straight
    draw was found; and when a combo entry is present the total is the
    equity of that entry. *)
Theorem total_equity_of_two_hole_cards (c1 c2 c0 : Card) (crest : list Card) :
  exists draws : gmap string DrawInfo,
    DrawEvaluator.identify_draws [c1; c2] (c0 :: crest) = Ok draws
    /\ 0 <= DrawEvaluator.calculate_total_equity draws
    /\ DrawEvaluator.calculate_total_equity draws <= 54#100
    /\ (30#100 < DrawEvaluator.calculate_total_equity draws
        <-> is_Some (draws !! "flush_draw") \/ is_Some (draws !! "oesd"))
    /\ (forall d, draws !! "combo_draw" = Some d ->
        DrawEvaluator.calculate_total_equity draws == equity d).
Proof.
  destruct (identify_draws_lookup [c1; c2] c0 crest (value c1) [value c2]
              eq_refl) as (draws & Hr & Hf & Hb & Ho & Hg & Hv & Hc & Hother).
  exists draws. split; [exact Hr|].
  set (n := overcard_count [value c1; value c2] c0 crest) in *.
  assert (Hn : (0 <= n <= 2)%Z).
  { unfold n, overcard_count.
    pose proof (filter_length_le
      (fun v => (DrawEvaluator.max_value (value c0) (map value crest) <? v)%Z)
      [value c1; value c2]) as L. simpl length in L at 2. lia. }
  destruct (total_equity_max draws) as (Hempty & Hatt & Hle).
  set (total := DrawEvaluator.calculate_total_equity draws) in *.
  set (f := flush_draw_found _ _) in *.
  set (b := backdoor_flush_found _ _) in *.
  set (o := _ && DrawEvaluator.has_window 3 _) in *.
  set (g := _ && DrawEvaluator.has_window 4 _) in *.
  set (v := (12 <=? _)%Z && (0 <? n)%Z) in *.
  (* every entry is one of the six, with its equity *)
  assert (Hentry : forall k d, draws !! k = Some d ->
            (k = "flush_draw" /\ f = true /\ equity d == 35#100)
            \/ (k = "backdoor_flush" /\ equity d == 4#100)
            \/ (k = "oesd" /\ o = true /\ equity d == 31#100)
            \/ (k = "gutshot" /\ equity d == 16#100)
            \/ (k = "overcards" /\ 0 < equity d /\ equity d <= 24#100)
            \/ (k = "combo_draw" /\ f = true /\ o = true /\ equity d == 54#100)
            \/ (k = "combo_draw" /\ f = true /\ o = false /\ equity d == 45#100)).
  { intros k d Hk.
    destruct (in_dec string_dec k draw_kinds) as [Hin | Hnot];
      [|rewrite (Hother k Hnot) in Hk; discriminate].
    unfold draw_kinds in Hin. simpl in Hin.
    destruct Hin as [<-|[<-|[<-|[<-|[<-|[<-|[]]]]]]].
    - rewrite Hf in Hk. destruct f; [|discriminate]. injection Hk as <-.
      left. repeat split; reflexivity.
    - rewrite Hb in Hk. destruct b; [|discriminate]. injection Hk as <-.
      right; left. split; reflexivity.
    - rewrite Ho in Hk. destruct o; [|discriminate]. injection Hk as <-.
      do 2 right; left. repeat split; reflexivity.
    - rewrite Hg in Hk. destruct g; [|discriminate]. injection Hk as <-.
      do 3 right; left. split; reflexivity.
    - rewrite Hv in Hk. destruct v eqn:Ev; [|discriminate]. injection Hk as <-.
      do 4 right; left. split; [reflexivity|]. simpl equity.
      unfold v in Ev. apply andb_true_iff in Ev. destruct Ev as (_ & Ev).
      apply Z.ltb_lt in Ev.
      assert (Hq : 0 < inject_Z n /\ inject_Z n <= 2).
      { split; [change 0 with (inject_Z 0); rewrite <- Zlt_Qlt; lia|].
        change 2 with (inject_Z 2). rewrite <- Zle_Qle. lia. }
      split; lra.
    - rewrite Hc in Hk. destruct f, o, g; cbn [andb] in Hk; try discriminate;
        injection Hk as <-.
      + do 5 right; left. repeat split; reflexivity.
      + do 5 right; left. repeat split; reflexivity.
      + do 6 right. repeat split; reflexivity. }
  assert (Hpos : 0 <= total).
  { destruct (decide (draws = ∅)) as [He | Hne].
    - rewrite (Hempty He). apply Qle_refl.
    - destruct (Hatt Hne) as (k & d & Hk & Ht). fold total in Ht. rewrite Ht.
      destruct (Hentry k d Hk)
        as [(_&_&E)|[(_&E)|[(_&_&E)|[(_&E)|[(_&E&_)|[(_&_&_&E)|(_&_&_&E)]]]]]];
        lra. }
  assert (Hup : total <= 54#100).
  { destruct (decide (draws = ∅)) as [He | Hne].
    - rewrite (Hempty He). discriminate.
    - destruct (Hatt Hne) as (k & d & Hk & Ht). fold total in Ht. rewrite Ht.
      destruct (Hentry k d Hk)
        as [(_&_&E)|[(_&E)|[(_&_&E)|[(_&E)|[(_&_&E)|[(_&_&_&E)|(_&_&_&E)]]]]]];
        lra. }
  split; [exact Hpos|]. split; [exact Hup|]. split; [split|].
  - intros Hgt. destruct (decide (draws = ∅)) as [He | Hne].
    + exfalso. rewrite (Hempty He) in Hgt. lra.
    + destruct (Hatt Hne) as (k & d & Hk & Ht). fold total in Ht.
      rewrite Ht in Hgt. rewrite Hf, Ho.
      destruct (Hentry k d Hk)
        as [(_&F&E)|[(_&E)|[(_&O&E)|[(_&E)|[(_&_&E)|[(_&F&_&E)|(_&F&_&E)]]]]]];
        try (exfalso; lra);
        try (left; rewrite F; eexists; reflexivity);
        right; rewrite O; eexists; reflexivity.
  - rewrite Hf, Ho. intros [H | H]; apply is_Some_if_iff in H.
    + assert (L := Hle "flush_draw" (mkDraw 9 (35#100))).
      rewrite Hf, H in L. specialize (L eq_refl). simpl in L. fold total in L. lra.
    + assert (L := Hle "oesd" (mkDraw 8 (31#100))).
      rewrite Ho, H in L. specialize (L eq_refl). simpl in L. fold total in L. lra.
  - intros d Hd. pose proof (Hle _ _ Hd) as Hge. fold total in Hge.
    destruct (Hentry _ _ Hd)
      as [(K&_)|[(K&_)|[(K&_)|[(K&_)|[(K&_)|[(_&_&_&E)|(_&_&O&E)]]]]]];
      try discriminate K.
    + apply Qle_antisym; lra.
    + apply Qle_antisym; [|exact Hge]. rewrite E.
      assert (Hne : draws <> ∅) by (intros ->; rewrite lookup_empty in Hd; discriminate).
      destruct (Hatt Hne) as (k & d' & Hk & Ht). fold total in Ht. rewrite Ht.
      destruct (Hentry k d' Hk)
        as [(_&_&E')|[(_&E')|[(_&O'&E')|[(_&E')|[(_&_&E')|[(_&_&O'&E')|(_&_&_&E')]]]]]];
        try lra; congruence.
Qed.

(** *** Straight draws *)

Lemma insert_sorted_In (v x : Z) (l : list Z) :
  In x (DrawEvaluator.insert_sorted v l) <-> x = v \/ In x l.
Proof.
  induction l as [|y l IH]; simpl; [intuition congruence|].
  destruct (Z.ltb_spec v y); simpl; [intuition congruence|].
  destruct (Z.eqb_spec v y); simpl; [subst; intuition congruence|].
  rewrite IH. intuition congruence.
Qed.

Lemma sorted_set_In (x : Z) (l : list Z) :
  In x (DrawEvaluator.sorted_set l) <-> In x l.
Proof.
  unfold DrawEvaluator.sorted_set.
  induction l as [|y l IH]; simpl; [tauto|].
  rewrite insert_sorted_In, IH. intuition congruence.
Qed.

Lemma insert_sorted_sorted (v : Z) (l : list Z) :
  StronglySorted Z.lt l -> StronglySorted Z.lt (DrawEvaluator.insert_sorted v l).
Proof.
  induction 1 as [|y l Hs IH Hall]; simpl; [repeat constructor|].
  rewrite List.Forall_forall in Hall.
  destruct (Z.ltb_spec v y).
  - constructor; [constructor; [exact Hs|apply List.Forall_forall; exact Hall]|].
    apply List.Forall_forall. intros x [<- | Hx]; [lia|].
    specialize (Hall x Hx). lia.
  - destruct (Z.eqb_spec v y).
    + constructor; [exact Hs|apply List.Forall_forall; exact Hall].
    + constructor; [exact IH|]. apply List.Forall_forall. intros x Hx.
      apply insert_sorted_In in Hx. destruct Hx as [-> | Hx]; [lia|apply Hall, Hx].
Qed.

Lemma sorted_set_sorted (l : list Z) :
  StronglySorted Z.lt (DrawEvaluator.sorted_set l).
Proof.
  unfold DrawEvaluator.sorted_set.
  induction l as [|y l IH]; simpl; [constructor|apply insert_sorted_sorted, IH].
Qed.

Lemma four_distinct_increasing (a b c d : Z) :
  (a < b)%Z -> (b < c)%Z -> (c < d)%Z -> DrawEvaluator.four_distinct a b c d = true.
Proof.
  intros H1 H2 H3. unfold DrawEvaluator.four_distinct, DrawEvaluator.sorted_set.
  simpl.
  destruct (Z.ltb_spec c d); [|lia]. simpl.
  destruct (Z.ltb_spec b c); [|lia]. simpl.
  destruct (Z.ltb_spec a b); [|lia]. reflexivity.
Qed.

Lemma has_window_split (gap : Z) (l : list Z) :
  DrawEvaluator.has_window gap l = true
  <-> exists pre a b c d post,
        l = (pre ++ a :: b :: c :: d :: post)%list
        /\ (d - a)%Z = gap /\ DrawEvaluator.four_distinct a b c d = true.
Proof.
  induction l as [|x tl IH].
  - simpl. split; [discriminate|].
    intros (pre & a & b & c & d & post & H & _). destruct pre; discriminate.
  - assert (Hshort : forall pre a b c d post,
              x :: tl = (pre ++ a :: b :: c :: d :: post)%list ->
              (3 <= length tl)%nat).
    { intros pre a b c d post H. apply (f_equal (@length Z)) in H.
      rewrite length_app in H. simpl in H. lia. }
    destruct tl as [|b0 [|c0 [|d0 rest]]].
    1-3: simpl; split; [discriminate|];
         intros (pre & a & b & c & d & post & H & _);
         apply Hshort in H; simpl in H; lia.
    change (DrawEvaluator.has_window gap (x :: b0 :: c0 :: d0 :: rest))
      with (((d0 - x =? gap)%Z && DrawEvaluator.four_distinct x b0 c0 d0)
            || DrawEvaluator.has_window gap (b0 :: c0 :: d0 :: rest)).
    rewrite orb_true_iff, andb_true_iff, Z.eqb_eq, IH. split.
    + intros [(Hg & Hd) | (pre & a & b & c & d & post & H & Hg & Hd)].
      * exists [], x, b0, c0, d0, rest. auto.
      * exists (x :: pre), a, b, c, d, post. rewrite H. auto.
    + intros (pre & a & b & c & d & post & H & Hg & Hd).
      destruct pre as [|y pre]; simpl in H.
      * injection H as -> -> -> -> ->. left. auto.
      * injection H as -> H. right. exists pre, a, b, c, d, post. auto.
Qed.

Lemma sorted_app (pre rest : list Z) :
  StronglySorted Z.lt (pre ++ rest) ->
  StronglySorted Z.lt rest
  /\ forall x y, In x pre -> In y rest -> (x < y)%Z.
Proof.
  induction pre as [|p pre IH]; simpl; intros H.
  - split; [exact H|]. intros x y [].
  - inversion H as [|? ? Hs Hall]; subst. destruct (IH Hs) as (Hr & Hlt).
    split; [exact Hr|]. rewrite List.Forall_forall in Hall.
    intros x y [<- | Hx] Hy; [apply Hall, in_or_app; right; exact Hy|].
    apply Hlt; assumption.
Qed.

Lemma sorted_cons_lt (a : Z) (rest : list Z) (x : Z) :
  StronglySorted Z.lt (a :: rest) -> In x rest -> (a < x)%Z.
Proof.
  intros H Hx. inversion H as [|? ? _ Hall]; subst.
  rewrite List.Forall_forall in Hall. apply Hall, Hx.
Qed.

(** In a strictly increasing list, the four entries of a window are
    increasing and nothing else of the list lies between them. *)
Lemma sorted_window (pre post : list Z) (a b c d : Z) :
  StronglySorted Z.lt (pre ++ a :: b :: c :: d :: post) ->
  (a < b)%Z /\ (b < c)%Z /\ (c < d)%Z
  /\ forall x, In x (pre ++ a :: b :: c :: d :: post) ->
               (a < x)%Z -> (x < d)%Z -> x = b \/ x = c.
Proof.
  intros H. destruct (sorted_app _ _ H) as (Hr & Hpre).
  pose proof (sorted_cons_lt _ _ b Hr ltac:(simpl; auto)) as Hab.
  inversion Hr as [|? ? Hr1 _]; subst.
  pose proof (sorted_cons_lt _ _ c Hr1 ltac:(simpl; auto)) as Hbc.
  inversion Hr1 as [|? ? Hr2 _]; subst.
  pose proof (sorted_cons_lt _ _ d Hr2 ltac:(simpl; auto)) as Hcd.
  inversion Hr2 as [|? ? Hr3 _]; subst.
  repeat split; try assumption.
  intros x Hx Hax Hxd. apply in_app_or in Hx.
  destruct Hx as [Hx | [<- | [<- | [<- | [<- | Hx]]]]]; auto; try lia.
  - specialize (Hpre x a Hx ltac:(simpl; auto)). lia.
  - pose proof (sorted_cons_lt _ _ x Hr3 Hx). lia.
Qed.

(** In a strictly increasing list, an element is followed by the least
    larger element of the list. *)
Lemma sorted_next (a b : Z) (rest : list Z) :
  StronglySorted Z.lt (a :: rest) -> In b rest ->
  (forall x, In x rest -> (x < b)%Z -> False) ->
  exists rest', rest = b :: rest'.
Proof.
  intros H Hb Hmin. destruct rest as [|y rest']; [destruct Hb|].
  exists rest'. f_equal. destruct Hb as [-> | Hb]; [reflexivity|].
  inversion H as [|? ? Hr _]; subst.
  pose proof (sorted_cons_lt _ _ b Hr Hb) as Hyb.
  exfalso. apply (Hmin y); [left; reflexivity|exact Hyb].
Qed.

Lemma sorted_find_window (l : list Z) (a b c d : Z) :
  StronglySorted Z.lt l ->
  In a l -> In b l -> In c l -> In d l ->
  (a < b)%Z -> (b < c)%Z -> (c < d)%Z ->
  (forall x, In x l -> (a < x)%Z -> (x < d)%Z -> x = b \/ x = c) ->
  exists pre post, l = (pre ++ a :: b :: c :: d :: post)%list.
Proof.
  intros Hs Ha Hb Hc Hd Hab Hbc Hcd Hbetween.
  destruct (in_split _ _ Ha) as (pre & rest & ->).
  destruct (sorted_app _ _ Hs) as (Hr & Hpre).
  assert (Hrest : forall x, In x (pre ++ a :: rest) -> (a < x)%Z -> In x rest).
  { intros x Hx Hax. apply in_app_or in Hx.
    destruct Hx as [Hx | [<- | Hx]]; [|lia|exact Hx].
    specialize (Hpre x a Hx ltac:(simpl; auto)). lia. }
  assert (Hgt : forall x, In x rest -> (a < x)%Z)
    by (intros x Hx; exact (sorted_cons_lt _ _ x Hr Hx)).
  assert (Hin : forall x, In x rest -> In x (pre ++ a :: rest))
    by (intros x Hx; apply in_or_app; right; right; exact Hx).
  destruct (sorted_next a b rest Hr (Hrest b Hb Hab)) as (r1 & ->).
  { intros x Hx Hxb.
    destruct (Hbetween x (Hin x Hx) (Hgt x Hx) ltac:(lia)); lia. }
  inversion Hr as [|? ? Hr1 _]; subst.
  assert (Hc1 : In c r1).
  { destruct (Hrest c Hc ltac:(lia)) as [E | Hc1]; [lia|exact Hc1]. }
  destruct (sorted_next b c r1 Hr1 Hc1) as (r2 & ->).
  { intros x Hx Hxc. pose proof (sorted_cons_lt _ _ x Hr1 Hx).
    destruct (Hbetween x (Hin x (or_intror Hx)) ltac:(lia) ltac:(lia)); lia. }
  inversion Hr1 as [|? ? Hr2 _]; subst.
  assert (Hd2 : In d r2).
  { destruct (Hrest d Hd ltac:(lia)) as [E | [E | Hd2]]; [lia|lia|exact Hd2]. }
  destruct (sorted_next c d r2 Hr2 Hd2) as (r3 & ->).
  { intros x Hx Hxd. pose proof (sorted_cons_lt _ _ x Hr2 Hx).
    destruct (Hbetween x (Hin x (or_intror (or_intror Hx))) ltac:(lia) ltac:(lia));
      lia. }
  exists pre, r3. reflexivity.
Qed.

(** A window of the given span in the sorted distinct ranks. *)
Lemma has_window_ranks (gap : Z) (values : list Z) :
  DrawEvaluator.has_window gap (DrawEvaluator.sorted_set values) = true
  <-> exists a b c,
        In a values /\ In b values /\ In c values /\ In (a + gap)%Z values
        /\ (a < b)%Z /\ (b < c)%Z /\ (c < a + gap)%Z
        /\ forall x, In x values -> (a < x)%Z -> (x < a + gap)%Z -> x = b \/ x = c.
Proof.
  pose proof (sorted_set_sorted values) as Hs.
  rewrite has_window_split. split.
  - intros (pre & a & b & c & d & post & E & Hg & _).
    rewrite E in Hs. destruct (sorted_window _ _ _ _ _ _ Hs) as (H1 & H2 & H3 & H4).
    assert (Hd : d = (a + gap)%Z) by lia. subst d.
    assert (Hin : forall x, In x (pre ++ a :: b :: c :: (a + gap)%Z :: post)
                            <-> In x values)
      by (intros x; rewrite <- E; apply sorted_set_In).
    exists a, b, c.
    repeat split; try assumption;
      try (apply Hin, in_or_app; right; simpl; auto 10).
    intros x Hx. apply H4, Hin, Hx.
  - intros (a & b & c & Ha & Hb & Hc & Hd & H1 & H2 & H3 & H4).
    destruct (sorted_find_window (DrawEvaluator.sorted_set values) a b c (a + gap)%Z Hs)
      as (pre & post & E); try (apply sorted_set_In; assumption); try assumption.
    { intros x Hx. apply H4, sorted_set_In, Hx. }
    exists pre, a, b, c, (a + gap)%Z, post.
    split; [exact E|]. split; [lia|apply four_distinct_increasing; assumption].
Qed.

Lemma has_window_long (gap : Z) (l : list Z) :
  DrawEvaluator.has_window gap l = true -> (4 <=? length l)%nat = true.
Proof.
  intros H. apply has_window_split in H.
  destruct H as (pre & a & b & c & d & post & -> & _).
  apply Nat.leb_le. rewrite length_app. simpl. lia.
Qed.

(** X6. For a hand and a board that are not empty: the open-ended
    straight draw is found exactly when four consecutive ranks
    a, a+1, a+2, a+3 are all present among the cards (also inside a made
    straight, and also when one end is closed by the ace); the gutshot is
    found exactly when for some rank a the ranks a and a+4 are present and
    exactly one rank between them is missing. *)
Theorem straight_draws_found (c : Card) (hole : list Card) (c0 : Card)
    (crest : list Card) :
  let ranks := map value ((c :: hole) ++ c0 :: crest) in
  exists draws : gmap string DrawInfo,
    DrawEvaluator.identify_draws (c :: hole) (c0 :: crest) = Ok draws
    /\ (is_Some (draws !! "oesd")
        <-> exists a : Z, In a ranks /\ In (a + 1)%Z ranks
                          /\ In (a + 2)%Z ranks /\ In (a + 3)%Z ranks)
    /\ (forall d, draws !! "oesd" = Some d -> d = mkDraw 8 (31#100))
    /\ (is_Some (draws !! "gutshot")
        <-> exists a m : Z,
              (a < m)%Z /\ (m < a + 4)%Z /\ ~ In m ranks
              /\ forall x, (a <= x)%Z -> (x <= a + 4)%Z -> x <> m -> In x ranks)
    /\ (forall d, draws !! "gutshot" = Some d -> d = mkDraw 4 (16#100)).
Proof.
  cbv zeta.
  destruct (identify_draws_lookup (c :: hole) c0 crest (value c) (map value hole)
              eq_refl) as (draws & Hr & _ & _ & Ho & Hg & _).
  exists draws. split; [exact Hr|]. rewrite Ho, Hg. unfold ranks_of.
  set (ranks := map value ((c :: hole) ++ c0 :: crest)).
  assert (Hlong : forall gap,
            (4 <=? length (DrawEvaluator.sorted_set ranks))%nat
            && DrawEvaluator.has_window gap (DrawEvaluator.sorted_set ranks) = true
            <-> DrawEvaluator.has_window gap (DrawEvaluator.sorted_set ranks) = true).
  { intros gap. rewrite andb_true_iff. split; [tauto|].
    intros H. split; [exact (has_window_long _ _ H)|exact H]. }
  split; [|split; [destruct (_ && _); congruence|split;
                   [|destruct (_ && DrawEvaluator.has_window 4 _); congruence]]].
  - rewrite is_Some_if_iff, Hlong, has_window_ranks. split.
    + intros (a & b & c' & Ha & Hb & Hc & Hd & H1 & H2 & H3 & _).
      assert (b = a + 1)%Z by lia. assert (c' = a + 2)%Z by lia. subst.
      exists a. auto.
    + intros (a & Ha & Hb & Hc & Hd).
      exists a, (a + 1)%Z, (a + 2)%Z.
      repeat split; try assumption; try lia.
  - rewrite is_Some_if_iff, Hlong, has_window_ranks. split.
    + intros (a & b & c' & Ha & Hb & Hc & Hd & H1 & H2 & H3 & Hbet).
      assert (Hcases : ((b = a + 1 /\ c' = a + 2) \/ (b = a + 1 /\ c' = a + 3)
                        \/ (b = a + 2 /\ c' = a + 3))%Z) by lia.
      destruct Hcases as [(-> & ->) | [(-> & ->) | (-> & ->)]].
      * exists a, (a + 3)%Z. split; [lia|]. split; [lia|]. split.
        -- intros Hm. destruct (Hbet _ Hm); lia.
        -- intros x L U N.
           assert (Hx : (x = a \/ x = a + 1 \/ x = a + 2 \/ x = a + 4)%Z) by lia.
           destruct Hx as [-> | [-> | [-> | ->]]]; assumption.
      * exists a, (a + 2)%Z. split; [lia|]. split; [lia|]. split.
        -- intros Hm. destruct (Hbet _ Hm); lia.
        -- intros x L U N.
           assert (Hx : (x = a \/ x = a + 1 \/ x = a + 3 \/ x = a + 4)%Z) by lia.
           destruct Hx as [-> | [-> | [-> | ->]]]; assumption.
      * exists a, (a + 1)%Z. split; [lia|]. split; [lia|]. split.
        -- intros Hm. destruct (Hbet _ Hm); lia.
        -- intros x L U N.
           assert (Hx : (x = a \/ x = a + 2 \/ x = a + 3 \/ x = a + 4)%Z) by lia.
           destruct Hx as [-> | [-> | [-> | ->]]]; assumption.
    + intros (a & m & L & U & Hm & Hall).
      assert (Hcases : (m = a + 1 \/ m = a + 2 \/ m = a + 3)%Z) by lia.
      assert (Hbet : forall b c' : Z,
                (a < b)%Z -> (b < c')%Z -> (c' < a + 4)%Z -> b <> m -> c' <> m ->
                forall x, In x ranks -> (a < x)%Z -> (x < a + 4)%Z ->
                          x = b \/ x = c').
      { intros b c' B1 B2 B3 Nb Nc x Hx X1 X2.
        destruct (Z.eq_dec x m) as [-> | Nx]; [contradiction|]. lia. }
      destruct Hcases as [-> | [-> | ->]].
      * exists a, (a + 2)%Z, (a + 3)%Z.
        repeat split; try lia; try (apply Hall; lia). apply Hbet; lia.
      * exists a, (a + 1)%Z, (a + 3)%Z.
        repeat split; try lia; try (apply Hall; lia). apply Hbet; lia.
      * exists a, (a + 1)%Z, (a + 2)%Z.
        repeat split; try lia; try (apply Hall; lia). apply Hbet; lia.
Qed.

(** ** More on PotOddsCalculator *)

Lemma py_div_raise (a b : Q) (e : PyExn) :
  py_div a b = Raise e -> e = ZeroDivisionError /\ b == 0.
Proof.
  unfold py_div. destruct (Qeq_bool b 0) eqn:E; [|discriminate].
  intros [= <-]. split; [reflexivity|apply Qeq_bool_eq, E].
Qed.

Lemma py_div_zero (a b : Q) : b == 0 -> py_div a b = Raise ZeroDivisionError.
Proof.
  intros H. unfold py_div. apply Qeq_eq_bool in H. rewrite H. reflexivity.
Qed.

Lemma inject_Z_zero (z : Z) : inject_Z z == 0 <-> z = 0%Z.
Proof. unfold Qeq. simpl. lia. Qed.

Lemma inject_Z_pos (z : Z) : 0 < inject_Z z <-> (0 < z)%Z.
Proof. unfold Qlt. simpl. lia. Qed.

(** X7. The two pot-odds functions fail in one case only: they raise
    ZeroDivisionError exactly when the call cost is positive and the pot
    is its negative (pot + call cost = 0); on every other input they
    return, and the result of [calculate_implied_odds] always has a
    should_call entry. *)
Theorem pot_odds_errors (amount_to_call total_pot : Z) (effective_stack : Q)
    (street : string) (draw_equity : Q) :
  let failing := (0 < amount_to_call)%Z /\ (total_pot + amount_to_call = 0)%Z in
  (failing ->
   PotOddsCalculator.calculate_direct_odds amount_to_call total_pot
   = Raise ZeroDivisionError
   /\ PotOddsCalculator.calculate_implied_odds amount_to_call total_pot
        effective_stack street draw_equity = Raise ZeroDivisionError)
  /\ (~ failing ->
      (exists q, PotOddsCalculator.calculate_direct_odds amount_to_call total_pot
                 = Ok q)
      /\ exists (d : gmap string PyVal) (b : bool),
           PotOddsCalculator.calculate_implied_odds amount_to_call total_pot
             effective_stack street draw_equity = Ok d
           /\ d !! "should_call" = Some (VBool b)).
Proof.
  cbv zeta. unfold PotOddsCalculator.calculate_direct_odds,
    PotOddsCalculator.calculate_implied_odds.
  destruct (Z.leb_spec amount_to_call 0) as [Hle | Hpos].
  - split; [intros (H & _); lia|]. intros _. split; [eexists; reflexivity|].
    eexists _, true. split; [reflexivity|]. by simplify_map_eq.
  - destruct (Z.eq_dec (total_pot + amount_to_call)%Z 0%Z) as [E | E].
    + rewrite !py_div_zero by (apply inject_Z_zero; exact E).
      split; [intros _; split; reflexivity|]. intros H. exfalso. apply H. auto.
    + rewrite !(py_div_ok _ (inject_Z (total_pot + amount_to_call)))
        by (rewrite inject_Z_zero; exact E).
      split; [intros (_ & H); contradiction|]. intros _.
      split; [eexists; reflexivity|]. cbn [bind].
      set (future := py_min _ _).
      destruct (Qltb (inject_Z amount_to_call) (inject_Z total_pot + future)) eqn:L.
      * apply Qltb_true in L. rewrite py_div_ok.
        2:{ intros E0. rewrite E0 in L.
            apply inject_Z_pos in Hpos. lra. }
        cbn [bind]. eexists _, _. split; [reflexivity|]. by simplify_map_eq.
      * cbn [bind]. eexists _, _. split; [reflexivity|]. by simplify_map_eq.
Qed.

(** The failing instance: a call of 20 against a pot of -20. *)
Lemma pot_odds_errors_witness :
  ((0 < 20)%Z /\ (-20 + 20 = 0)%Z)
  /\ PotOddsCalculator.calculate_direct_odds 20 (-20) = Raise ZeroDivisionError
  /\ PotOddsCalculator.calculate_implied_odds 20 (-20) 500 "flop" (35#100)
     = Raise ZeroDivisionError.
Proof.
  assert (H : (0 < 20)%Z /\ (-20 + 20 = 0)%Z) by (split; reflexivity).
  split; [exact H|].
  exact (proj1 (pot_odds_errors 20 (-20) 500 "flop" (35#100)) H).
Defined.


Lemma py_min_le_l (a b : Q) : py_min a b <= a.
Proof.
  unfold py_min. destruct (Qltb b a) eqn:E; [|apply Qle_refl].
  apply Qltb_true in E. apply Qlt_le_weak, E.
Qed.





(** ** More on SPRStrategy *)

Lemma xgtb_mono (x y : xfloat) (c : Q) :
  xfloat_le x y -> xgtb x c = true -> xgtb y c = true.
Proof.
  destruct x as [a|], y as [b|]; simpl; try tauto; try reflexivity.
  intros H Ha. apply Qltb_true in Ha. apply Qltb_true. lra.
Qed.

(** X9. The guidance is monotone in the stack-to-pot ratio: for
    spr1 <= spr2 the commit threshold and the hand requirement at spr1 are
    at most those at spr2 (both entries are always present), and when the
    push-or-fold flag is set at spr2 it is set at spr1. *)
Theorem spr_guidance_monotone (spr1 spr2 : xfloat)
    (hand_strength1 draw_equity1 hand_strength2 draw_equity2 : Q) :
  xfloat_le spr1 spr2 ->
  let g1 := SPRStrategy.get_strategy_by_spr spr1 hand_strength1 draw_equity1 in
  let g2 := SPRStrategy.get_strategy_by_spr spr2 hand_strength2 draw_equity2 in
  exists c1 c2 h1 h2 : Q,
    g1 !! "commit_threshold" = Some (VFloat c1)
    /\ g2 !! "commit_threshold" = Some (VFloat c2)
    /\ g1 !! "hand_requirement" = Some (VFloat h1)
    /\ g2 !! "hand_requirement" = Some (VFloat h2)
    /\ c1 <= c2 /\ h1 <= h2
    /\ (truthy (default (VBool false) (g2 !! "push_fold")) = true ->
        truthy (default (VBool false) (g1 !! "push_fold")) = true).
Proof.
  intros Hle. cbv zeta. unfold SPRStrategy.get_strategy_by_spr.
  pose proof (xgtb_mono spr1 spr2 15 Hle) as M15.
  pose proof (xgtb_mono spr1 spr2 7 Hle) as M7.
  pose proof (xgtb_mono spr1 spr2 3 Hle) as M3.
  destruct (xgtb spr1 15); [rewrite ?(M15 eq_refl)|]; clear M15;
    (destruct (xgtb spr1 7); [rewrite ?(M7 eq_refl)|]; clear M7);
    (destruct (xgtb spr1 3); [rewrite ?(M3 eq_refl)|]; clear M3);
    destruct (xgtb spr2 15), (xgtb spr2 7), (xgtb spr2 3);
    (do 4 eexists;
     split; [reflexivity|]; split; [reflexivity|]; split; [reflexivity|];
     split; [reflexivity|]; split; [discriminate|]; split; [discriminate|];
     intros H; first [exact H | reflexivity | (vm_compute in H; discriminate H)]).
Qed.

(** The instance of spr 2 against spr 10. *)
Lemma spr_guidance_monotone_witness :
  xfloat_le (Finite 2) (Finite 10)
  /\ exists c1 c2 : Q,
       SPRStrategy.get_strategy_by_spr (Finite 2) (5#10) 0 !! "commit_threshold"
       = Some (VFloat c1)
       /\ SPRStrategy.get_strategy_by_spr (Finite 10) (5#10) 0 !! "commit_threshold"
          = Some (VFloat c2)
       /\ c1 <= c2.
Proof.
  assert (H : xfloat_le (Finite 2) (Finite 10)) by (simpl; discriminate).
  split; [exact H|].
  destruct (spr_guidance_monotone (Finite 2) (Finite 10) (5#10) 0 (5#10) 0 H)
    as (c1 & c2 & h1 & h2 & H1 & H2 & _ & _ & Hc & _).
  exists c1, c2. auto.
Defined.

(** ** More on the opponent model *)

Lemma dict_set_set {V : Type} (k : string) (v v' : V) (l : list (string * V)) :
  dict_set k v' (dict_set k v l) = dict_set k v' l.
Proof.
  induction l as [|[k0 v0] l IH]; simpl.
  - rewrite String.eqb_refl. reflexivity.
  - destruct (String.eqb k k0) eqn:E; simpl.
    + rewrite String.eqb_refl. reflexivity.
    + rewrite E, IH. reflexivity.
Qed.

Lemma dict_get_set_ne {V : Type} (k k' : string) (v : V) (l : list (string * V)) :
  k' <> k -> dict_get k' (dict_set k v l) = dict_get k' l.
Proof.
  intros Hne. induction l as [|[k0 v0] l IH]; simpl.
  - destruct (String.eqb_spec k' k); [contradiction|reflexivity].
  - destruct (String.eqb_spec k k0) as [-> | Hk]; simpl.
    + destruct (String.eqb_spec k' k0); [contradiction|reflexivity].
    + rewrite IH. reflexivity.
Qed.

Lemma dict_set_keys {V : Type} (k : string) (v d : V) (l : list (string * V)) :
  dict_get k l = Some d -> map fst (dict_set k v l) = map fst l.
Proof.
  induction l as [|[k0 v0] l IH]; simpl; [discriminate|].
  destruct (String.eqb_spec k k0) as [-> | Hk]; simpl; [reflexivity|].
  intros H. rewrite (IH H). reflexivity.
Qed.

Lemma dict_get_In {V : Type} (k : string) (d : V) (l : list (string * V)) :
  dict_get k l = Some d -> In (k, d) l.
Proof.
  induction l as [|[k0 v0] l IH]; simpl; [discriminate|].
  destruct (String.eqb_spec k k0) as [-> | Hk].
  - intros [= ->]. left. reflexivity.
  - intros H. right. exact (IH H).
Qed.

Lemma dict_get_None_keys {V : Type} (k : string) (l : list (string * V)) :
  dict_get k l = None <-> ~ In k (map fst l).
Proof.
  induction l as [|[k0 v0] l IH]; simpl; [tauto|].
  destruct (String.eqb_spec k k0) as [-> | Hk].
  - split; [discriminate|]. intros H. exfalso. apply H. left. reflexivity.
  - rewrite IH. split; [intros H [E | Hin]; [congruence|contradiction]|].
    intros H Hin. apply H. right. exact Hin.
Qed.

Lemma dict_mem_keys {V W : Type} (k : string) (l : list (string * V))
    (l' : list (string * W)) :
  map fst l = map fst l' -> dict_mem k l = dict_mem k l'.
Proof.
  intros E. unfold dict_mem.
  destruct (dict_get k l) eqn:G, (dict_get k l') eqn:G'; try reflexivity; exfalso.
  - apply dict_get_None_keys in G'. apply G'. rewrite <- E.
    apply dict_get_In in G. apply (in_map fst) in G. exact G.
  - apply dict_get_None_keys in G. apply G. rewrite E.
    apply dict_get_In in G'. apply (in_map fst) in G'. exact G'.
Qed.

Lemma dict_set_Forall {V : Type} (P : V -> Prop) (k : string) (v : V)
    (l : list (string * V)) :
  Forall (fun kd => P (snd kd)) l -> P v ->
  Forall (fun kd => P (snd kd)) (dict_set k v l).
Proof.
  intros Hl Hv. induction Hl as [|[k0 v0] l H0 Hl IH]; simpl.
  - constructor; [exact Hv|constructor].
  - destruct (String.eqb k k0); constructor; auto.
Qed.

Lemma dict_get_Forall {V : Type} (P : V -> Prop) (k : string) (d : V)
    (l : list (string * V)) :
  Forall (fun kd => P (snd kd)) l -> dict_get k l = Some d -> P d.
Proof.
  intros Hl Hg. apply dict_get_In in Hg. rewrite List.Forall_forall in Hl.
  exact (Hl _ Hg).
Qed.

Lemma update_strategy_hands (s : SharkAI.t) :
  SharkAI.hands_observed (SharkAI._update_strategy s) = SharkAI.hands_observed s
  /\ SharkAI.current_street (SharkAI._update_strategy s) = SharkAI.current_street s
  /\ SharkAI.total_pot (SharkAI._update_strategy s) = SharkAI.total_pot s
  /\ SharkAI.effective_stack (SharkAI._update_strategy s)
     = SharkAI.effective_stack s.
Proof.
  unfold SharkAI._update_strategy.
  destruct (SharkAI.opponent_data s) eqn:E; [auto|].
  destruct (Qltb (6#10) _), (Qltb (4#10) _), (Qltb (5#10) _); simpl; auto.
Qed.

Lemma dict_set_id {V : Type} (k : string) (v : V) (l : list (string * V)) :
  dict_get k l = Some v -> dict_set k v l = l.
Proof.
  induction l as [|[k0 v0] l IH]; simpl; [discriminate|].
  destruct (String.eqb_spec k k0) as [-> | Hk].
  - intros [= ->]. reflexivity.
  - intros H. rewrite (IH H). reflexivity.
Qed.

(** The last step of [update_after_action]: the scores of the acting
    player are recomputed or not, and the strategy with them. *)
Lemma recompute_step (s0 : SharkAI.t) (player_name : string) (data' : Opp.t)
    (now : bool) :
  dict_get player_name (SharkAI.opponent_data s0) = Some data' ->
  exists (s' : SharkAI.t) (d' : Opp.t),
    (if now || SharkAI.adaptation_active s0 then
       let* self := SharkAI._calculate_tendencies s0 player_name in
       if SharkAI.adaptation_active self
       then Ok (SharkAI._update_strategy self) else Ok self
     else Ok s0) = Ok s'
    /\ SharkAI.opponent_data s' = dict_set player_name d' (SharkAI.opponent_data s0)
    /\ (d' = data' \/ d' = SharkAI.tendencies data')
    /\ SharkAI.hands_observed s' = SharkAI.hands_observed s0
    /\ SharkAI.base_config s' = SharkAI.base_config s0
    /\ SharkAI.current_street s' = SharkAI.current_street s0
    /\ SharkAI.total_pot s' = SharkAI.total_pot s0
    /\ SharkAI.effective_stack s' = SharkAI.effective_stack s0.
Proof.
  intros Hget. destruct (now || SharkAI.adaptation_active s0).
  - rewrite (calculate_tendencies_ok s0 player_name data' Hget). cbn [bind].
    set (s1 := SharkAI.set_opponent_data _ s0).
    destruct (SharkAI.adaptation_active s1).
    + destruct (update_strategy_fields s1) as (Ub & Ud & _).
      destruct (update_strategy_hands s1) as (Uh & Us & Up & Ue).
      eexists _, (SharkAI.tendencies data'). split; [reflexivity|].
      rewrite Ub, Ud, Uh, Us, Up, Ue. cbn. auto 10.
    + eexists _, (SharkAI.tendencies data'). split; [reflexivity|].
      cbn. auto 10.
  - exists s0, data'. split; [reflexivity|].
    rewrite (dict_set_id _ _ _ Hget). auto 10.
Qed.

(** One observation of a tracked player: its record is replaced by the
    updated one, with or without recomputed scores; nothing else of the
    registry changes. *)
Lemma update_after_action_data (s : SharkAI.t) (player_name action street : string)
    (is_bluff facing_cbet : bool) (d : Opp.t) :
  dict_get player_name (SharkAI.opponent_data s) = Some d ->
  exists (s' : SharkAI.t) (d' : Opp.t),
    SharkAI.update_after_action s player_name action street is_bluff facing_cbet
    = Ok s'
    /\ SharkAI.opponent_data s'
       = dict_set player_name d' (SharkAI.opponent_data s)
    /\ (d' = SharkAI.record_action d action is_bluff facing_cbet
        \/ d' = SharkAI.tendencies
                  (SharkAI.record_action d action is_bluff facing_cbet))
    /\ SharkAI.hands_observed s' = (SharkAI.hands_observed s + 1)%Z
    /\ SharkAI.base_config s' = SharkAI.base_config s
    /\ SharkAI.current_street s' = SharkAI.current_street s
    /\ SharkAI.total_pot s' = SharkAI.total_pot s
    /\ SharkAI.effective_stack s' = SharkAI.effective_stack s.
Proof.
  intros Hget. unfold SharkAI.update_after_action. rewrite Hget. cbv zeta.
  set (data' := SharkAI.record_action d action is_bluff facing_cbet).
  set (data1 := dict_set player_name data' (SharkAI.opponent_data s)).
  set (s0 := SharkAI.set_hands_observed _ (SharkAI.set_opponent_data data1 s)).
  set (s0' := if negb (SharkAI.adaptation_active s0) then _ else s0).
  assert (Hs0' : SharkAI.opponent_data s0' = data1
                 /\ SharkAI.hands_observed s0' = (SharkAI.hands_observed s + 1)%Z
                 /\ SharkAI.base_config s0' = SharkAI.base_config s
                 /\ SharkAI.current_street s0' = SharkAI.current_street s
                 /\ SharkAI.total_pot s0' = SharkAI.total_pot s
                 /\ SharkAI.effective_stack s0' = SharkAI.effective_stack s).
  { unfold s0'. destruct (negb _); [destruct (_ <=? _)%Z|]; cbn; auto 10. }
  destruct Hs0' as (Ed & Eh & Eb & Es & Ep & Ee).
  assert (Hg : dict_get player_name (SharkAI.opponent_data s0') = Some data')
    by (rewrite Ed; apply dict_get_set_eq).
  destruct (recompute_step s0' player_name data'
              (Opp.hands_observed data' mod 5 =? 0)%Z Hg)
    as (s' & d' & Hr & Hd & Hor & Hh & Hb & Hs & Hp & He).
  exists s', d'. split; [exact Hr|].
  rewrite Hd, Ed. unfold data1. rewrite dict_set_set.
  split; [reflexivity|]. split; [exact Hor|].
  rewrite Hh, Hb, Hs, Hp, He. auto 10.
Qed.

(** *** Consistency of the records *)

Lemma py_min_cases (a b : Q) : py_min a b = a \/ py_min a b = b.
Proof. unfold py_min. destruct (Qltb b a); auto. Qed.

Lemma py_min_unit (x : Q) : 0 <= x -> 0 <= py_min 1 x /\ py_min 1 x <= 1.
Proof.
  intros Hx. split; [|apply py_min_le_l].
  destruct (py_min_cases 1 x) as [-> | ->]; [discriminate|exact Hx].
Qed.

Lemma counters_ok_fresh : counters_ok Opp.fresh.
Proof. unfold counters_ok. cbn. repeat split; lia. Qed.

Lemma scores_ok_fresh : scores_ok Opp.fresh.
Proof. unfold scores_ok. cbn. repeat split; discriminate. Qed.

Lemma record_action_counters (d : Opp.t) (action : string)
    (is_bluff facing_cbet : bool) :
  counters_ok d ->
  counters_ok (SharkAI.record_action d action is_bluff facing_cbet).
Proof.
  unfold counters_ok, SharkAI.record_action. intros H.
  destruct (String.eqb action "fold"), (in_names action ["call"]),
    (in_names action ["raise"; "bet"]), facing_cbet, is_bluff; cbn; lia.
Qed.

Lemma record_action_scores (d : Opp.t) (action : string)
    (is_bluff facing_cbet : bool) :
  let d' := SharkAI.record_action d action is_bluff facing_cbet in
  Opp.fold_tendency d' = Opp.fold_tendency d
  /\ Opp.bluff_tendency d' = Opp.bluff_tendency d
  /\ Opp.calling_tendency d' = Opp.calling_tendency d.
Proof.
  unfold SharkAI.record_action.
  destruct (String.eqb action "fold"), (in_names action ["call"]),
    (in_names action ["raise"; "bet"]), facing_cbet, is_bluff; cbn; auto.
Qed.

Lemma tendencies_counters (d : Opp.t) :
  counters_ok d -> counters_ok (SharkAI.tendencies d).
Proof.
  unfold SharkAI.tendencies. destruct (_ <? 3)%Z; [trivial|].
  unfold counters_ok. cbn. trivial.
Qed.

Lemma tendencies_scores (d : Opp.t) :
  (0 <= Opp.bluffs_detected d)%Z -> scores_ok d -> scores_ok (SharkAI.tendencies d).
Proof.
  intros Hb Hs. unfold SharkAI.tendencies. destruct (_ <? 3)%Z; [exact Hs|].
  destruct Hs as (_ & Hbl & Hcl). unfold scores_ok. cbn.
  split; [apply py_min_unit, py_max_ge_l|]. split.
  - destruct (0 <? Opp.raises d)%Z eqn:Hr; [|exact Hbl].
    apply Z.ltb_lt in Hr. apply py_min_unit.
    apply Qmult_le_0_compat; [|discriminate].
    apply Qle_shift_div_l; [apply inject_Z_pos, Hr|].
    rewrite Qmult_0_l. change 0 with (inject_Z 0). rewrite <- Zle_Qle. exact Hb.
  - destruct (Opp.folds d <? Opp.hands_observed d)%Z; [|exact Hcl].
    apply py_min_unit, py_max_ge_l.
Qed.

(** A record that a session can hold. *)
Lemma record_ok_step (d : Opp.t) (action : string) (is_bluff facing_cbet : bool)
    (d' : Opp.t) :
  counters_ok d /\ scores_ok d ->
  d' = SharkAI.record_action d action is_bluff facing_cbet
  \/ d' = SharkAI.tendencies (SharkAI.record_action d action is_bluff facing_cbet) ->
  counters_ok d' /\ scores_ok d'.
Proof.
  intros [Hc Hs] Hd'.
  pose proof (record_action_counters d action is_bluff facing_cbet Hc) as Hc1.
  assert (Hs1 : scores_ok (SharkAI.record_action d action is_bluff facing_cbet)).
  { destruct (record_action_scores d action is_bluff facing_cbet) as (E1 & E2 & E3).
    unfold scores_ok. rewrite E1, E2, E3. exact Hs. }
  destruct Hd' as [-> | ->]; [split; assumption|].
  split; [apply tendencies_counters, Hc1|].
  apply tendencies_scores; [apply Hc1|exact Hs1].
Qed.

Lemma observe_records (s : SharkAI.t) (o : Observation) :
  Forall (fun kd => counters_ok (snd kd) /\ scores_ok (snd kd))
         (SharkAI.opponent_data s) ->
  exists s', SharkAI.observe s o = Ok s'
    /\ Forall (fun kd => counters_ok (snd kd) /\ scores_ok (snd kd))
              (SharkAI.opponent_data s').
Proof.
  intros Hall. unfold SharkAI.observe.
  destruct (dict_get (obs_player_name o) (SharkAI.opponent_data s)) as [d|] eqn:Hg.
  - destruct (update_after_action_data s (obs_player_name o) (obs_action o)
                (obs_street o) (obs_is_bluff o) (obs_facing_cbet o) d Hg)
      as (s' & d' & Hr & Hd & Hor & _).
    exists s'. split; [exact Hr|]. rewrite Hd.
    apply (dict_set_Forall (fun d => counters_ok d /\ scores_ok d)); [exact Hall|].
    apply (record_ok_step d (obs_action o) (obs_is_bluff o) (obs_facing_cbet o) d');
      [|exact Hor].
    exact (dict_get_Forall (fun d => counters_ok d /\ scores_ok d) _ _ _ Hall Hg).
  - exists s. unfold SharkAI.update_after_action. rewrite Hg. auto.
Qed.

Lemma observe_all_records (obs : list Observation) (s : SharkAI.t) :
  Forall (fun kd => counters_ok (snd kd) /\ scores_ok (snd kd))
         (SharkAI.opponent_data s) ->
  exists s', SharkAI.observe_all s obs = Ok s'
    /\ Forall (fun kd => counters_ok (snd kd) /\ scores_ok (snd kd))
              (SharkAI.opponent_data s').
Proof.
  revert s. induction obs as [|o obs IH]; intros s Hall; simpl.
  - exists s. auto.
  - destruct (observe_records s o Hall) as (s1 & -> & H1). cbn [bind].
    exact (IH s1 H1).
Qed.

Lemma initialize_opponents_fresh (self : SharkAI.t) (players : list Player) :
  Forall (fun kd => snd kd = Opp.fresh)
         (SharkAI.opponent_data (SharkAI.initialize_opponents self players)).
Proof. apply register_fresh. constructor. Qed.

(** X10. After registration and any sequence of observations every
    record of the registry is consistent: no counter is negative, folds,
    calls and raises sum to at most the hands observed, detected bluffs
    are at most the raises, folds to a continuation bet are at most the
    folds and the continuation-bet opportunities, which are at most the
    hands observed, the three counters that no method writes are 0, and
    the three tendency scores lie in [0, 1].  No observation raises. *)
Theorem observed_records_consistent (self : SharkAI.t) (players : list Player)
    (obs : list Observation) :
  exists s : SharkAI.t,
    SharkAI.observe_all (SharkAI.initialize_opponents self players) obs = Ok s
    /\ Forall (fun kd => counters_ok (snd kd) /\ scores_ok (snd kd))
              (SharkAI.opponent_data s).
Proof.
  apply observe_all_records.
  pose proof (initialize_opponents_fresh self players) as Hf.
  rewrite List.Forall_forall in Hf. apply List.Forall_forall. intros kd Hin.
  rewrite (Hf kd Hin). split; [apply counters_ok_fresh|apply scores_ok_fresh].
Qed.

(** *** The global counter *)

Lemma observe_hands (s : SharkAI.t) (o : Observation) :
  exists s', SharkAI.observe s o = Ok s'
    /\ map fst (SharkAI.opponent_data s') = map fst (SharkAI.opponent_data s)
    /\ SharkAI.hands_observed s'
       = (SharkAI.hands_observed s
          + (if dict_mem (obs_player_name o) (SharkAI.opponent_data s)
             then 1 else 0))%Z
    /\ SharkAI.total_hands (SharkAI.opponent_data s')
       = (SharkAI.total_hands (SharkAI.opponent_data s)
          + (if dict_mem (obs_player_name o) (SharkAI.opponent_data s)
             then 1 else 0))%Z.
Proof.
  unfold SharkAI.observe, dict_mem.
  destruct (dict_get (obs_player_name o) (SharkAI.opponent_data s)) as [d|] eqn:Hg.
  - destruct (update_after_action_data s (obs_player_name o) (obs_action o)
                (obs_street o) (obs_is_bluff o) (obs_facing_cbet o) d Hg)
      as (s' & d' & Hr & Hd & Hor & Hh & _).
    exists s'. split; [exact Hr|]. rewrite Hd.
    split; [exact (dict_set_keys _ _ _ _ Hg)|]. split; [exact Hh|].
    rewrite (total_hands_dict_set _ d d' _ Hg).
    destruct Hor as [-> | ->]; rewrite ?tendencies_hands, record_action_hands; lia.
  - exists s. unfold SharkAI.update_after_action. rewrite Hg.
    repeat split; lia.
Qed.

Lemma tracked_observations_cons (data : list (string * Opp.t)) (o : Observation)
    (obs : list Observation) :
  Z.of_nat (length (tracked_observations data (o :: obs)))
  = ((if dict_mem (obs_player_name o) data then 1 else 0)
     + Z.of_nat (length (tracked_observations data obs)))%Z.
Proof.
  unfold tracked_observations. cbn [List.filter].
  destruct (dict_mem (obs_player_name o) data); cbn [length]; lia.
Qed.

Lemma observe_all_hands (obs : list Observation) (s : SharkAI.t) :
  exists s', SharkAI.observe_all s obs = Ok s'
    /\ map fst (SharkAI.opponent_data s') = map fst (SharkAI.opponent_data s)
    /\ SharkAI.hands_observed s'
       = (SharkAI.hands_observed s
          + Z.of_nat (length (tracked_observations (SharkAI.opponent_data s) obs)))%Z
    /\ SharkAI.total_hands (SharkAI.opponent_data s')
       = (SharkAI.total_hands (SharkAI.opponent_data s)
          + Z.of_nat (length (tracked_observations (SharkAI.opponent_data s) obs)))%Z.
Proof.
  revert s. induction obs as [|o obs IH]; intros s.
  - exists s. simpl. repeat split; lia.
  - destruct (observe_hands s o) as (s1 & Hr1 & Hk1 & Hh1 & Ht1).
    destruct (IH s1) as (s' & Hr & Hk & Hh & Ht).
    exists s'. cbn [SharkAI.observe_all]. rewrite Hr1. cbn [bind].
    split; [exact Hr|]. split; [congruence|].
    assert (E : tracked_observations (SharkAI.opponent_data s1) obs
                = tracked_observations (SharkAI.opponent_data s) obs).
    { unfold tracked_observations. apply filter_ext. intros o'.
      apply dict_mem_keys, Hk1. }
    rewrite E in Hh, Ht. rewrite Hh, Ht, Hh1, Ht1.
    rewrite (tracked_observations_cons (SharkAI.opponent_data s) o obs).
    split; lia.
Qed.

(** X11. After registration and any sequence of observations, the
    object's own counter of observed hands equals the sum of the hands
    observed over the records, and both equal the number of observations
    whose player is registered; observations of other players are not
    counted, and the keys of the registry and their order do not change. *)
Theorem hands_observed_counts_tracked (self : SharkAI.t) (players : list Player)
    (obs : list Observation) :
  let s0 := SharkAI.initialize_opponents self players in
  exists s : SharkAI.t,
    SharkAI.observe_all s0 obs = Ok s
    /\ map fst (SharkAI.opponent_data s) = map fst (SharkAI.opponent_data s0)
    /\ SharkAI.hands_observed s
       = Z.of_nat (length (tracked_observations (SharkAI.opponent_data s0) obs))
    /\ SharkAI.total_hands (SharkAI.opponent_data s) = SharkAI.hands_observed s.
Proof.
  cbv zeta.
  destruct (observe_all_hands obs (SharkAI.initialize_opponents self players))
    as (s & Hr & Hk & Hh & Ht).
  exists s. split; [exact Hr|]. split; [exact Hk|].
  rewrite initialize_opponents_total in Ht. rewrite Hh, Ht.
  cbn [SharkAI.initialize_opponents SharkAI.hands_observed
       SharkAI.set_current_config SharkAI.set_hands_observed]. split; lia.
Qed.

(** *** What one observation changes *)

Lemma record_action_counts (d : Opp.t) (action : string)
    (is_bluff facing_cbet : bool) :
  let d' := SharkAI.record_action d action is_bluff facing_cbet in
  let raised := String.eqb action "raise" || String.eqb action "bet" in
  Opp.hands_observed d' = (Opp.hands_observed d + 1)%Z
  /\ Opp.folds d'
     = (Opp.folds d + (if String.eqb action "fold" then 1 else 0))%Z
  /\ Opp.calls d'
     = (Opp.calls d + (if String.eqb action "call" then 1 else 0))%Z
  /\ Opp.raises d' = (Opp.raises d + (if raised then 1 else 0))%Z
  /\ Opp.bluffs_detected d'
     = (Opp.bluffs_detected d + (if raised && is_bluff then 1 else 0))%Z
  /\ Opp.fold_to_cbet d'
     = (Opp.fold_to_cbet d
        + (if String.eqb action "fold" && facing_cbet then 1 else 0))%Z
  /\ Opp.cbet_opportunities d'
     = (Opp.cbet_opportunities d + (if facing_cbet then 1 else 0))%Z.
Proof.
  unfold SharkAI.record_action, in_names. cbn [existsb].
  destruct (String.eqb_spec action "fold") as [-> | Hf];
    [|destruct (String.eqb_spec action "call") as [-> | Hc];
      [|destruct (String.eqb_spec action "raise") as [-> | Hr];
        [|destruct (String.eqb_spec action "bet") as [-> | Hb]]]];
    destruct is_bluff, facing_cbet; cbn; repeat split; lia.
Qed.

Lemma tendencies_counts (d : Opp.t) :
  let d' := SharkAI.tendencies d in
  Opp.hands_observed d' = Opp.hands_observed d
  /\ Opp.folds d' = Opp.folds d
  /\ Opp.calls d' = Opp.calls d
  /\ Opp.raises d' = Opp.raises d
  /\ Opp.bluffs_detected d' = Opp.bluffs_detected d
  /\ Opp.fold_to_cbet d' = Opp.fold_to_cbet d
  /\ Opp.cbet_opportunities d' = Opp.cbet_opportunities d.
Proof.
  unfold SharkAI.tendencies. destruct (_ <? 3)%Z; cbn; auto 10.
Qed.

(** X12. One observation never raises an exception.  For a player that
    is not registered it changes nothing.  For a registered player the
    keys of the registry and their order, the records of the other
    players, the baseline and the street, pot and stack attributes are
    unchanged, and the counters of the acting player's record grow as
    follows: hands observed by 1 for every action; folds by 1 for fold,
    calls by 1 for call, raises by 1 for raise and for bet (check and
    all_in count as a hand only); detected bluffs by 1 for a raise or bet
    flagged as a bluff; continuation-bet opportunities by 1 when facing a
    continuation bet, and folds to a continuation bet by 1 when that
    action is a fold. *)
Theorem update_after_action_frame (s : SharkAI.t)
    (player_name action street : string) (is_bluff facing_cbet : bool) :
  let raised := String.eqb action "raise" || String.eqb action "bet" in
  exists s' : SharkAI.t,
    SharkAI.update_after_action s player_name action street is_bluff facing_cbet
    = Ok s'
    /\ (dict_get player_name (SharkAI.opponent_data s) = None -> s' = s)
    /\ map fst (SharkAI.opponent_data s') = map fst (SharkAI.opponent_data s)
    /\ (forall other, other <> player_name ->
        dict_get other (SharkAI.opponent_data s')
        = dict_get other (SharkAI.opponent_data s))
    /\ SharkAI.base_config s' = SharkAI.base_config s
    /\ SharkAI.current_street s' = SharkAI.current_street s
    /\ SharkAI.total_pot s' = SharkAI.total_pot s
    /\ SharkAI.effective_stack s' = SharkAI.effective_stack s
    /\ (forall d, dict_get player_name (SharkAI.opponent_data s) = Some d ->
        exists d', dict_get player_name (SharkAI.opponent_data s') = Some d'
          /\ Opp.hands_observed d' = (Opp.hands_observed d + 1)%Z
          /\ Opp.folds d'
             = (Opp.folds d + (if String.eqb action "fold" then 1 else 0))%Z
          /\ Opp.calls d'
             = (Opp.calls d + (if String.eqb action "call" then 1 else 0))%Z
          /\ Opp.raises d' = (Opp.raises d + (if raised then 1 else 0))%Z
          /\ Opp.bluffs_detected d'
             = (Opp.bluffs_detected d
                + (if raised && is_bluff then 1 else 0))%Z
          /\ Opp.fold_to_cbet d'
             = (Opp.fold_to_cbet d
                + (if String.eqb action "fold" && facing_cbet then 1 else 0))%Z
          /\ Opp.cbet_opportunities d'
             = (Opp.cbet_opportunities d + (if facing_cbet then 1 else 0))%Z).
Proof.
  cbv zeta.
  destruct (dict_get player_name (SharkAI.opponent_data s)) as [d|] eqn:Hg.
  - destruct (update_after_action_data s player_name action street is_bluff
                facing_cbet d Hg)
      as (s' & d' & Hr & Hd & Hor & Hh & Hb & Hs & Hp & He).
    exists s'. split; [exact Hr|]. split; [discriminate|].
    rewrite Hd. split; [exact (dict_set_keys _ _ _ _ Hg)|].
    split; [intros other Hne; apply dict_get_set_ne, Hne|].
    do 4 (split; [assumption|]).
    intros d0 [= <-]. exists d'. split; [apply dict_get_set_eq|].
    pose proof (record_action_counts d action is_bluff facing_cbet) as Hc.
    cbv zeta in Hc.
    destruct Hor as [-> | ->]; [exact Hc|].
    pose proof (tendencies_counts
                  (SharkAI.record_action d action is_bluff facing_cbet)) as Ht.
    cbv zeta in Ht.
    destruct Ht as (-> & -> & -> & -> & -> & -> & ->). exact Hc.
  - exists s. unfold SharkAI.update_after_action. rewrite Hg.
    repeat split; try reflexivity. intros d [=].
Qed.

(** *** Registration *)

Lemma dict_set_In_keys {V : Type} (k n : string) (v : V) (l : list (string * V)) :
  In n (map fst (dict_set k v l)) <-> n = k \/ In n (map fst l).
Proof.
  induction l as [|[k0 v0] l IH]; simpl.
  - intuition congruence.
  - destruct (String.eqb_spec k k0) as [-> | Hk]; simpl.
    + intuition congruence.
    + rewrite IH. intuition congruence.
Qed.

Lemma dict_set_NoDup {V : Type} (k : string) (v : V) (l : list (string * V)) :
  List.NoDup (map fst l) -> List.NoDup (map fst (dict_set k v l)).
Proof.
  induction l as [|[k0 v0] l IH]; simpl; intros H.
  - apply List.NoDup_cons; [intros []|apply List.NoDup_nil].
  - destruct (String.eqb_spec k k0) as [-> | Hk]; simpl; [exact H|].
    inversion H as [|? ? Hn Hl]; subst. apply List.NoDup_cons; [|exact (IH Hl)].
    rewrite dict_set_In_keys. intros [E | Hin]; [congruence|contradiction].
Qed.

Lemma register_keys (players : list Player) (l : list (string * Opp.t))
    (n : string) :
  In n (map fst
          (fold_left
             (fun d player =>
                if SharkAI.tracked player
                then dict_set (name player) Opp.fresh d else d)
             players l))
  <-> In n (map fst l)
      \/ exists p, In p players /\ SharkAI.tracked p = true /\ name p = n.
Proof.
  revert l. induction players as [|p players IH]; intros l; simpl.
  - split; [auto|]. intros [H | (p & [] & _)]. exact H.
  - rewrite IH. destruct (SharkAI.tracked p) eqn:Ht.
    + rewrite dict_set_In_keys. split.
      * intros [[-> | H] | (q & Hq & Hqt & Hqn)].
        -- right. exists p. split; [left; reflexivity|]. split; [exact Ht|reflexivity].
        -- left. exact H.
        -- right. exists q. split; [right; exact Hq|]. split; assumption.
      * intros [H | (q & [<- | Hq] & Hqt & Hqn)].
        -- left. right. exact H.
        -- left. left. symmetry. exact Hqn.
        -- right. exists q. split; [exact Hq|]. split; assumption.
    + split.
      * intros [H | (q & Hq & Hqt & Hqn)]; [left; exact H|].
        right. exists q. split; [right; exact Hq|]. split; assumption.
      * intros [H | (q & [<- | Hq] & Hqt & Hqn)]; [left; exact H|congruence|].
        right. exists q. split; [exact Hq|]. split; assumption.
Qed.

Lemma register_NoDup (players : list Player) (l : list (string * Opp.t)) :
  List.NoDup (map fst l) ->
  List.NoDup (map fst
          (fold_left
             (fun d player =>
                if SharkAI.tracked player
                then dict_set (name player) Opp.fresh d else d)
             players l)).
Proof.
  revert l. induction players as [|p players IH]; intros l Hl; simpl; [exact Hl|].
  apply IH. destruct (SharkAI.tracked p); [apply dict_set_NoDup|]; exact Hl.
Qed.

Lemma observe_all_frame (obs : list Observation) (s : SharkAI.t) :
  exists s', SharkAI.observe_all s obs = Ok s'
    /\ SharkAI.base_config s' = SharkAI.base_config s
    /\ SharkAI.current_street s' = SharkAI.current_street s
    /\ SharkAI.total_pot s' = SharkAI.total_pot s
    /\ SharkAI.effective_stack s' = SharkAI.effective_stack s.
Proof.
  revert s. induction obs as [|o obs IH]; intros s; simpl.
  - exists s. auto.
  - unfold SharkAI.observe.
    destruct (dict_get (obs_player_name o) (SharkAI.opponent_data s)) as [d|] eqn:Hg.
    + destruct (update_after_action_data s (obs_player_name o) (obs_action o)
                  (obs_street o) (obs_is_bluff o) (obs_facing_cbet o) d Hg)
        as (s1 & d' & -> & _ & _ & _ & Hb & Hs & Hp & He).
      cbn [bind]. destruct (IH s1) as (s' & Hr & Hb' & Hs' & Hp' & He').
      exists s'. split; [exact Hr|]. repeat split; congruence.
    + unfold SharkAI.update_after_action. rewrite Hg. cbn [bind]. apply IH.
Qed.

(** X13. Registration builds the registry from scratch: its keys are
    exactly the names of the players that are not AI players or whose
    style is not SHARK (a missing style counts as LAG), each name once;
    every record is the fresh record; adaptation is off, the hands
    counter is 0 and the current configuration is the baseline.  What a
    session has learned does not survive it: registering again after any
    sequence of observations gives the same object as registering
    directly. *)
Theorem initialize_opponents_registry (self : SharkAI.t) (players : list Player) :
  let s0 := SharkAI.initialize_opponents self players in
  (forall n, In n (map fst (SharkAI.opponent_data s0))
             <-> exists p, In p players
                           /\ (is_ai p = false
                               \/ default "LAG" (ai_style p) <> "SHARK")
                           /\ name p = n)
  /\ List.NoDup (map fst (SharkAI.opponent_data s0))
  /\ Forall (fun kd => snd kd = Opp.fresh) (SharkAI.opponent_data s0)
  /\ SharkAI.adaptation_active s0 = false
  /\ SharkAI.hands_observed s0 = 0%Z
  /\ SharkAI.current_config s0 = SharkAI.base_config self
  /\ SharkAI.base_config s0 = SharkAI.base_config self
  /\ (forall (obs : list Observation) (players' : list Player),
      exists s, SharkAI.observe_all s0 obs = Ok s
        /\ SharkAI.initialize_opponents s players'
           = SharkAI.initialize_opponents self players').
Proof.
  cbv zeta. split.
  { intros n. unfold SharkAI.initialize_opponents. cbn [SharkAI.opponent_data
      SharkAI.set_current_config SharkAI.set_hands_observed
      SharkAI.set_adaptation_active SharkAI.set_opponent_data].
    rewrite register_keys. simpl.
    split.
    - intros [[] | (p & Hp & Ht & Hn)]. exists p. split; [exact Hp|].
      split; [|exact Hn]. unfold SharkAI.tracked in Ht.
      apply orb_true_iff in Ht. destruct Ht as [Ht | Ht].
      + left. destruct (is_ai p); [discriminate|reflexivity].
      + right. intros E. rewrite E in Ht. discriminate.
    - intros (p & Hp & Ht & Hn). right. exists p. split; [exact Hp|].
      split; [|exact Hn]. unfold SharkAI.tracked. apply orb_true_iff.
      destruct Ht as [-> | Ht]; [left; reflexivity|right].
      destruct (String.eqb_spec (default "LAG" (ai_style p)) "SHARK");
        [contradiction|reflexivity]. }
  split; [apply register_NoDup; apply List.NoDup_nil|].
  split; [apply initialize_opponents_fresh|].
  do 4 (split; [reflexivity|]).
  intros obs players'.
  destruct (observe_all_frame obs (SharkAI.initialize_opponents self players))
    as (s & Hr & Hb & Hs & Hp & He).
  exists s. split; [exact Hr|].
  unfold SharkAI.initialize_opponents.
  unfold SharkAI.set_current_config, SharkAI.set_hands_observed,
    SharkAI.set_adaptation_active, SharkAI.set_opponent_data.
  cbn [SharkAI.base_config SharkAI.opponent_data SharkAI.adaptation_active
       SharkAI.hands_observed SharkAI.current_config SharkAI.current_street
       SharkAI.total_pot SharkAI.effective_stack].
  rewrite Hb, Hs, Hp, He. reflexivity.
Qed.

(** *** Recomputing the strategy *)

(** X14. Recomputing the strategy twice on the same records is the
    same as recomputing it once: the rules write values computed from the
    baseline, never from the current configuration. *)
Theorem update_strategy_idempotent (s : SharkAI.t) :
  SharkAI._update_strategy (SharkAI._update_strategy s)
  = SharkAI._update_strategy s.
Proof.
  destruct s as [base data act h cur st pot es].
  unfold SharkAI._update_strategy.
  cbn [SharkAI.opponent_data SharkAI.base_config SharkAI.current_config].
  destruct data as [|kd data]; [reflexivity|].
  destruct (Qltb (6#10) _) eqn:E1, (Qltb (4#10) _) eqn:E2, (Qltb (5#10) _) eqn:E3;
    cbn; rewrite ?E1, ?E2, ?E3; reflexivity.
Qed.

(** *** Invariants of the records over a session *)

Lemma observe_all_invariant (P : Opp.t -> Prop) (Q : Observation -> Prop) :
  (forall d o, Q o -> P d ->
     P (SharkAI.record_action d (obs_action o) (obs_is_bluff o)
          (obs_facing_cbet o))
     /\ P (SharkAI.tendencies
             (SharkAI.record_action d (obs_action o) (obs_is_bluff o)
                (obs_facing_cbet o)))) ->
  forall (obs : list Observation) (s : SharkAI.t),
    Forall Q obs ->
    Forall (fun kd => P (snd kd)) (SharkAI.opponent_data s) ->
    exists s', SharkAI.observe_all s obs = Ok s'
      /\ Forall (fun kd => P (snd kd)) (SharkAI.opponent_data s').
Proof.
  intros Hstep obs. induction obs as [|o obs IH]; intros s HQ Hall; simpl.
  - exists s. auto.
  - inversion HQ as [|? ? Ho Hobs]; subst. unfold SharkAI.observe.
    destruct (dict_get (obs_player_name o) (SharkAI.opponent_data s)) as [d|] eqn:Hg.
    + destruct (update_after_action_data s (obs_player_name o) (obs_action o)
                  (obs_street o) (obs_is_bluff o) (obs_facing_cbet o) d Hg)
        as (s1 & d' & -> & Hd & Hor & _).
      cbn [bind]. apply (IH s1 Hobs). rewrite Hd.
      apply (dict_set_Forall P); [exact Hall|].
      destruct (Hstep d o Ho (dict_get_Forall P _ _ _ Hall Hg)) as [H1 H2].
      destruct Hor as [-> | ->]; assumption.
    + unfold SharkAI.update_after_action. rewrite Hg. cbn [bind].
      exact (IH s Hobs Hall).
Qed.

Lemma sum_const (f : Opp.t -> Q) (c : Q) (data : list (string * Opp.t)) (acc : Q) :
  Forall (fun kd => f (snd kd) == c) data ->
  fold_left (fun a kd => a + f (snd kd)) data acc
  == acc + c * inject_Z (Z.of_nat (length data)).
Proof.
  intros H. revert acc. induction H as [|kd data Hkd _ IH]; intros acc.
  - simpl. change (inject_Z 0) with 0. ring.
  - cbn [fold_left length]. rewrite IH, Hkd, Nat2Z.inj_succ.
    unfold Z.succ. rewrite inject_Z_plus. change (inject_Z 1) with 1. ring.
Qed.

(** The average of a score that is the same for every record. *)
Lemma average_const (f : Opp.t -> Q) (c : Q) (data : list (string * Opp.t)) :
  data <> [] -> Forall (fun kd => f (snd kd) == c) data ->
  SharkAI.average f data == c.
Proof.
  intros Hne H. unfold SharkAI.average. rewrite (sum_const f c data 0 H).
  assert (Hn : 0 < inject_Z (Z.of_nat (length data))).
  { apply inject_Z_pos. destruct data; [congruence|]. cbn [length]. lia. }
  field. lra.
Qed.

Lemma record_passive (d : Opp.t) (o : Observation) :
  in_names (obs_action o) ["raise"; "bet"] = false ->
  Opp.raises d = 0%Z /\ Opp.bluff_tendency d = 5#10 ->
  let d' := SharkAI.record_action d (obs_action o) (obs_is_bluff o)
              (obs_facing_cbet o) in
  (Opp.raises d' = 0%Z /\ Opp.bluff_tendency d' = 5#10)
  /\ (Opp.raises (SharkAI.tendencies d') = 0%Z
      /\ Opp.bluff_tendency (SharkAI.tendencies d') = 5#10).
Proof.
  intros Ha [Hr Hb]. cbv zeta.
  destruct (record_action_counts d (obs_action o) (obs_is_bluff o)
              (obs_facing_cbet o)) as (_ & _ & _ & Hr' & _).
  destruct (record_action_scores d (obs_action o) (obs_is_bluff o)
              (obs_facing_cbet o)) as (_ & Hb' & _).
  cbv zeta in Hr', Hb'. unfold in_names in Ha. cbn [existsb] in Ha.
  rewrite orb_false_r in Ha. rewrite Ha, Hr, Z.add_0_r in Hr'.
  rewrite Hb in Hb'. split; [split; assumption|].
  unfold SharkAI.tendencies. destruct (_ <? 3)%Z; [split; assumption|].
  cbn. rewrite Hr'. cbn. split; [reflexivity|exact Hb'].
Qed.

(** X15. A session in which no observed action is a raise or a bet:
    every record keeps its initial bluff tendency 0.5, since the score is
    recomputed only for a player with a raise.  With at least one
    registered player the average is 0.5 > 0.4, so the rule for opponents
    who like to bluff triggers, and once adaptation is active the current
    configuration holds that rule's values: the tightened range and the
    call and fold-to-raise frequencies computed from the baseline. *)
Theorem passive_opponents_trigger_bluff_rule (self : SharkAI.t)
    (players : list Player) (obs : list Observation) :
  Forall (fun o => in_names (obs_action o) ["raise"; "bet"] = false) obs ->
  exists s : SharkAI.t,
    SharkAI.observe_all (SharkAI.initialize_opponents self players) obs = Ok s
    /\ Forall (fun kd => Opp.raises (snd kd) = 0%Z
                         /\ Opp.bluff_tendency (snd kd) = 5#10)
              (SharkAI.opponent_data s)
    /\ (SharkAI.opponent_data s <> [] ->
        bluff_rule_triggers (SharkAI.opponent_data s)
        /\ (SharkAI.adaptation_active s = true ->
            vpip_range (SharkAI.current_config s)
            = (Z.max 15 (fst (vpip_range (SharkAI.base_config self)) - 5),
               Z.max 20 (snd (vpip_range (SharkAI.base_config self)) - 5))%Z
            /\ call_preflop (SharkAI.current_config s)
               = py_min (4#10) (call_preflop (SharkAI.base_config self) + (1#10))
            /\ fold_to_raise (SharkAI.current_config s)
               = py_max (3#10)
                   (fold_to_raise (SharkAI.base_config self) - (1#10)))).
Proof.
  intros Hobs.
  destruct (observe_all_invariant
              (fun d => Opp.raises d = 0%Z /\ Opp.bluff_tendency d = 5#10)
              (fun o => in_names (obs_action o) ["raise"; "bet"] = false)
              (fun d o Ho Hd => record_passive d o Ho Hd)
              obs (SharkAI.initialize_opponents self players) Hobs)
    as (s & Hr & Hall).
  { pose proof (initialize_opponents_fresh self players) as Hf.
    rewrite List.Forall_forall in Hf. apply List.Forall_forall. intros kd Hin.
    rewrite (Hf kd Hin). split; reflexivity. }
  exists s. split; [exact Hr|]. split; [exact Hall|]. intros Hne.
  assert (Ht : bluff_rule_triggers (SharkAI.opponent_data s)).
  { unfold bluff_rule_triggers.
    rewrite (average_const Opp.bluff_tendency (5#10) _ Hne); [reflexivity|].
    rewrite List.Forall_forall in Hall. apply List.Forall_forall. intros kd Hin.
    destruct (Hall kd Hin) as [_ ->]. reflexivity. }
  split; [exact Ht|]. intros Hact.
  assert (H0 : config_inv (SharkAI.initialize_opponents self players)).
  { unfold config_inv. simpl. split; [repeat split|].
    split; [reflexivity|discriminate]. }
  destruct (observe_all_config obs _ H0) as (s2 & Hr2 & (_ & _ & Hon) & Hb).
  rewrite Hr in Hr2. injection Hr2 as <-.
  destruct (Hon Hact) as (_ & Hbluff & _). rewrite Hb in Hbluff.
  exact (Hbluff Ht).
Qed.

Lemma passive_opponents_trigger_bluff_rule_witness :
  exists s : SharkAI.t,
    SharkAI.observe_all (SharkAI.initialize_opponents SharkAI.__init__ [villain])
      [fold_obs] = Ok s
    /\ Forall (fun kd => Opp.raises (snd kd) = 0%Z
                         /\ Opp.bluff_tendency (snd kd) = 5#10)
              (SharkAI.opponent_data s)
    /\ (SharkAI.opponent_data s <> [] ->
        bluff_rule_triggers (SharkAI.opponent_data s)
        /\ (SharkAI.adaptation_active s = true ->
            vpip_range (SharkAI.current_config s)
            = (Z.max 15 (fst (vpip_range (SharkAI.base_config SharkAI.__init__)) - 5),
               Z.max 20 (snd (vpip_range (SharkAI.base_config SharkAI.__init__)) - 5))%Z
            /\ call_preflop (SharkAI.current_config s)
               = py_min (4#10)
                   (call_preflop (SharkAI.base_config SharkAI.__init__) + (1#10))
            /\ fold_to_raise (SharkAI.current_config s)
               = py_max (3#10)
                   (fold_to_raise (SharkAI.base_config SharkAI.__init__) - (1#10)))).
Proof.
  apply (passive_opponents_trigger_bluff_rule SharkAI.__init__ [villain] [fold_obs]).
  repeat constructor.
Defined.

(** *** The values of the adapted configuration *)




(** *** The summary *)

(** X17. The summary of the opponents is the observing message exactly
    when adaptation is not active, and the learning message exactly when
    adaptation is active and no record has 5 or more hands observed; in
    every other case it is an analysis line. *)
Theorem get_opponent_summary_messages (s : SharkAI.t) :
  (SharkAI.get_opponent_summary s = "[鲨鱼AI] 观察中..."
   <-> SharkAI.adaptation_active s = false)
  /\ (SharkAI.get_opponent_summary s = "[鲨鱼AI] 学习中..."
      <-> SharkAI.adaptation_active s = true
          /\ Forall (fun kd => (Opp.hands_observed (snd kd) < 5)%Z)
                    (SharkAI.opponent_data s))
  /\ (SharkAI.adaptation_active s = true ->
      Exists (fun kd => (5 <= Opp.hands_observed (snd kd))%Z)
             (SharkAI.opponent_data s) ->
      exists line, SharkAI.get_opponent_summary s = "[鲨鱼AI] 分析: " ++ line).
Proof.
  split; [apply summary_observing|].
  unfold SharkAI.get_opponent_summary.
  destruct (SharkAI.adaptation_active s); cbn [negb].
  2: { split; [split; [discriminate|intros [[=] _]]|discriminate]. }
  set (entry := fun kd : string * Opp.t => let '(name, data) := kd in _).
  assert (Hempty : flat_map entry (SharkAI.opponent_data s) = []
                   <-> Forall (fun kd => (Opp.hands_observed (snd kd) < 5)%Z)
                         (SharkAI.opponent_data s)).
  { induction (SharkAI.opponent_data s) as [|[n d] l IH]; cbn [flat_map].
    - split; [constructor|reflexivity].
    - unfold entry at 1. cbn [snd]. destruct (5 <=? Opp.hands_observed d)%Z eqn:E.
      + split; [discriminate|]. intros H. inversion H as [|? ? Hd _]; subst.
        cbn [snd] in Hd. apply Z.leb_le in E. lia.
      + cbn [app]. rewrite IH. apply Z.leb_gt in E.
        split; [intros H; constructor; [exact E|exact H]|].
        intros H. inversion H; assumption. }
  split; [split|].
  - intros H. split; [reflexivity|]. apply Hempty.
    destruct (flat_map entry _); [reflexivity|]. cbn in H. discriminate.
  - intros [_ H]. apply Hempty in H. rewrite H. reflexivity.
  - intros _ Hex.
    destruct (flat_map entry (SharkAI.opponent_data s)) as [|x l];
      [|eexists; reflexivity].
    exfalso. destruct Hempty as [E _]. specialize (E eq_refl).
    apply List.Exists_exists in Hex.
    destruct Hex as (kd & Hin & Hge). rewrite List.Forall_forall in E.
    specialize (E kd Hin). lia.
Qed.

(** ** More on the decisions *)

(** *** The pre-community decision *)

Lemma available_In (a : Action) (available_actions : list Action) :
  in_names (action_name a) (SharkAI.available_names_of available_actions) = true ->
  In a available_actions.
Proof.
  intros H. apply in_names_In in H. unfold SharkAI.available_names_of in H.
  apply in_map_iff in H. destruct H as (x & Hx & Hin).
  destruct a, x; try discriminate; exact Hin.
Qed.

(** The multiplier of a position, one of the six keys or any other string. *)
Lemma adjusted_threshold_cases (position : string) :
  exists m : Q,
    SharkAI.adjusted_threshold_of position = SharkAI.TIER3_THRESHOLD * m
    /\ (m = 1 \/ m = 98#100 \/ m = 95#100 \/ m = 93#100).
Proof.
  unfold SharkAI.adjusted_threshold_of.
  destruct (String.eqb_spec position "EP") as [-> | N1];
    [exists 1; split; [reflexivity|auto]|].
  destruct (String.eqb_spec position "MP") as [-> | N2];
    [exists (98#100); split; [reflexivity|auto]|].
  destruct (String.eqb_spec position "CO") as [-> | N3];
    [exists (95#100); split; [reflexivity|auto]|].
  destruct (String.eqb_spec position "BTN") as [-> | N4];
    [exists (93#100); split; [reflexivity|auto 10]|].
  destruct (String.eqb_spec position "SB") as [-> | N5];
    [exists (98#100); split; [reflexivity|auto]|].
  destruct (String.eqb_spec position "BB") as [-> | N6];
    [exists (95#100); split; [reflexivity|auto]|].
  exists 1. split; [|auto]. unfold SharkAI.position_multipliers.
  cbn [list_to_map foldr fst snd].
  rewrite !lookup_insert_ne by congruence. rewrite lookup_empty. reflexivity.
Qed.

Lemma adjusted_threshold_bounds (position : string) :
  558#1000 <= SharkAI.adjusted_threshold_of position
  /\ SharkAI.adjusted_threshold_of position <= 60#100.
Proof.
  destruct (adjusted_threshold_cases position) as (m & -> & [-> | [-> | [-> | ->]]]);
    split; vm_compute; discriminate.
Qed.

(** X18. The pre-community decision returns fold or an action that is
    legal, never all-in, with the amount 0 for fold, check and call, 40
    for a bet, and for a raise 40 or, with a hand strength of at least
    0.80, max(40, call cost + 30). *)
Theorem preflop_decision_outcomes (player : Player)
    (available_actions : list Action) (amount_to_call : Z) (hand_strength : Q)
    (position : string) (spr_guidance : gmap string PyVal) (config : Config) :
  let r := SharkAI._preflop_decision player available_actions amount_to_call
             hand_strength position spr_guidance config in
  (fst r = FOLD \/ In (fst r) available_actions)
  /\ ((snd r = 0%Z /\ (fst r = FOLD \/ fst r = CHECK \/ fst r = CALL))
      \/ (snd r = 40%Z /\ (fst r = BET \/ fst r = RAISE))
      \/ (snd r = Z.max 40 (amount_to_call + 30) /\ fst r = RAISE
          /\ 80#100 <= hand_strength)).
Proof.
  cbv zeta. unfold SharkAI._preflop_decision.
  destruct (in_names "check" (SharkAI.available_names_of available_actions))
    eqn:Hcheck;
  destruct (in_names "call" (SharkAI.available_names_of available_actions))
    eqn:Hcall;
  destruct (in_names "raise" (SharkAI.available_names_of available_actions))
    eqn:Hraise;
  destruct (in_names "bet" (SharkAI.available_names_of available_actions))
    eqn:Hbet;
  try (apply (available_In CHECK) in Hcheck);
  try (apply (available_In CALL) in Hcall);
  try (apply (available_In RAISE) in Hraise);
  try (apply (available_In BET) in Hbet);
  (destruct (Qltb hand_strength _);
   [|destruct (Qle_bool (80#100) hand_strength) eqn:H80;
     [apply Qle_bool_iff in H80
     |destruct (Qle_bool (70#100) hand_strength);
      [destruct (in_names position ["EP"; "MP"])
      |destruct (in_names position ["CO"; "BTN"; "SB"])]]]);
  destruct (amount_to_call <=? 0)%Z, (0 <? amount_to_call)%Z,
    (amount_to_call <=? 20)%Z;
  cbn [andb fst snd]; auto 10.
Qed.

(** X19. The pre-community decision by hand strength.  The adjusted
    threshold lies between 0.558 and 0.60 for every position string.
    Below it the decision is check when the call cost is <= 0 and check
    is legal, and fold otherwise.  With a hand strength of at least 0.80
    the position plays no part: the decision is a raise of
    max(40, call cost + 30) when raise is legal, else a bet of 40 when
    bet is legal, and else fold, also when check or call is legal. *)
Theorem preflop_decision_tiers (player : Player)
    (available_actions : list Action) (amount_to_call : Z) (hand_strength : Q)
    (position : string) (spr_guidance : gmap string PyVal) (config : Config) :
  let names := SharkAI.available_names_of available_actions in
  let r := SharkAI._preflop_decision player available_actions amount_to_call
             hand_strength position spr_guidance config in
  (558#1000 <= SharkAI.adjusted_threshold_of position
   /\ SharkAI.adjusted_threshold_of position <= 60#100)
  /\ (hand_strength < SharkAI.adjusted_threshold_of position ->
      r = if (amount_to_call <=? 0)%Z && in_names "check" names
          then (CHECK, 0%Z) else (FOLD, 0%Z))
  /\ (80#100 <= hand_strength ->
      r = if in_names "raise" names
          then (RAISE, Z.max 40 (amount_to_call + 30))
          else if in_names "bet" names then (BET, 40%Z) else (FOLD, 0%Z)).
Proof.
  cbv zeta. pose proof (adjusted_threshold_bounds position) as [Hlo Hhi].
  split; [split; assumption|]. unfold SharkAI._preflop_decision. split.
  - intros H. apply Qltb_true in H. rewrite H. reflexivity.
  - intros H.
    assert (E : Qltb hand_strength (SharkAI.adjusted_threshold_of position) = false)
      by (apply Qltb_false; lra).
    rewrite E. apply Qle_bool_iff in H. rewrite H. reflexivity.
Qed.

(** *** The post-community decision *)

Lemma calculate_amount_bounds (action_is_str : bool) (action : Action)
    (player : Player) (amount_to_call current_bet : Z)
    (hand_strength draw_equity : Q) (config : Config) (total_pot : Z) :
  let amount :=
    SharkAI._calculate_amount action_is_str action player amount_to_call
      current_bet hand_strength draw_equity config total_pot in
  (action <> ALL_IN -> amount = 0%Z \/ (40 <= amount)%Z)
  /\ (action = BET \/ action = RAISE -> (40 <= amount)%Z)
  /\ (action_is_str = true ->
      action = FOLD \/ action = CHECK \/ action = CALL -> amount = 0%Z).
Proof.
  cbv zeta. unfold SharkAI._calculate_amount.
  destruct action_is_str, action; cbn [andb in_names existsb action_name orb];
    cbn [String.eqb Ascii.eqb Bool.eqb orb andb];
    repeat split; intros;
    repeat match goal with
           | H : _ \/ _ |- _ => destruct H
           end;
    try discriminate; try congruence; try (left; reflexivity);
    try reflexivity;
    try (destruct (current_bet =? 0)%Z; lia).
  all: right; destruct (current_bet =? 0)%Z; lia.
Qed.

(** X20. The outcomes of the post-community decision.  It fails only
    with a missing key, commit_threshold in push-or-fold mode or
    should_call in the draw step.  In push-or-fold mode it returns all-in
    for the whole stack or fold, legal or not.  Otherwise it returns
    fold or a legal action, never all-in; the amount is 0 or at least 40,
    at least 40 for a bet or raise, and 0 for fold, check and call when
    the actions compare equal to their names. *)
Theorem postflop_decision_outcomes (action_is_str : bool) (player : Player)
    (available_actions : list Action) (amount_to_call current_bet : Z)
    (hand_strength draw_equity total_equity direct_odds : Q)
    (implied_calc spr_guidance : gmap string PyVal) (config : Config)
    (draws : gmap string DrawInfo) (total_pot : Z) (rnd : Q) :
  match SharkAI._postflop_decision action_is_str player available_actions
          amount_to_call current_bet hand_strength draw_equity total_equity
          direct_odds implied_calc spr_guidance config draws total_pot rnd with
  | Raise e => e = KeyError "commit_threshold" \/ e = KeyError "should_call"
  | Ok (action, amount) =>
      if truthy (default (VBool false) (spr_guidance !! "push_fold")) then
        (action = ALL_IN /\ amount = chips player)
        \/ (action = FOLD /\ amount = 0%Z)
      else
        (action = FOLD \/ In action available_actions)
        /\ action <> ALL_IN
        /\ (amount = 0%Z \/ (40 <= amount)%Z)
        /\ (action = BET \/ action = RAISE -> (40 <= amount)%Z)
        /\ (action_is_str = true ->
            action = FOLD \/ action = CHECK \/ action = CALL -> amount = 0%Z)
  end.
Proof.
  unfold SharkAI._postflop_decision.
  destruct (truthy (default (VBool false) (spr_guidance !! "push_fold"))).
  { unfold getitem. destruct (spr_guidance !! "commit_threshold"); cbn [bind];
      [|left; reflexivity].
    destruct (Qle_bool _ _); auto. }
  unfold SharkAI.draw_step.
  assert (Hsample :
    match
      match SharkAI.valid_weights (SharkAI.available_names_of available_actions)
              (SharkAI._calculate_postflop_weights hand_strength draw_equity
                 config spr_guidance) with
      | [] => Ok (FOLD, 0%Z)
      | (_ :: _) as valid =>
          Ok (default FOLD (SharkAI.action_map !! SharkAI._weighted_choice valid rnd),
              SharkAI._calculate_amount action_is_str
                (default FOLD
                   (SharkAI.action_map !! SharkAI._weighted_choice valid rnd))
                player amount_to_call current_bet hand_strength draw_equity
                config total_pot)
      end
    with
    | Raise e => e = KeyError "commit_threshold" \/ e = KeyError "should_call"
    | Ok (action, amount) =>
        (action = FOLD \/ In action available_actions)
        /\ action <> ALL_IN
        /\ (amount = 0%Z \/ (40 <= amount)%Z)
        /\ (action = BET \/ action = RAISE -> (40 <= amount)%Z)
        /\ (action_is_str = true ->
            action = FOLD \/ action = CHECK \/ action = CALL -> amount = 0%Z)
    end).
  { pose proof (sampled_action (SharkAI.available_names_of available_actions)
                  _ rnd (weights_shape hand_strength draw_equity config
                           spr_guidance)) as Hs.
    destruct (SharkAI.valid_weights _ _) as [|kv valid] eqn:Hv.
    - repeat split; auto; try discriminate. intros [[=] | [=]].
    - specialize (Hs ltac:(discriminate)). cbv zeta in Hs.
      destruct Hs as (Hin & Hname & Hall).
      set (k := SharkAI._weighted_choice (kv :: valid) rnd) in *.
      set (action := default FOLD (SharkAI.action_map !! k)) in *.
      pose proof (calculate_amount_bounds action_is_str action player
                    amount_to_call current_bet hand_strength draw_equity
                    config total_pot) as Hb.
      cbv zeta in Hb. destruct Hb as (Hb1 & Hb2 & Hb3).
      assert (Hne : action <> ALL_IN).
      { intros E. rewrite E in Hname. apply Hall. symmetry. exact Hname. }
      split; [|split; [exact Hne|split; [exact (Hb1 Hne)|split; assumption]]].
      right. apply (available_In action). rewrite Hname.
      apply in_map_iff in Hin. destruct Hin as (kv' & Hk & Hin).
      rewrite <- Hv in Hin. apply valid_weights_In in Hin.
      rewrite <- Hk. apply Hin. }
  destruct (Qltb (15#100) draw_equity); cbn [bind]; [|exact Hsample].
  unfold getitem. destruct (implied_calc !! "should_call") as [sc|]; cbn [bind];
    [|right; reflexivity].
  destruct (in_names "call" (SharkAI.available_names_of available_actions))
    eqn:Hcall;
    [destruct (truthy sc); cbn [andb bind];
     [apply (available_In CALL) in Hcall; repeat split; auto; try discriminate;
      intros [[=] | [=]]|]
    |rewrite andb_false_r; cbn [bind]].
  all: destruct (Qltb (30#100) draw_equity); cbn [andb]; try exact Hsample.
  all: destruct (in_names "raise" (SharkAI.available_names_of available_actions))
         eqn:Hraise; cbn [andb]; try exact Hsample.
  all: destruct (Qltb hand_strength (5#10)); cbn [bind]; try exact Hsample.
  all: apply (available_In RAISE) in Hraise; repeat split; auto;
         try discriminate; try (right; lia); try (intros; lia);
         try (intros _ [[=] | [[=] | [=]]]).
Qed.

(** *** The main decision method *)

Lemma identify_draws_result (hole_cards community_cards : list Card) :
  (hole_cards = [] /\ community_cards <> []
   /\ DrawEvaluator.identify_draws hole_cards community_cards = Raise IndexError)
  \/ (~ (hole_cards = [] /\ community_cards <> [])
      /\ exists draws,
           DrawEvaluator.identify_draws hole_cards community_cards = Ok draws).
Proof.
  destruct community_cards as [|c0 crest].
  - right. split; [intros [_ H]; congruence|]. exists ∅. reflexivity.
  - destruct hole_cards as [|c hole].
    + left. split; [reflexivity|]. split; [discriminate|reflexivity].
    + right. split; [intros [H _]; discriminate|]. eexists.
      exact (identify_draws_steps (c :: hole) c0 crest (value c) (map value hole)
               eq_refl).
Qed.

Lemma pot_odds_result (amount_to_call total_pot : Z) (effective_stack : Q)
    (street : string) (draw_equity : Q) :
  ((0 < amount_to_call)%Z /\ (total_pot + amount_to_call = 0)%Z
   /\ PotOddsCalculator.calculate_direct_odds amount_to_call total_pot
      = Raise ZeroDivisionError)
  \/ (~ ((0 < amount_to_call)%Z /\ (total_pot + amount_to_call = 0)%Z)
      /\ exists (q : Q) (d : gmap string PyVal) (b : bool),
           PotOddsCalculator.calculate_direct_odds amount_to_call total_pot = Ok q
           /\ PotOddsCalculator.calculate_implied_odds amount_to_call total_pot
                effective_stack street draw_equity = Ok d
           /\ d !! "should_call" = Some (VBool b)).
Proof.
  unfold PotOddsCalculator.calculate_direct_odds,
    PotOddsCalculator.calculate_implied_odds.
  destruct (Z.leb_spec amount_to_call 0) as [Hle | Hpos].
  - right. split; [intros (H & _); lia|].
    eexists _, _, true. split; [reflexivity|]. split; [reflexivity|].
    by simplify_map_eq.
  - destruct (Z.eq_dec (total_pot + amount_to_call)%Z 0%Z) as [E | E].
    + left. rewrite !py_div_zero by (apply inject_Z_zero; exact E). auto.
    + right. split; [intros (_ & H); contradiction|].
      rewrite !(py_div_ok _ (inject_Z (total_pot + amount_to_call)))
        by (rewrite inject_Z_zero; exact E).
      cbn [bind]. set (future := py_min _ _).
      destruct (Qltb (inject_Z amount_to_call) (inject_Z total_pot + future)) eqn:L.
      * apply Qltb_true in L. rewrite py_div_ok.
        2:{ intros E0. rewrite E0 in L. apply inject_Z_pos in Hpos. lra. }
        cbn [bind]. eexists _, _, _. split; [reflexivity|].
        split; [reflexivity|]. by simplify_map_eq.
      * cbn [bind]. eexists _, _, _. split; [reflexivity|].
        split; [reflexivity|]. by simplify_map_eq.
Qed.

Lemma spr_guidance_commit (spr : xfloat) (hand_strength draw_equity : Q) :
  exists q : Q,
    SPRStrategy.get_strategy_by_spr spr hand_strength draw_equity
      !! "commit_threshold" = Some (VFloat q).
Proof.
  unfold SPRStrategy.get_strategy_by_spr.
  destruct (xgtb spr 15); [|destruct (xgtb spr 7); [|destruct (xgtb spr 3)]];
    eexists; reflexivity.
Qed.

(** X21. The errors of the main decision method.  It raises IndexError
    exactly when the player holds no hole card while there are community
    cards, and ZeroDivisionError exactly when that is not the case and
    the call cost is positive with pot + call cost = 0.  On every other
    request it returns an action and an amount; no key is ever missing
    from the guidance and odds dictionaries it builds. *)
Theorem get_action_errors (action_is_str : bool) (self : SharkAI.t)
    (req : DecisionRequest) (rnd : Q) :
  let no_hole_cards :=
    default [] (hand (req_player req)) = [] /\ req_community_cards req <> [] in
  let no_pot :=
    (0 < req_amount_to_call req)%Z
    /\ (req_total_pot req + req_amount_to_call req = 0)%Z in
  let r := snd (SharkAI.get_action action_is_str self req rnd) in
  (r = Raise IndexError <-> no_hole_cards)
  /\ (r = Raise ZeroDivisionError <-> ~ no_hole_cards /\ no_pot)
  /\ ((exists action amount, r = Ok (action, amount))
      <-> ~ no_hole_cards /\ ~ no_pot).
Proof.
  cbv zeta. unfold SharkAI.get_action. cbv zeta.
  destruct (identify_draws_result (default [] (hand (req_player req)))
              (req_community_cards req))
    as [(Hh & Hc & ->) | (Hn & draws & ->)]; cbn [snd].
  { split; [tauto|]. split; [split; [discriminate|tauto]|].
    split; [intros (a & m & [=])|tauto]. }
  cbn [SharkAI.effective_stack SharkAI.current_street SharkAI.current_config
       SharkAI.set_effective_stack SharkAI.set_current_street].
  destruct (pot_odds_result (req_amount_to_call req) (req_total_pot req)
              (SharkAI.effective_stack_of (req_player req) (req_players req))
              (SharkAI.street_of (req_state req))
              (DrawEvaluator.calculate_total_equity draws))
    as [(Hp & Hz & ->) | (Hnp & q & d & b & -> & -> & Hsc)]; cbn [bind].
  { split; [split; [discriminate|tauto]|]. split; [tauto|].
    split; [intros (a & m & [=])|tauto]. }
  assert (Hok : exists action amount,
    (if SharkAI.is_preflop (req_state req) then
       Ok (SharkAI._preflop_decision (req_player req) (req_available_actions req)
             (req_amount_to_call req) (req_hand_strength req)
             (PositionAwareness.get_position (req_player req))
             (SPRStrategy.get_strategy_by_spr
                (SPRStrategy.calculate_spr
                   (SharkAI.effective_stack_of (req_player req) (req_players req))
                   (req_total_pot req))
                (req_hand_strength req)
                (DrawEvaluator.calculate_total_equity draws))
             (SharkAI.current_config self))
     else
       SharkAI._postflop_decision action_is_str (req_player req)
         (req_available_actions req) (req_amount_to_call req)
         (req_current_bet req) (req_hand_strength req)
         (DrawEvaluator.calculate_total_equity draws)
         (req_win_probability req
          + DrawEvaluator.calculate_total_equity draws * (5#10)) q d
         (SPRStrategy.get_strategy_by_spr
            (SPRStrategy.calculate_spr
               (SharkAI.effective_stack_of (req_player req) (req_players req))
               (req_total_pot req))
            (req_hand_strength req)
            (DrawEvaluator.calculate_total_equity draws))
         (SharkAI.current_config self) draws (req_total_pot req) rnd)
    = Ok (action, amount)).
  { destruct (SharkAI.is_preflop (req_state req)).
    - destruct (SharkAI._preflop_decision _ _ _ _ _ _ _) as [a m].
      exists a, m. reflexivity.
    - set (g := SPRStrategy.get_strategy_by_spr _ _ _).
      destruct (spr_guidance_commit
                  (SPRStrategy.calculate_spr
                     (SharkAI.effective_stack_of (req_player req) (req_players req))
                     (req_total_pot req))
                  (req_hand_strength req)
                  (DrawEvaluator.calculate_total_equity draws)) as (ct & Hct).
      fold g in Hct.
      unfold SharkAI._postflop_decision, SharkAI.draw_step, getitem.
      rewrite Hct, Hsc. cbn [bind].
      destruct (truthy _); [destruct (Qle_bool _ _); eexists _, _; reflexivity|].
      destruct (Qltb (15#100) _); cbn [bind];
        [destruct (_ && _); cbn [bind]; [eexists _, _; reflexivity|];
         destruct (_ && _); cbn [bind]; [eexists _, _; reflexivity|]|];
        destruct (SharkAI.valid_weights _ _); eexists _, _; reflexivity. }
  destruct Hok as (a & m & Hok). rewrite Hok.
  split; [split; [discriminate|tauto]|].
  split; [split; [discriminate|tauto]|].
  split; [tauto|]. intros _. exists a, m. reflexivity.
Qed.

(** *** The configuration in the decision *)

Lemma postflop_decision_config (action_is_str : bool) (player : Player)
    (available_actions : list Action) (amount_to_call current_bet : Z)
    (hand_strength draw_equity total_equity direct_odds : Q)
    (implied_calc spr_guidance : gmap string PyVal) (config1 config2 : Config)
    (draws : gmap string DrawInfo) (total_pot : Z) (rnd : Q) :
  bluff_freq config1 = bluff_freq config2 ->
  SharkAI._postflop_decision action_is_str player available_actions
    amount_to_call current_bet hand_strength draw_equity total_equity
    direct_odds implied_calc spr_guidance config1 draws total_pot rnd
  = SharkAI._postflop_decision action_is_str player available_actions
      amount_to_call current_bet hand_strength draw_equity total_equity
      direct_odds implied_calc spr_guidance config2 draws total_pot rnd.
Proof.
  intros H. unfold SharkAI._postflop_decision,
    SharkAI._calculate_postflop_weights, SharkAI._calculate_amount.
  rewrite H. reflexivity.
Qed.

(** X22. What the decision reads of the object.  The outcome of the
    main decision method depends on the object only through the bluff
    frequency of its current configuration, and not at all for a
    pre-community request: the opponent records, the counters, the
    activation flag and every other field of the configuration play no
    part in it. *)
Theorem get_action_reads_bluff_freq (action_is_str : bool) (s1 s2 : SharkAI.t)
    (req : DecisionRequest) (rnd : Q) :
  bluff_freq (SharkAI.current_config s1) = bluff_freq (SharkAI.current_config s2)
  \/ req_state req = PRE_FLOP ->
  snd (SharkAI.get_action action_is_str s1 req rnd)
  = snd (SharkAI.get_action action_is_str s2 req rnd).
Proof.
  intros H. unfold SharkAI.get_action. cbv zeta.
  destruct (DrawEvaluator.identify_draws _ _) as [draws|e]; [|reflexivity].
  cbn [snd SharkAI.effective_stack SharkAI.current_street SharkAI.current_config
       SharkAI.set_effective_stack SharkAI.set_current_street].
  destruct (PotOddsCalculator.calculate_direct_odds _ _); [|reflexivity].
  cbn [bind].
  destruct (PotOddsCalculator.calculate_implied_odds _ _ _ _ _); [|reflexivity].
  cbn [bind].
  destruct (SharkAI.is_preflop (req_state req)) eqn:Hpre; [reflexivity|].
  destruct H as [H | H]; [|rewrite H in Hpre; discriminate].
  apply postflop_decision_config, H.
Qed.

Lemma get_action_reads_bluff_freq_witness :
  snd (SharkAI.get_action true SharkAI.__init__ short_stack_free_check 0)
  = snd (SharkAI.get_action true
           (SharkAI.initialize_opponents SharkAI.__init__ [villain])
           short_stack_free_check 0).
Proof.
  apply (get_action_reads_bluff_freq true SharkAI.__init__
           (SharkAI.initialize_opponents SharkAI.__init__ [villain])
           short_stack_free_check 0).
  left. reflexivity.
Defined.

(** *** The weighted choice *)

Lemma sum_weights_shift (ws : list (string * Q)) (acc : Q) :
  fold_left (fun a kv => a + snd kv) ws acc
  == acc + fold_left (fun a kv => a + snd kv) ws 0.
Proof.
  revert acc. induction ws as [|kv ws IH]; intros acc; simpl; [ring|].
  rewrite IH, (IH (0 + snd kv)). ring.
Qed.

Lemma sum_weights_nonneg (ws : list (string * Q)) :
  Forall (fun kv => 0 <= snd kv) ws ->
  0 <= fold_left (fun a kv => a + snd kv) ws 0.
Proof.
  induction 1 as [|kv ws Hkv _ IH]; simpl; [discriminate|].
  rewrite sum_weights_shift. lra.
Qed.

Lemma choose_interval (pre post : list (string * Q)) (a : string) (w r : Q) :
  Forall (fun kv => 0 <= snd kv) pre ->
  forall c : Q,
    (pre <> [] -> c + fold_left (fun a kv => a + snd kv) pre 0 < r) ->
    r <= c + fold_left (fun a kv => a + snd kv) pre 0 + w ->
    SharkAI.choose r c (pre ++ (a, w) :: post) = Some a.
Proof.
  induction 1 as [|[k v] pre Hkv Hpre IH]; intros c Hlo Hhi.
  - cbn [app SharkAI.choose fold_left] in *.
    assert (E : Qle_bool r (c + w) = true) by (apply Qle_bool_iff; lra).
    rewrite E. reflexivity.
  - cbn [app SharkAI.choose]. cbn [fold_left snd] in Hlo, Hhi.
    rewrite sum_weights_shift in Hhi.
    specialize (Hlo ltac:(discriminate)). rewrite sum_weights_shift in Hlo.
    pose proof (sum_weights_nonneg pre Hpre) as Hnn. cbn [snd] in Hkv.
    assert (E : Qle_bool r (c + v) = false).
    { destruct (Qle_bool r (c + v)) eqn:E; [|reflexivity].
      apply Qle_bool_iff in E. lra. }
    rewrite E. apply IH; [intros _|]; lra.
Qed.

(** X23. How the weighted choice reads its random number.  For weights
    with a non-zero total, an entry is chosen when the random number
    times the total lies above the sum of the weights before the entry
    (none of them negative) and at most that sum plus the entry's own
    weight; for the first entry the lower bound is not needed, so a
    random number of 0 chooses the first entry whatever its weight. *)
Theorem weighted_choice_interval (pre post : list (string * Q)) (a : string)
    (w rnd : Q) :
  let weights := (pre ++ (a, w) :: post)%list in
  let total := fold_left (fun acc kv => acc + snd kv) weights 0 in
  let before := fold_left (fun acc kv => acc + snd kv) pre 0 in
  Forall (fun kv => 0 <= snd kv) pre ->
  ~ total == 0 ->
  (pre <> [] -> before < rnd * total) ->
  rnd * total <= before + w ->
  SharkAI._weighted_choice weights rnd = a.
Proof.
  cbv zeta. intros Hpre Htotal Hlo Hhi. unfold SharkAI._weighted_choice.
  destruct (Qeq_bool _ 0) eqn:E; [apply Qeq_bool_eq in E; contradiction|].
  rewrite (choose_interval pre post a w _ Hpre 0); [reflexivity| |].
  - intros Hne. specialize (Hlo Hne). lra.
  - lra.
Qed.

Lemma weighted_choice_interval_witness :
  SharkAI._weighted_choice [("check", 3#10); ("call", 7#10)] (1#2) = "call".
Proof.
  apply (weighted_choice_interval [("check", 3#10)] [] "call" (7#10) (1#2)).
  - repeat constructor. simpl. discriminate.
  - vm_compute. discriminate.
  - intros _. vm_compute. reflexivity.
  - vm_compute. discriminate.
Defined.

(** ** The scores in terms of the counters *)

Lemma py_min_gt (c a b : Q) : c < py_min a b <-> c < a /\ c < b.
Proof.
  unfold py_min. destruct (Qltb b a) eqn:E;
    [apply Qltb_true in E|apply Qltb_false in E]; split; intros; lra.
Qed.

Lemma py_max_gt (c a b : Q) : c < py_max a b <-> c < a \/ c < b.
Proof.
  unfold py_max. destruct (Qltb a b) eqn:E;
    [apply Qltb_true in E|apply Qltb_false in E]; split; intros; lra.
Qed.

Lemma Qlt_div_iff (c x y : Q) : 0 < y -> (c < x / y <-> c * y < x).
Proof.
  intros Hy. assert (E : x / y * y == x) by (field; lra).
  rewrite <- (Qmult_lt_r c (x / y) y Hy), E. reflexivity.
Qed.

(** X24. The scores that [_calculate_tendencies] stores, read as
    thresholds on the counters.  With fewer than 3 hands observed the
    record is left as it is.  From 3 hands on: the fold tendency exceeds
    0.6 exactly when the folds are more than 30% of the hands; with at
    least one raise the bluff tendency exceeds 0.4 exactly when the
    detected bluffs are more than 2/15 of the raises, and without a
    raise it is left as it is; with a hand that was not folded the
    calling tendency exceeds 0.5 exactly when the calls are more than
    half of the hands not folded, and otherwise it is left as it is. *)
Theorem tendencies_thresholds (d : Opp.t) :
  let t := SharkAI.tendencies d in
  let hands := Opp.hands_observed d in
  ((hands < 3)%Z -> t = d)
  /\ ((3 <= hands)%Z ->
      (6#10 < Opp.fold_tendency t <-> (3 * hands < 10 * Opp.folds d)%Z)
      /\ ((0 < Opp.raises d)%Z ->
          (4#10 < Opp.bluff_tendency t
           <-> (2 * Opp.raises d < 15 * Opp.bluffs_detected d)%Z))
      /\ ((Opp.raises d <= 0)%Z -> Opp.bluff_tendency t = Opp.bluff_tendency d)
      /\ ((Opp.folds d < hands)%Z ->
          (5#10 < Opp.calling_tendency t
           <-> (hands - Opp.folds d < 2 * Opp.calls d)%Z))
      /\ ((hands <= Opp.folds d)%Z ->
          Opp.calling_tendency t = Opp.calling_tendency d)).
Proof.
  cbv zeta. unfold SharkAI.tendencies. split.
  - intros H. apply Z.ltb_lt in H. rewrite H. reflexivity.
  - intros H. assert (E : (Opp.hands_observed d <? 3)%Z = false)
      by (apply Z.ltb_ge; exact H).
    rewrite E. cbn [Opp.fold_tendency Opp.bluff_tendency Opp.calling_tendency
                    Opp.set_tendencies].
    assert (Hh : 0 < inject_Z (Opp.hands_observed d)) by (apply inject_Z_pos; lia).
    split; [|split; [|split; [|split]]].
    + rewrite py_min_gt, py_max_gt.
      assert (Hq : 6#10 < inject_Z (Opp.folds d) / inject_Z (Opp.hands_observed d) * 2
                   <-> (3 * Opp.hands_observed d < 10 * Opp.folds d)%Z).
      { assert (E2 : inject_Z (Opp.folds d) / inject_Z (Opp.hands_observed d) * 2
                     == inject_Z (Opp.folds d) * 2 / inject_Z (Opp.hands_observed d))
          by (field; lra).
        rewrite E2, (Qlt_div_iff _ _ _ Hh). unfold Qlt. cbn. lia. }
      rewrite <- Hq. split; [intros [_ [H0 | H1]]; [lra|exact H1]|].
      intros H1. split; [reflexivity|right; exact H1].
    + intros Hr. assert (Er : (0 <? Opp.raises d)%Z = true) by (apply Z.ltb_lt, Hr).
      rewrite Er, py_min_gt.
      assert (Hr' : 0 < inject_Z (Opp.raises d)) by (apply inject_Z_pos, Hr).
      assert (Hq : 4#10 < inject_Z (Opp.bluffs_detected d) / inject_Z (Opp.raises d) * 3
                   <-> (2 * Opp.raises d < 15 * Opp.bluffs_detected d)%Z).
      { assert (E2 : inject_Z (Opp.bluffs_detected d) / inject_Z (Opp.raises d) * 3
                     == inject_Z (Opp.bluffs_detected d) * 3 / inject_Z (Opp.raises d))
          by (field; lra).
        rewrite E2, (Qlt_div_iff _ _ _ Hr'). unfold Qlt. cbn. lia. }
      rewrite <- Hq. split; [intros [_ H1]; exact H1|].
      intros H1. split; [reflexivity|exact H1].
    + intros Hr. assert (Er : (0 <? Opp.raises d)%Z = false) by (apply Z.ltb_ge, Hr).
      rewrite Er. reflexivity.
    + intros Hf.
      assert (Ef : (Opp.folds d <? Opp.hands_observed d)%Z = true)
        by (apply Z.ltb_lt, Hf).
      rewrite Ef, py_min_gt, py_max_gt.
      assert (Hd : 0 < inject_Z (Opp.hands_observed d - Opp.folds d))
        by (apply inject_Z_pos; lia).
      assert (Hq : 5#10 < inject_Z (Opp.calls d)
                          / inject_Z (Opp.hands_observed d - Opp.folds d)
                   <-> (Opp.hands_observed d - Opp.folds d < 2 * Opp.calls d)%Z).
      { rewrite (Qlt_div_iff _ _ _ Hd). unfold Qlt. cbn. lia. }
      rewrite <- Hq. split; [intros [_ [H0 | H1]]; [lra|exact H1]|].
      intros H1. split; [reflexivity|right; exact H1].
    + intros Hf.
      assert (Ef : (Opp.folds d <? Opp.hands_observed d)%Z = false)
        by (apply Z.ltb_ge, Hf).
      rewrite Ef. reflexivity.
Qed.

(** ** The effective stack *)

Lemma sum_chips_acc (l : list Player) (acc : Z) :
  fold_left (fun a p => (a + chips p)%Z) l acc
  = (acc + fold_left (fun a p => (a + chips p)%Z) l 0)%Z.
Proof.
  revert acc. induction l as [|p l IH]; intros acc; simpl; [lia|].
  rewrite IH, (IH (0 + chips p)%Z). lia.
Qed.

Lemma sum_chips_ge (l : list Player) (p : Player) :
  Forall (fun q => (0 <= chips q)%Z) l -> In p l ->
  (chips p <= fold_left (fun a q => (a + chips q)%Z) l 0)%Z.
Proof.
  induction 1 as [|q l Hq Hl IH]; intros Hin; [destruct Hin|].
  simpl. rewrite sum_chips_acc.
  assert (0 <= fold_left (fun a q => (a + chips q)%Z) l 0)%Z.
  { clear IH Hin. induction Hl as [|x l Hx _ IHl]; simpl; [lia|].
    rewrite sum_chips_acc. lia. }
  destruct Hin as [-> | Hin]; [lia|]. specialize (IH Hin). lia.
Qed.

(** X25. The effective stack that the main decision method stores.
    When the deciding player is one of at most two active players and no
    active player has a negative stack, it is the player's own stack:
    heads-up, the opponent's stack plays no part in it. *)
Theorem effective_stack_heads_up (action_is_str : bool) (self : SharkAI.t)
    (req : DecisionRequest) (rnd : Q) :
  let active := List.filter is_active (req_players req) in
  In (req_player req) active ->
  (length active <= 2)%nat ->
  Forall (fun p => (0 <= chips p)%Z) active ->
  SharkAI.effective_stack (fst (SharkAI.get_action action_is_str self req rnd))
  = inject_Z (chips (req_player req)).
Proof.
  cbv zeta. intros Hin Hlen Hall.
  assert (E : SharkAI.effective_stack_of (req_player req) (req_players req)
              = inject_Z (chips (req_player req))).
  { unfold SharkAI.effective_stack_of, py_min.
    pose proof (sum_chips_ge _ _ Hall Hin) as Hsum.
    set (total := fold_left _ _ 0%Z) in *.
    assert (Em : Z.max 1 (Z.of_nat (length (List.filter is_active (req_players req))) - 1)
                 = 1%Z) by lia.
    rewrite Em.
    assert (Hq : Qltb (inject_Z total / inject_Z 1)
                      (inject_Z (chips (req_player req))) = false).
    { apply Qltb_false.
      assert (E1 : inject_Z total / inject_Z 1 == inject_Z total) by (field; discriminate).
      rewrite E1. rewrite <- Zle_Qle. exact Hsum. }
    rewrite Hq. reflexivity. }
  unfold SharkAI.get_action. cbv zeta.
  destruct (DrawEvaluator.identify_draws _ _); cbn; exact E.
Qed.

Lemma effective_stack_heads_up_witness :
  SharkAI.effective_stack
    (fst (SharkAI.get_action true SharkAI.__init__ short_stack_free_check 0))
  = inject_Z (chips (req_player short_stack_free_check)).
Proof.
  apply (effective_stack_heads_up true SharkAI.__init__ short_stack_free_check 0).
  - left. reflexivity.
  - simpl. lia.
  - repeat constructor; simpl; lia.
Defined.

(** ** Requests answered by one rule *)



(** X27. A pre-community request by a player who is neither the dealer
    nor the small blind, with a hand strength below 0.70:
    [get_position] gives such a player the position BB or MP, never CO
    or EP, so the late-position steal does not apply and the answer is
    check when the call cost is <= 0 and check is legal, and fold
    otherwise; the method never calls or raises here.  The only possible
    errors are those of the draw and odds calculations. *)
Theorem get_action_preflop_out_of_position (action_is_str : bool)
    (self : SharkAI.t) (req : DecisionRequest) (rnd : Q) :
  req_state req = PRE_FLOP ->
  is_dealer (req_player req) = false ->
  is_small_blind (req_player req) = false ->
  req_hand_strength req < 70#100 ->
  match snd (SharkAI.get_action action_is_str self req rnd) with
  | Ok r =>
      r = if (req_amount_to_call req <=? 0)%Z
             && in_names "check"
                  (SharkAI.available_names_of (req_available_actions req))
          then (CHECK, 0%Z) else (FOLD, 0%Z)
  | Raise e => e = IndexError \/ e = ZeroDivisionError
  end.
Proof.
  intros Hstate Hd Hsb Hhs. unfold SharkAI.get_action. cbv zeta.
  destruct (identify_draws_result (default [] (hand (req_player req)))
              (req_community_cards req))
    as [(_ & _ & ->) | (_ & draws & ->)]; cbn [snd]; [left; reflexivity|].
  cbn [SharkAI.effective_stack SharkAI.current_street SharkAI.current_config
       SharkAI.set_effective_stack SharkAI.set_current_street].
  destruct (pot_odds_result (req_amount_to_call req) (req_total_pot req)
              (SharkAI.effective_stack_of (req_player req) (req_players req))
              (SharkAI.street_of (req_state req))
              (DrawEvaluator.calculate_total_equity draws))
    as [(_ & _ & ->) | (_ & q & d & b & -> & -> & _)]; cbn [bind];
    [right; reflexivity|].
  rewrite Hstate. cbn [SharkAI.is_preflop].
  unfold PositionAwareness.get_position. rewrite Hd, Hsb.
  unfold SharkAI._preflop_decision.
  assert (H80 : Qle_bool (80#100) (req_hand_strength req) = false).
  { destruct (Qle_bool (80#100) _) eqn:E; [|reflexivity].
    apply Qle_bool_iff in E. lra. }
  assert (H70 : Qle_bool (70#100) (req_hand_strength req) = false).
  { destruct (Qle_bool (70#100) _) eqn:E; [|reflexivity].
    apply Qle_bool_iff in E. lra. }
  rewrite H80, H70.
  destruct (is_big_blind (req_player req));
    destruct (Qltb (req_hand_strength req) _); reflexivity.
Qed.

Lemma get_action_preflop_out_of_position_witness :
  match snd (SharkAI.get_action true SharkAI.__init__
               (mkRequest hero [FOLD; CHECK] 0 0 30 [hero; villain] []
                          PRE_FLOP (2#10) (2#10) 0 0) 0) with
  | Ok r =>
      r = if (0 <=? 0)%Z
             && in_names "check" (SharkAI.available_names_of [FOLD; CHECK])
          then (CHECK, 0%Z) else (FOLD, 0%Z)
  | Raise e => e = IndexError \/ e = ZeroDivisionError
  end.
Proof.
  apply (get_action_preflop_out_of_position true SharkAI.__init__
           (mkRequest hero [FOLD; CHECK] 0 0 30 [hero; villain] []
                      PRE_FLOP (2#10) (2#10) 0 0) 0).
  - reflexivity.
  - reflexivity.
  - reflexivity.
  - reflexivity.
Defined.
